(** * Entity mutation protocol of [eventsourcing.domain.model.entity]

    A shallow embedding of the classes of [entity.py]: an entity is its
    concrete class together with its instance [__dict__]; an event is its
    event class together with its [__dict__].  Methods that mutate the
    target in place and may raise are functions in a state-and-exception
    monad whose state (the target object) survives a raise. *)

From Stdlib Require Import ZArith String List Lia.
From stdpp Require Import base option gmap strings.

Local Open Scope string_scope.
Local Open Scope Z_scope.

(** ** Python values *)

Inductive Val : Type :=
| VNone
| VBool (b : bool)
| VInt (n : Z)
| VStr (s : string)
| VUuid (u : Z)
| VObj (s : string).

#[global] Instance Val_eq_dec : EqDecision Val.
Proof. solve_decision. Defined.

(** Python's [==] on the values above: [bool] is a subclass of [int]. *)
Definition as_int (v : Val) : option Z :=
  match v with
  | VInt n => Some n
  | VBool b => Some (if b then 1 else 0)
  | _ => None
  end.

Definition py_eq (a b : Val) : bool :=
  match as_int a, as_int b with
  | Some x, Some y => bool_decide (x = y)
  | None, None => bool_decide (a = b)
  | _, _ => false
  end.

(** Truth value of an object, as tested by [if x:]. *)
Definition truthy (v : Val) : bool :=
  match v with
  | VNone => false
  | VBool b => b
  | VInt n => negb (bool_decide (n = 0))
  | VStr s => negb (bool_decide (s = ""))
  | VUuid _ => true
  | VObj _ => true
  end.

(** ** Classes *)

Inductive EntityClass : Type :=
| DomainEntity
| EntityWithHashchain
| VersionedEntity
| TimestampedEntity
| TimeuuidedEntity
| TimestampedVersionedEntity
| TimeuuidedVersionedEntity.

#[global] Instance EntityClass_eq_dec : EqDecision EntityClass.
Proof. solve_decision. Defined.

(** The entity classes of the module that declare nested event classes. *)
Inductive Owner : Type := ODomain | OHashchain | OVersioned | OTimestamped | OTimestampedVersioned.

Inductive Kind : Type := KEvent | KCreated | KAttributeChanged | KDiscarded.

#[global] Instance Owner_eq_dec : EqDecision Owner.
Proof. solve_decision. Defined.

#[global] Instance Kind_eq_dec : EqDecision Kind.
Proof. solve_decision. Defined.

(** An event class is a nested class [<owner>.<kind>]. *)
Record EventClass : Type := MkEventClass { ec_owner : Owner; ec_kind : Kind }.

#[global] Instance EventClass_eq_dec : EqDecision EventClass.
Proof. solve_decision. Defined.

(** [type(x).__name__] *)
Definition kind_name (k : Kind) : string :=
  match k with
  | KEvent => "Event"
  | KCreated => "Created"
  | KAttributeChanged => "AttributeChanged"
  | KDiscarded => "Discarded"
  end.

Definition class_name (c : EntityClass) : string :=
  match c with
  | DomainEntity => "DomainEntity"
  | EntityWithHashchain => "EntityWithHashchain"
  | VersionedEntity => "VersionedEntity"
  | TimestampedEntity => "TimestampedEntity"
  | TimeuuidedEntity => "TimeuuidedEntity"
  | TimestampedVersionedEntity => "TimestampedVersionedEntity"
  | TimeuuidedVersionedEntity => "TimeuuidedVersionedEntity"
  end.

(** Attribute lookup [cls.Created], [cls.Discarded], ... along the MRO of
    the entity class: the first class in the MRO that declares events. *)
Definition events_owner (c : EntityClass) : Owner :=
  match c with
  | DomainEntity => ODomain
  | EntityWithHashchain => OHashchain
  | VersionedEntity => OVersioned
  | TimestampedEntity => OTimestamped
  | TimeuuidedEntity => ODomain
  | TimestampedVersionedEntity => OTimestampedVersioned
  | TimeuuidedVersionedEntity => OVersioned
  end.

Definition event_class_of (c : EntityClass) (k : Kind) : EventClass :=
  MkEventClass (events_owner c) k.

(** Which extension event supertypes an event class has among its bases. *)
Definition has_hash (o : Owner) : bool :=
  match o with OHashchain => true | _ => false end.

Definition has_version (o : Owner) : bool :=
  match o with OVersioned | OTimestampedVersioned => true | _ => false end.

Definition has_timestamp (o : Owner) : bool :=
  match o with OTimestamped | OTimestampedVersioned => true | _ => false end.

(** ** Objects *)

Record Entity : Type := MkEntity { e_class : EntityClass; e_dict : gmap string Val }.

Record Event : Type := MkEvent { ev_class : EventClass; ev_dict : gmap string Val }.

#[global] Instance Entity_eq_dec : EqDecision Entity.
Proof. solve_decision. Defined.

#[global] Instance Event_eq_dec : EqDecision Event.
Proof. solve_decision. Defined.

(** ** Exceptions *)

Inductive Exn : Type :=
| OriginatorIDError (obj_id ev_originator_id : Val)
| HeadHashError (obj_id head : Val) (event_type : EventClass)
| OriginatorVersionError (ev_version obj_version : Val)
    (event_type_name entity_type_name : string) (obj_id : Val)
| EntityIsDiscarded
| AssertionError
| TypeError
| AttributeError
| KeyError
| TopicResolutionError.

Inductive Result (A : Type) : Type :=
| Ok (a : A)
| Raise (x : Exn).

Arguments Ok {A} a.
Arguments Raise {A} x.

(** ** The target object as state

    [__mutate__] receives [obj], which is [None] or an instance that it
    updates in place.  The state of a call is that target: [None] when
    there is no object, [Some e] for the instance with class and
    [__dict__] [e].  A raise keeps the state reached so far. *)

Definition Heap : Type := option Entity.

Definition M (A : Type) : Type := Heap -> Result A * Heap.

Definition ret {A} (a : A) : M A := fun h => (Ok a, h).

Definition raise {A} (x : Exn) : M A := fun h => (Raise x, h).

Definition bind {A B} (m : M A) (f : A -> M B) : M B :=
  fun h => match m h with
           | (Ok a, h') => f a h'
           | (Raise x, h') => (Raise x, h')
           end.

Notation "'do' x <- m ; k" := (bind m (fun x => k))
  (at level 10, x name, m at level 100, k at level 200).
Notation "'run' m ; k" := (bind m (fun _ => k))
  (at level 10, m at level 100, k at level 200).

(** What a [__mutate__] call hands back: [None] or the object. *)
Inductive Ref : Type := RNone | RObj.

(** [obj.<name>] for a plain instance attribute. *)
Definition get_field (name : string) : M Val :=
  fun h => match h with
           | Some e => match e_dict e !! name with
                       | Some v => (Ok v, h)
                       | None => (Raise AttributeError, h)
                       end
           | None => (Raise AttributeError, h)
           end.

(** [obj.<name> = v] for a plain instance attribute. *)
Definition upd (e : Entity) (name : string) (v : Val) : Entity :=
  MkEntity (e_class e) (<[name := v]> (e_dict e)).

Definition set_field (name : string) (v : Val) : M unit :=
  fun h => match h with
           | Some e => (Ok tt, Some (upd e name v))
           | None => (Raise AttributeError, h)
           end.

(** Names that are read-only properties of a class: assigning to them
    through [setattr] raises. *)
Definition is_versioned (c : EntityClass) : bool :=
  match c with
  | VersionedEntity | TimestampedVersionedEntity | TimeuuidedVersionedEntity => true
  | _ => false
  end.

Definition is_timed (c : EntityClass) : bool :=
  match c with
  | TimestampedEntity | TimeuuidedEntity
  | TimestampedVersionedEntity | TimeuuidedVersionedEntity => true
  | _ => false
  end.

Definition is_property (c : EntityClass) (name : string) : bool :=
  bool_decide (name = "id")
  || (is_versioned c && bool_decide (name = "__version__"))
  || (is_timed c && (bool_decide (name = "__created_on__")
                     || bool_decide (name = "__last_modified__"))).

(** [setattr(obj, name, value)] for the names that Python keeps in the
    instance dictionary, and for the read-only properties of the class.
    The three names that the object protocol itself owns ([__class__],
    [__dict__], [__weakref__], see [special_name]) are not instance
    attributes: assigning to them is outside this definition. *)
Definition special_name (name : string) : bool :=
  bool_decide (name = "__class__") || bool_decide (name = "__dict__")
  || bool_decide (name = "__weakref__").

Definition py_setattr (name : string) (v : Val) : M unit :=
  fun h => match h with
           | Some e => if is_property (e_class e) name
                       then (Raise AttributeError, h)
                       else set_field name v h
           | None => (Raise AttributeError, h)
           end.

(** [obj.id]: the property reads [self._id]. *)
Definition get_id : M Val := get_field "_id".

(** [obj.__version__]: a property reading [self.___version__] on the
    versioned classes, a plain attribute lookup elsewhere. *)
Definition get_version : M Val :=
  fun h => match h with
           | Some e => if is_versioned (e_class e)
                       then get_field "___version__" h
                       else get_field "__version__" h
           | None => (Raise AttributeError, h)
           end.

(** [x + 1] *)
Definition py_succ (v : Val) : Result Val :=
  match as_int v with
  | Some n => Ok (VInt (n + 1))
  | None => Raise TypeError
  end.

Definition lift {A} (r : Result A) : M A := fun h => (r, h).

(** [self.__dict__[key]] of an event, as read by its properties. *)
Definition ev_get (ev : Event) (key : string) : Result Val :=
  match ev_dict ev !! key with
  | Some v => Ok v
  | None => Raise KeyError
  end.

(** [self.__dict__.get(key)] *)
Definition ev_get_or_none (ev : Event) (key : string) : Val :=
  default VNone (ev_dict ev !! key).

(** Sequencing of fallible pure steps. *)
Definition rbind {A B} (r : Result A) (f : A -> Result B) : Result B :=
  match r with
  | Ok a => f a
  | Raise x => Raise x
  end.

Notation "'try' x <- r ; k" := (rbind r (fun x => k))
  (at level 10, x name, r at level 100, k at level 200).

(** ** Entity constructors

    Calling an entity class with keyword arguments: every [__init__] takes its own named
    parameter out of the keyword arguments and passes the rest on to the
    next [__init__] in the MRO; [DomainEntity.__init__(self, id)] accepts
    [id] and nothing else.  The result is the instance [__dict__]. *)

Definition pop_arg (name : string) (kw : gmap string Val)
  : Result (Val * gmap string Val) :=
  match kw !! name with
  | Some v => Ok (v, delete name kw)
  | None => Raise TypeError
  end.

Definition InitFn : Type := gmap string Val -> Result (gmap string Val).

Definition DomainEntity_init : InitFn := fun kw =>
  try p <- pop_arg "id" kw;
  if bool_decide (p.2 = ∅)
  then Ok (<["__is_discarded__" := VBool false]> (<["_id" := p.1]> ∅))
  else Raise TypeError.

Definition VersionedEntity_init (super : InitFn) : InitFn := fun kw =>
  try p <- pop_arg "__version__" kw;
  try d <- super p.2;
  Ok (<["___version__" := p.1]> d).

Definition TimestampedEntity_init (super : InitFn) : InitFn := fun kw =>
  try p <- pop_arg "__created_on__" kw;
  try d <- super p.2;
  Ok (<["___last_modified__" := p.1]> (<["___created_on__" := p.1]> d)).

Definition TimeuuidedEntity_init (super : InitFn) : InitFn := fun kw =>
  try p <- pop_arg "event_id" kw;
  try d <- super p.2;
  Ok (<["___last_event_id__" := p.1]> (<["___initial_event_id__" := p.1]> d)).

Section Protocol.

(** The collaborators that live outside [entity.py]: the genesis constant
    and the digest of an event's field set. *)
Variable GENESIS_HASH : Val.
Variable hash_of : gmap string Val -> Val.

Definition EntityWithHashchain_init (super : InitFn) : InitFn := fun kw =>
  try d <- super kw;
  Ok (<["__head__" := GENESIS_HASH]> d).

(** The [__init__] reached by calling [c], following the MRO of [c]. *)
Definition class_init (c : EntityClass) : InitFn :=
  match c with
  | DomainEntity => DomainEntity_init
  | EntityWithHashchain => EntityWithHashchain_init DomainEntity_init
  | VersionedEntity => VersionedEntity_init DomainEntity_init
  | TimestampedEntity => TimestampedEntity_init DomainEntity_init
  | TimeuuidedEntity => TimeuuidedEntity_init DomainEntity_init
  | TimestampedVersionedEntity =>
      TimestampedEntity_init (VersionedEntity_init DomainEntity_init)
  | TimeuuidedVersionedEntity =>
      TimeuuidedEntity_init (VersionedEntity_init DomainEntity_init)
  end.

Definition construct (c : EntityClass) (kw : gmap string Val) : Result Entity :=
  try d <- class_init c kw;
  Ok (MkEntity c d).

(** ** Topics *)

Definition all_classes : list EntityClass :=
  [DomainEntity; EntityWithHashchain; VersionedEntity; TimestampedEntity;
   TimeuuidedEntity; TimestampedVersionedEntity; TimeuuidedVersionedEntity].

(** Modelled from the spec: the type registry of [eventsourcing.utils.topic]
    ([get_topic], [resolve_topic]) is not part of [entity.py].  The spec
    gives a mapping between a string identifier and a concrete type:
    [getTopic(type) -> string] and [resolve(topic) -> type]. *)
Definition get_topic (c : EntityClass) : Val :=
  VStr ("eventsourcing.domain.model.entity#" ++ class_name c).

Definition resolve_topic (t : Val) : Result EntityClass :=
  match List.find (fun c => bool_decide (get_topic c = t)) all_classes with
  | Some c => Ok c
  | None => Raise TopicResolutionError
  end.

(** ** [__entity_kwargs__] of the Created events *)

Definition KwFn : Type := gmap string Val -> Result (gmap string Val).

(** [kwargs[new] = kwargs.pop(old)] *)
Definition rename_key (old new : string) (d : gmap string Val)
  : Result (gmap string Val) :=
  match d !! old with
  | Some v => Ok (<[new := v]> (delete old d))
  | None => Raise KeyError
  end.

Definition DomainEntity_Created_entity_kwargs : KwFn := fun d =>
  try k <- rename_key "originator_id" "id" d;
  Ok (delete "__event_topic__" (delete "originator_topic" k)).

Definition EntityWithHashchain_Created_entity_kwargs (super : KwFn) : KwFn := fun d =>
  try k <- super d;
  Ok (delete "__previous_hash__" (delete "__event_hash__" k)).

Definition VersionedEntity_Created_entity_kwargs (super : KwFn) : KwFn := fun d =>
  try k <- super d;
  rename_key "originator_version" "__version__" k.

Definition TimestampedEntity_Created_entity_kwargs (super : KwFn) : KwFn := fun d =>
  try k <- super d;
  rename_key "timestamp" "__created_on__" k.

Definition entity_kwargs (ev : Event) : Result (gmap string Val) :=
  match ec_owner (ev_class ev) with
  | ODomain => DomainEntity_Created_entity_kwargs (ev_dict ev)
  | OHashchain =>
      EntityWithHashchain_Created_entity_kwargs
        DomainEntity_Created_entity_kwargs (ev_dict ev)
  | OVersioned =>
      VersionedEntity_Created_entity_kwargs
        DomainEntity_Created_entity_kwargs (ev_dict ev)
  | OTimestamped =>
      TimestampedEntity_Created_entity_kwargs
        DomainEntity_Created_entity_kwargs (ev_dict ev)
  | OTimestampedVersioned =>
      TimestampedEntity_Created_entity_kwargs
        (VersionedEntity_Created_entity_kwargs
           DomainEntity_Created_entity_kwargs) (ev_dict ev)
  end.

(** ** [__check_obj__] *)

Definition DomainEntity_Event_check_obj (ev : Event) : M unit := fun h =>
  match h with
  | None => (Raise AssertionError, h)
  | Some _ =>
      (do i <- get_id;
       do o <- lift (ev_get ev "originator_id");
       if py_eq i o then ret tt else raise (OriginatorIDError i o)) h
  end.

Definition EntityWithHashchain_Event_check_obj (ev : Event) : M unit :=
  run DomainEntity_Event_check_obj ev;
  do head <- get_field "__head__";
  if py_eq head (ev_get_or_none ev "__previous_hash__") then ret tt
  else do i <- get_id;
       do head' <- get_field "__head__";
       raise (HeadHashError i head' (ev_class ev)).

Definition VersionedEntity_Event_check_obj (ev : Event) : M unit :=
  run DomainEntity_Event_check_obj ev;
  do ov <- lift (ev_get ev "originator_version");
  do v <- get_version;
  do next <- lift (py_succ v);
  if py_eq ov next then ret tt
  else fun h =>
    match h with
    | Some e =>
        (do ov' <- lift (ev_get ev "originator_version");
         do v' <- get_version;
         do i <- get_field "_id";
         raise (OriginatorVersionError ov' v'
                  (kind_name (ec_kind (ev_class ev)))
                  (class_name (e_class e)) i)) h
    | None => (Raise AttributeError, h)
    end.

(** The [__check_obj__] found first in the MRO of the event class. *)
Definition check_obj (ev : Event) : M unit :=
  match ec_owner (ev_class ev) with
  | ODomain | OTimestamped => DomainEntity_Event_check_obj ev
  | OHashchain => EntityWithHashchain_Event_check_obj ev
  | OVersioned | OTimestampedVersioned => VersionedEntity_Event_check_obj ev
  end.

(** ** [__mutate__]

    Every layer is the body of one [__mutate__] of the source; [super] is
    the next [__mutate__] in the MRO of the event class.  The argument
    [obj] of a call is the state: [None] or the instance. *)

(** Modelled from the spec: [DomainEvent.__mutate__] of
    [eventsourcing.domain.model.events], the end of every [super] chain, is
    not part of [entity.py], and no method of [entity.py] calls
    [__check_obj__].  The spec's pipeline is: the checks of the active
    extensions run, read-only, then the mutation steps run; a failed check
    fails the application, and the base check requires a target.  The
    checks are run here, where the [super] chain ends: this is the one
    point of a call of [event.__mutate__] that [entity.py] leaves to the
    absent module.  Of the [__mutate__] methods of [entity.py] that call
    [super], all but one call it before their own assignments, so that
    there the checks come first, as the spec has it;
    [EntityWithHashchain.Discarded.__mutate__] assigns [__head__] before
    it calls [super], and what a check finds after that assignment
    follows from this placement, not from [entity.py]: no property below
    rests on it.  The other event supertypes of that module
    ([EventWithHash], [EventWithTimestamp], [EventWithOriginatorVersion],
    the base kinds) are taken to add no step of their own to
    [__mutate__]. *)
Definition DomainEvent_mutate (ev : Event) : M Ref :=
  run check_obj ev; ret RObj.

(** A statement on the object a [super] call returned. *)
Definition on_ref (r : Ref) (m : M unit) : M unit :=
  match r with
  | RObj => m
  | RNone => raise AttributeError
  end.

Definition when_ref (r : Ref) (m : M unit) : M unit :=
  match r with
  | RObj => m
  | RNone => ret tt
  end.

(** [cls] is the class object handed in as [obj], if any: the case the
    source casts to [MetaDomainEntity].  An instance is not callable. *)
Definition DomainEntity_Created_mutate (ev : Event) (cls : option EntityClass)
  : M Ref := fun h =>
  match h with
  | Some _ =>
      match entity_kwargs ev with
      | Ok _ => (Raise TypeError, h)
      | Raise x => (Raise x, h)
      end
  | None =>
      let entity_class :=
        match cls with
        | Some c => Ok c
        | None => try t <- ev_get ev "originator_topic"; resolve_topic t
        end in
      match (try c <- entity_class;
             try kw <- entity_kwargs ev;
             construct c kw) with
      | Ok e => (Ok RObj, Some e)
      | Raise x => (Raise x, None)
      end
  end.

Definition DomainEntity_AttributeChanged_mutate (ev : Event) (super : M Ref)
  : M Ref :=
  do obj <- super;
  do name <- lift (ev_get ev "name");
  do value <- lift (ev_get ev "value");
  run on_ref obj
    (match name with
     | VStr s => py_setattr s value
     | _ => raise TypeError
     end);
  ret obj.

Definition DomainEntity_Discarded_mutate (ev : Event) (super : M Ref) : M Ref :=
  do obj <- super;
  run on_ref obj (set_field "__is_discarded__" (VBool true));
  ret RNone.

Definition EntityWithHashchain_Event_mutate (ev : Event) (super : M Ref) : M Ref :=
  do obj <- super;
  run when_ref obj
    (do hash <- lift (ev_get ev "__event_hash__");
     set_field "__head__" hash);
  ret obj.

Definition EntityWithHashchain_Discarded_mutate (ev : Event) (super : M Ref)
  : M Ref :=
  do hash <- lift (ev_get ev "__event_hash__");
  run set_field "__head__" hash;
  super.

Definition VersionedEntity_Event_mutate (ev : Event) (super : M Ref) : M Ref :=
  do obj <- super;
  run when_ref obj
    (do v <- lift (ev_get ev "originator_version");
     set_field "___version__" v);
  ret obj.

Definition is_TimestampedEntity (c : EntityClass) : bool :=
  match c with
  | TimestampedEntity | TimestampedVersionedEntity => true
  | _ => false
  end.

Definition TimestampedEntity_Event_mutate (ev : Event) (super : M Ref) : M Ref :=
  do obj <- super;
  run when_ref obj
    (fun h =>
       match h with
       | Some e =>
           if is_TimestampedEntity (e_class e)
           then (do t <- lift (ev_get ev "timestamp");
                 set_field "___last_modified__" t) h
           else (Raise AssertionError, h)
       | None => (Raise AssertionError, h)
       end);
  ret obj.

(** The part of the chain below the extension layers: the [__mutate__] of
    the base kind in [DomainEntity]. *)
Definition kind_mutate (ev : Event) (cls : option EntityClass) : M Ref :=
  match ec_kind (ev_class ev) with
  | KEvent => DomainEvent_mutate ev
  | KCreated => DomainEntity_Created_mutate ev cls
  | KAttributeChanged =>
      DomainEntity_AttributeChanged_mutate ev (DomainEvent_mutate ev)
  | KDiscarded => DomainEntity_Discarded_mutate ev (DomainEvent_mutate ev)
  end.

(** [event.__mutate__(obj)], resolved along the MRO of the event class. *)
Definition mutate_on (ev : Event) (cls : option EntityClass) : M Ref :=
  match ec_owner (ev_class ev), ec_kind (ev_class ev) with
  | ODomain, _ => kind_mutate ev cls
  | OHashchain, KDiscarded =>
      EntityWithHashchain_Discarded_mutate ev
        (EntityWithHashchain_Event_mutate ev (kind_mutate ev cls))
  | OHashchain, _ => EntityWithHashchain_Event_mutate ev (kind_mutate ev cls)
  | OVersioned, KCreated => kind_mutate ev cls
  | OVersioned, _ => VersionedEntity_Event_mutate ev (kind_mutate ev cls)
  | OTimestamped, KCreated => kind_mutate ev cls
  | OTimestamped, _ => TimestampedEntity_Event_mutate ev (kind_mutate ev cls)
  | OTimestampedVersioned, KCreated => kind_mutate ev cls
  | OTimestampedVersioned, _ =>
      TimestampedEntity_Event_mutate ev
        (VersionedEntity_Event_mutate ev (kind_mutate ev cls))
  end.

(** The target is [None] or an instance. *)
Definition mutate (ev : Event) : M Ref := mutate_on ev None.

(** [DomainEntity.__mutate__(self, event)]: the entity hands itself to the
    event and drops what the event returns. *)
Definition DomainEntity_mutate (ev : Event) : M unit :=
  run mutate ev; ret tt.


(** ** Event construction *)

Definition owner_name (o : Owner) : string :=
  match o with
  | ODomain => "DomainEntity"
  | OHashchain => "EntityWithHashchain"
  | OVersioned => "VersionedEntity"
  | OTimestamped => "TimestampedEntity"
  | OTimestampedVersioned => "TimestampedVersionedEntity"
  end.

Definition event_topic (c : EventClass) : Val :=
  VStr ("eventsourcing.domain.model.entity#"
        ++ owner_name (ec_owner c) ++ "." ++ kind_name (ec_kind c)).

(** Modelled from the spec: the [__init__] of the event supertypes
    ([DomainEvent], [EventWithTimestamp], [EventWithHash]) lives in
    [eventsourcing.domain.model.events].  Per the spec an event is a record
    of the fields it is constructed with, plus what the composed
    extensions stamp: the current time as [timestamp], and the event's own
    digest [__event_hash__], computed by the hashing collaborator over its
    field set (which carries the tag [__event_topic__] of the event kind).
    From [entity.py]: [DomainEntity.Created.__init__] requires
    [originator_topic] and [VersionedEntity.Created.__init__] defaults
    [originator_version] to 0. *)
Definition new_event (now : Val) (cls : EventClass) (kwargs : gmap string Val)
  : Result Event :=
  let o := ec_owner cls in
  let k := ec_kind cls in
  if bool_decide (k = KCreated) && bool_decide (kwargs !! "originator_topic" = None)
  then Raise TypeError
  else
    let d1 :=
      if has_version o && bool_decide (k = KCreated)
         && bool_decide (kwargs !! "originator_version" = None)
      then <["originator_version" := VInt 0]> kwargs else kwargs in
    let d2 :=
      if has_timestamp o && bool_decide (d1 !! "timestamp" = None)
      then <["timestamp" := now]> d1 else d1 in
    let d3 :=
      if has_hash o
      then let d := <["__event_topic__" := event_topic cls]> d2 in
           <["__event_hash__" := hash_of d]> d
      else d2 in
    Ok (MkEvent cls d3).

(** [event_class(key=v, **kwargs)]: a keyword given twice is a TypeError. *)
Definition with_keyword (key : string) (v : Val) (kwargs : gmap string Val)
  : Result (gmap string Val) :=
  match kwargs !! key with
  | Some _ => Raise TypeError
  | None => Ok (<[key := v]> kwargs)
  end.

(** ** Triggering and creating

    The state of these operations is the entity together with the events
    handed so far to [publish], the publish-subscribe collaborator. *)

Definition T (A : Type) : Type := Heap * list Event -> Result A * (Heap * list Event).

(** A step on the entity alone. *)
Definition on_entity {A} (m : M A) : T A := fun s =>
  match m s.1 with
  | (r, h) => (r, (h, s.2))
  end.

Definition tbind {A B} (m : T A) (f : A -> T B) : T B := fun s =>
  match m s with
  | (Ok a, s') => f a s'
  | (Raise x, s') => (Raise x, s')
  end.

Notation "'dot' x <- m ; k" := (tbind m (fun x => k))
  (at level 10, x name, m at level 100, k at level 200).

(** [__publish__] and [__publish_to_subscribers__]: [publish(event)]. *)
Definition publish (ev : Event) : T unit := fun s => (Ok tt, (s.1, (s.2 ++ [ev])%list)).

Definition assert_not_discarded : M unit :=
  do d <- get_field "__is_discarded__";
  if truthy d then raise EntityIsDiscarded else ret tt.

(** The names [__change_attribute__], [__discard__] and
    [__trigger_event__] look up on [self] to call them.  They are
    attributes of the class that an instance attribute of the same name
    would hide, and calling the value found in its place raises. *)
Definition method_names : list string :=
  ["__trigger_event__"; "AttributeChanged"; "Discarded";
   "__assert_not_discarded__"; "__mutate__"; "__publish__";
   "__publish_to_subscribers__"].

Definition method_name (name : string) : bool :=
  bool_decide (name ∈ method_names).

Definition hides_method (e : Entity) : bool :=
  existsb (fun n => bool_decide (is_Some (e_dict e !! n))) method_names.

(** [DomainEntity.__trigger_event__].  The three calls on [self] are
    taken to reach the methods of the class: an instance whose dictionary
    holds one of the [method_names] is outside this definition. *)
Definition DomainEntity_trigger_event (now : Val) (event_class : EventClass)
  (kwargs : gmap string Val) : T unit :=
  dot _u <- on_entity assert_not_discarded;
  dot ev <- on_entity
    (do i <- get_field "_id";
     do kw <- lift (with_keyword "originator_id" i kwargs);
     lift (new_event now event_class kw));
  dot _u <- on_entity (DomainEntity_mutate ev);
  publish ev.

Definition EntityWithHashchain_trigger_event (now : Val) (event_class : EventClass)
  (kwargs : gmap string Val) : T unit :=
  dot head <- on_entity (get_field "__head__");
  DomainEntity_trigger_event now event_class (<["__previous_hash__" := head]> kwargs).

Definition VersionedEntity_trigger_event (now : Val) (event_class : EventClass)
  (kwargs : gmap string Val) : T unit :=
  dot kw <- on_entity
    (do v <- get_version;
     do next <- lift (py_succ v);
     lift (with_keyword "originator_version" next kwargs));
  DomainEntity_trigger_event now event_class kw.

(** [self.__trigger_event__(event_class, **kwargs)], resolved along the
    MRO of the entity's class. *)
Definition trigger_event (now : Val) (event_class : EventClass)
  (kwargs : gmap string Val) : T unit := fun s =>
  match s.1 with
  | Some e =>
      match e_class e with
      | EntityWithHashchain =>
          EntityWithHashchain_trigger_event now event_class kwargs s
      | VersionedEntity | TimestampedVersionedEntity | TimeuuidedVersionedEntity =>
          VersionedEntity_trigger_event now event_class kwargs s
      | DomainEntity | TimestampedEntity | TimeuuidedEntity =>
          DomainEntity_trigger_event now event_class kwargs s
      end
  | None => (Raise AttributeError, s)
  end.

(** [__discard__] and [__change_attribute__] *)
Definition discard (now : Val) : T unit := fun s =>
  match s.1 with
  | Some e => trigger_event now (event_class_of (e_class e) KDiscarded) ∅ s
  | None => (Raise AttributeError, s)
  end.

Definition change_attribute (now : Val) (name : string) (value : Val) : T unit :=
  fun s =>
  match s.1 with
  | Some e =>
      trigger_event now (event_class_of (e_class e) KAttributeChanged)
        (<["value" := value]> (<["name" := VStr name]> ∅)) s
  | None => (Raise AttributeError, s)
  end.

(** [cls.__create__(originator_id, event_class, **kwargs)]: [fresh] is what
    [uuid4()] returns; the result is the new entity and the events handed
    to [publish]. *)
Definition DomainEntity_create (fresh now : Val) (cls : EntityClass)
  (originator_id : Val) (event_class : option EventClass)
  (kwargs : gmap string Val) (published : list Event)
  : Result Entity * list Event :=
  let oid := if bool_decide (originator_id = VNone) then fresh else originator_id in
  match (try kw1 <- with_keyword "originator_id" oid kwargs;
         try kw2 <- with_keyword "originator_topic" (get_topic cls) kw1;
         new_event now (default (event_class_of cls KCreated) event_class) kw2) with
  | Raise x => (Raise x, published)
  | Ok ev =>
      match mutate ev None with
      | (Ok RObj, Some e) => (Ok e, (published ++ [ev])%list)
      | (Ok _, _) => (Raise AssertionError, published)
      | (Raise x, _) => (Raise x, published)
      end
  end.

Definition create (fresh now : Val) (cls : EntityClass)
  (originator_id : Val) (event_class : option EventClass)
  (kwargs : gmap string Val) (published : list Event)
  : Result Entity * list Event :=
  match cls with
  | EntityWithHashchain =>
      DomainEntity_create fresh now cls originator_id event_class
        (<["__previous_hash__" := GENESIS_HASH]> kwargs) published
  | _ => DomainEntity_create fresh now cls originator_id event_class kwargs published
  end.

(** [DomainEntity.__eq__] *)
Definition entity_eq (a b : Entity) : bool :=
  bool_decide (e_class a = e_class b)
  && bool_decide (dom (e_dict a) = dom (e_dict b))
  && forallb (fun kv : string * Val =>
       match e_dict b !! kv.1 with Some w => py_eq kv.2 w | None => false end)
       (map_to_list (e_dict a)).

End Protocol.

(** ** Replaying a history *)

(** [obj = event.__mutate__(obj)] for each event in order: the target of
    a call is what the call before it returned.  After an event whose
    [__mutate__] returns [None] (a Discarded event) there is no object,
    whatever was written to the instance it was given. *)
Fixpoint apply_events (G : Val) (evs : list Event) (obj : Heap) : Result Heap :=
  match evs with
  | [] => Ok obj
  | ev :: rest =>
      match mutate G ev obj with
      | (Ok RObj, obj') => apply_events G rest obj'
      | (Ok RNone, _) => apply_events G rest None
      | (Raise x, _) => Raise x
      end
  end.

(** Replay with no live target: the first event (the Created event) is
    applied to [None], every later event to what the one before it
    returned. *)
Definition replay (G : Val) (history : list Event) : Result Heap :=
  apply_events G history None.

(** A sequence of [__trigger_event__] calls, stopping at the first raise. *)
Record Call : Type := MkCall
  { call_now : Val; call_class : EventClass; call_kwargs : gmap string Val }.

Fixpoint trigger_all (G : Val) (H : gmap string Val -> Val) (calls : list Call)
  : T unit := fun s =>
  match calls with
  | [] => (Ok tt, s)
  | c :: rest =>
      match trigger_event G H (call_now c) (call_class c) (call_kwargs c) s with
      | (Ok _, s') => trigger_all G H rest s'
      | (Raise x, s') => (Raise x, s')
      end
  end.

(** Reading the state of an entity. *)
Definition field (e : Entity) (name : string) : option Val := e_dict e !! name.

Definition is_discarded (e : Entity) : bool :=
  match field e "__is_discarded__" with
  | Some d => truthy d
  | None => false
  end.

(** ** Sample data *)

Definition sample_hash (d : gmap string Val) : Val := VInt (100 + Z.of_nat (size d)).

Definition sample_genesis : Val := VStr "genesis".

Definition sample_entity (c : EntityClass) (d : list (string * Val)) : Entity :=
  MkEntity c (list_to_map d).

Definition sample_event (o : Owner) (k : Kind) (d : list (string * Val)) : Event :=
  MkEvent (MkEventClass o k) (list_to_map d).

(** What the [__trigger_event__] of the entity's class adds to the keyword
    arguments before the base method runs. *)
Definition stamped (e : Entity) (kw kw0 : gmap string Val) : Prop :=
  match e_class e with
  | EntityWithHashchain =>
      exists head, field e "__head__" = Some head /\
                   kw0 = <["__previous_hash__" := head]> kw
  | VersionedEntity | TimestampedVersionedEntity | TimeuuidedVersionedEntity =>
      exists v next, field e "___version__" = Some v /\ py_succ v = Ok next /\
                     with_keyword "originator_version" next kw = Ok kw0
  | DomainEntity | TimestampedEntity | TimeuuidedEntity => kw0 = kw
  end.

Definition sample_discarded : Entity :=
  sample_entity DomainEntity [("_id", VUuid 7); ("__is_discarded__", VBool true)].

Definition sample_live : Entity :=
  sample_entity DomainEntity [("_id", VUuid 7); ("__is_discarded__", VBool false)].

Definition sample_change (o : Owner) (extra : list (string * Val)) : Event :=
  sample_event o KAttributeChanged
    ([("originator_id", VUuid 7); ("name", VStr "foo"); ("value", VInt 1)] ++ extra).

(** ** What a successful application does, layer by layer

    These relations restate the effect of a [__mutate__] that returns; the
    lemma [mutate_ok_inv] below derives them from the code. *)

(** The assignment [EntityWithHashchain.Discarded.__mutate__] makes before
    it calls [super]. *)
Definition pre_step (ev : Event) (e e0 : Entity) : Prop :=
  match ec_owner (ev_class ev), ec_kind (ev_class ev) with
  | OHashchain, KDiscarded =>
      exists hash, ev_dict ev !! "__event_hash__" = Some hash /\
                   e0 = upd e "__head__" hash
  | _, _ => e0 = e
  end.

(** The [__mutate__] of the base kind, and what it returns. *)
Definition kind_step (ev : Event) (e0 e1 : Entity) (r : Ref) : Prop :=
  match ec_kind (ev_class ev) with
  | KEvent => e1 = e0 /\ r = RObj
  | KAttributeChanged =>
      exists s v, ev_dict ev !! "name" = Some (VStr s) /\
                  ev_dict ev !! "value" = Some v /\
                  is_property (e_class e0) s = false /\
                  e1 = upd e0 s v /\ r = RObj
  | KDiscarded => e1 = upd e0 "__is_discarded__" (VBool true) /\ r = RNone
  | KCreated => False
  end.

(** The extension layers, which act only on a returned object. *)
Definition ext_step (ev : Event) (r : Ref) (e1 e2 : Entity) : Prop :=
  match r with
  | RNone => e2 = e1
  | RObj =>
      match ec_owner (ev_class ev) with
      | ODomain => e2 = e1
      | OHashchain =>
          exists hash, ev_dict ev !! "__event_hash__" = Some hash /\
                       e2 = upd e1 "__head__" hash
      | OVersioned =>
          exists v, ev_dict ev !! "originator_version" = Some v /\
                    e2 = upd e1 "___version__" v
      | OTimestamped =>
          exists t, ev_dict ev !! "timestamp" = Some t /\
                    is_TimestampedEntity (e_class e1) = true /\
                    e2 = upd e1 "___last_modified__" t
      | OTimestampedVersioned =>
          exists v t, ev_dict ev !! "originator_version" = Some v /\
                      ev_dict ev !! "timestamp" = Some t /\
                      is_TimestampedEntity (e_class e1) = true /\
                      e2 = upd (upd e1 "___version__" v) "___last_modified__" t
      end
  end.

(** A computation that only reads the target. *)
Definition readonly {A} (m : M A) : Prop :=
  forall h r h', m h = (r, h') -> h' = h.

Definition sample_foreign (k : Kind) : Event :=
  sample_event ODomain k [("originator_id", VUuid 8)].

Definition sample_versioned (version : Z) : Entity :=
  sample_entity VersionedEntity
    [("_id", VUuid 7); ("__is_discarded__", VBool false); ("___version__", VInt version)].

Definition sample_chained : Entity :=
  sample_entity EntityWithHashchain
    [("_id", VUuid 7); ("__is_discarded__", VBool false); ("__head__", VStr "H1")].

Definition sample_chain_event (k : Kind) (previous : string) : Event :=
  sample_event OHashchain k
    [("originator_id", VUuid 7); ("__previous_hash__", VStr previous);
     ("__event_hash__", VStr "H2"); ("name", VStr "foo"); ("value", VInt 1)].

Definition sample_calls : list Call :=
  [MkCall (VInt 2000) (MkEventClass OVersioned KAttributeChanged)
     (list_to_map [("name", VStr "foo"); ("value", VInt 1)]);
   MkCall (VInt 3000) (MkEventClass OVersioned KEvent) ∅].

Definition sample_created (c : EntityClass) : Result Entity * list Event :=
  create sample_genesis sample_hash (VUuid 7) (VInt 1000) c VNone None ∅ [].

Definition sample_new (c : EntityClass) : Entity :=
  match sample_created c with
  | (Ok e, _) => e
  | (Raise _, _) => MkEntity c ∅
  end.

Definition sample_timestamped : Entity :=
  sample_entity TimestampedEntity
    [("_id", VUuid 7); ("__is_discarded__", VBool false);
     ("___created_on__", VInt 1000); ("___last_modified__", VInt 1000)].

Definition sample_timed_event (k : Kind) : Event :=
  sample_event OTimestamped k
    ([("originator_id", VUuid 7); ("timestamp", VInt 2000)] ++
     match k with
     | KCreated => [("originator_topic", get_topic TimestampedEntity)]
     | _ => [("name", VStr "foo"); ("value", VInt 1)]
     end).

(** ** Which attributes an event may write *)

(** The instance attributes that the [__mutate__] chain of an event's
    class assigns: the attribute an AttributeChanged names, the discarded
    flag for Discarded, and the one field of each extension layer. *)
Definition touched (ev : Event) (k : string) : Prop :=
  (ec_kind (ev_class ev) = KAttributeChanged /\ ev_dict ev !! "name" = Some (VStr k)) \/
  (ec_kind (ev_class ev) = KDiscarded /\ k = "__is_discarded__") \/
  (has_hash (ec_owner (ev_class ev)) = true /\ k = "__head__") \/
  (has_version (ec_owner (ev_class ev)) = true /\ k = "___version__") \/
  (has_timestamp (ec_owner (ev_class ev)) = true /\ k = "___last_modified__").

(** A computation on an instance that keeps the object and its class and
    writes no attribute outside [P], whether it returns or raises. *)
Definition frames {A} (P : string -> Prop) (m : M A) : Prop :=
  forall e r h', m (Some e) = (r, h') ->
    exists e', h' = Some e' /\ e_class e' = e_class e /\
               forall k, ~ P k -> field e' k = field e k.

(** ** Entities as the constructors leave them *)

(** The attributes every method of the class reads are present, and the
    entity is not discarded. *)
Definition well_formed (e : Entity) : Prop :=
  (exists i, field e "_id" = Some i) /\
  (exists d, field e "__is_discarded__" = Some d /\ truthy d = false) /\
  (e_class e = EntityWithHashchain -> exists hd, field e "__head__" = Some hd) /\
  (is_versioned (e_class e) = true ->
   exists v n, field e "___version__" = Some v /\ as_int v = Some n).

(** Attribute names that an extension layer assigns after the
    AttributeChanged step of the same event. *)
Definition layer_field (name : string) : bool :=
  bool_decide (name = "__head__") || bool_decide (name = "___version__")
  || bool_decide (name = "___last_modified__").

(** ** Walking a hash chain *)

(** Follows the events from the hash [prev]: every event must name as its
    [__previous_hash__] the hash reached so far; the result is the
    [__event_hash__] of the last event. *)
Fixpoint chain_end (prev : Val) (evs : list Event) : option Val :=
  match evs with
  | [] => Some prev
  | ev :: rest =>
      if bool_decide (ev_dict ev !! "__previous_hash__" = Some prev)
      then match ev_dict ev !! "__event_hash__" with
           | Some h => chain_end h rest
           | None => None
           end
      else None
  end.

Definition sample_chain_calls : list Call :=
  [MkCall (VInt 2000) (MkEventClass OHashchain KAttributeChanged)
     (list_to_map [("name", VStr "foo"); ("value", VInt 1)]);
   MkCall (VInt 3000) (MkEventClass OHashchain KEvent) ∅].

(** The events carry the versions [n], [n + 1], ... in order. *)
Fixpoint numbered (n : Z) (evs : list Event) : Prop :=
  match evs with
  | [] => True
  | ev :: rest =>
      ev_dict ev !! "originator_version" = Some (VInt n) /\ numbered (n + 1) rest
  end.

Definition sample_versioned_calls : list Call :=
  [MkCall (VInt 2000) (MkEventClass OVersioned KAttributeChanged)
     (list_to_map [("name", VStr "foo"); ("value", VInt 1)]);
   MkCall (VInt 3000) (MkEventClass OVersioned KDiscarded) ∅].

(** The keyword parameters of the [__init__] chain of a class. *)
Definition init_params (c : EntityClass) : gset string :=
  match c with
  | DomainEntity | EntityWithHashchain => {["id"]}
  | VersionedEntity => {["id"; "__version__"]}
  | TimestampedEntity => {["id"; "__created_on__"]}
  | TimeuuidedEntity => {["id"; "event_id"]}
  | TimestampedVersionedEntity => {["id"; "__created_on__"; "__version__"]}
  | TimeuuidedVersionedEntity => {["id"; "event_id"; "__version__"]}
  end.

(** ** Time-derived timestamps *)

(** [TimeuuidedEntity.__created_on__] and [__last_modified__]: the time
    component of the stored event ids; [from_uuid] stands for
    [decimaltimestamp_from_uuid] of [eventsourcing.utils.times]. *)
Definition Timeuuided_created_on (from_uuid : Val -> Val) (e : Entity) : Result Val :=
  match field e "___initial_event_id__" with
  | Some v => Ok (from_uuid v)
  | None => Raise AttributeError
  end.

Definition Timeuuided_last_modified (from_uuid : Val -> Val) (e : Entity) : Result Val :=
  match field e "___last_event_id__" with
  | Some v => Ok (from_uuid v)
  | None => Raise AttributeError
  end.

Definition is_Timeuuided (c : EntityClass) : bool :=
  match c with
  | TimeuuidedEntity | TimeuuidedVersionedEntity => true
  | _ => false
  end.

Definition sample_timeuuided : Entity :=
  sample_entity TimeuuidedEntity
    [("_id", VUuid 7); ("__is_discarded__", VBool false);
     ("___initial_event_id__", VUuid 100); ("___last_event_id__", VUuid 100)].

Definition sample_bool_entity : Entity := sample_entity DomainEntity [("x", VBool true)].

Definition sample_int_entity : Entity := sample_entity DomainEntity [("x", VInt 1)].

Definition sample_composed : Entity :=
  sample_entity TimestampedVersionedEntity
    [("_id", VUuid 7); ("__is_discarded__", VBool false); ("___version__", VInt 4);
     ("___created_on__", VInt 1000); ("___last_modified__", VInt 1500)].

(** * Properties *)

(** ** Sequencing lemmas *)

Lemma bind_inv {A B} (m : M A) (f : A -> M B) h r h2 :
  bind m f h = (r, h2) ->
  (exists a h1, m h = (Ok a, h1) /\ f a h1 = (r, h2)) \/
  (exists x, m h = (Raise x, h2) /\ r = Raise x).
Proof.
  unfold bind. destruct (m h) as [[a|x] h1]; intros Heq.
  - left. eauto.
  - right. inversion Heq. eauto.
Qed.

Lemma tbind_inv {A B} (m : T A) (f : A -> T B) s r s2 :
  tbind m f s = (r, s2) ->
  (exists a s1, m s = (Ok a, s1) /\ f a s1 = (r, s2)) \/
  (exists x, m s = (Raise x, s2) /\ r = Raise x).
Proof.
  unfold tbind. destruct (m s) as [[a|x] s1]; intros Heq.
  - left. eauto.
  - right. inversion Heq. eauto.
Qed.

Lemma rbind_inv {A B} (m : Result A) (f : A -> Result B) r :
  rbind m f = r ->
  (exists a, m = Ok a /\ f a = r) \/ (exists x, m = Raise x /\ r = Raise x).
Proof. destruct m; simpl; intros <-; eauto. Qed.

Lemma on_entity_inv {A} (m : M A) h log r s2 :
  on_entity m (h, log) = (r, s2) -> exists h2, m h = (r, h2) /\ s2 = (h2, log).
Proof.
  unfold on_entity. cbn [fst snd]. destruct (m h) as [r' h2]. intros Heq.
  inversion Heq. eauto.
Qed.

Lemma lift_inv {A} (x : Result A) h r h2 :
  lift x h = (r, h2) -> r = x /\ h2 = h.
Proof. unfold lift. intros Heq. inversion Heq. auto. Qed.

Lemma ret_inv {A} (a : A) h r h2 : ret a h = (r, h2) -> r = Ok a /\ h2 = h.
Proof. unfold ret. intros Heq. inversion Heq. auto. Qed.

Lemma raise_inv {A} x h (r : Result A) h2 :
  raise x h = (r, h2) -> r = Raise x /\ h2 = h.
Proof. unfold raise. intros Heq. inversion Heq. auto. Qed.

Lemma get_field_inv name h r h2 :
  get_field name h = (r, h2) ->
  h2 = h /\
  ((exists e v, h = Some e /\ field e name = Some v /\ r = Ok v) \/
   (r = Raise AttributeError /\
    (h = None \/ exists e, h = Some e /\ field e name = None))).
Proof.
  unfold get_field, field. destruct h as [e|].
  - destruct (e_dict e !! name) as [v|] eqn:Hl; intros Heq; inversion Heq;
      split; eauto 10.
  - intros Heq. inversion Heq. eauto 10.
Qed.

Lemma set_field_inv name v h r h2 :
  set_field name v h = (r, h2) ->
  (exists e, h = Some e /\ r = Ok tt /\ h2 = Some (upd e name v)) \/
  (h = None /\ r = Raise AttributeError /\ h2 = None).
Proof.
  unfold set_field. destruct h as [e|]; intros Heq; inversion Heq; eauto 10.
Qed.


Lemma assert_not_discarded_inv h r h2 :
  assert_not_discarded h = (r, h2) ->
  h2 = h /\
  ((exists e, h = Some e /\ is_discarded e = false /\ r = Ok tt) \/
   (exists e, h = Some e /\ is_discarded e = true /\ r = Raise EntityIsDiscarded) \/
   (r = Raise AttributeError /\
    (h = None \/ exists e, h = Some e /\ field e "__is_discarded__" = None))).
Proof.
  unfold assert_not_discarded, bind, get_field, ret, raise.
  destruct h as [e|]; [|intros Heq; inversion Heq; subst; split; eauto 10].
  destruct (e_dict e !! "__is_discarded__") as [d|] eqn:Hd; cbv beta iota.
  - assert (is_discarded e = truthy d) as Hid
      by (unfold is_discarded, field; rewrite Hd; reflexivity).
    destruct (truthy d); intros Heq; inversion Heq; subst; split; eauto 10.
  - intros Heq; inversion Heq; subst; split; eauto 10.
Qed.

Lemma DomainEntity_trigger_inv G H now cls kw h log r s' :
  DomainEntity_trigger_event G H now cls kw (h, log) = (r, s') ->
  (exists x h', r = Raise x /\ s' = (h', log)) \/
  (exists e i kw' ev r0 h',
      r = Ok tt /\ h = Some e /\ is_discarded e = false /\
      field e "_id" = Some i /\ with_keyword "originator_id" i kw = Ok kw' /\
      new_event H now cls kw' = Ok ev /\
      mutate G ev (Some e) = (Ok r0, h') /\ s' = (h', (log ++ [ev])%list)).
Proof.
  unfold DomainEntity_trigger_event, DomainEntity_mutate. intros Heq.
  apply tbind_inv in Heq as [(u & s1 & Ha & Heq) | (x & Ha & ->)];
    apply on_entity_inv in Ha as (h1 & Ha & ->);
    apply assert_not_discarded_inv in Ha as [-> Hd]; [|eauto].
  destruct Hd as [(e & -> & Hnd & _) | [(e & _ & _ & ?) | [? _]]]; try discriminate.
  apply tbind_inv in Heq as [(ev & s1 & Ha & Heq) | (x & Ha & ->)];
    apply on_entity_inv in Ha as (h1 & Ha & ->).
  2:{ apply bind_inv in Ha as [(i & h2 & Hi & Ha) | (x' & Hi & ?)];
      apply get_field_inv in Hi as [-> _]; [|eauto].
      apply bind_inv in Ha as [(kw' & h3 & Hk & Ha) | (x' & Hk & ?)];
      apply lift_inv in Hk as [_ ->]; [|eauto].
      apply lift_inv in Ha as [_ ->]. eauto. }
  apply bind_inv in Ha as [(i & h2 & Hi & Ha) | (x' & _ & ?)]; [|discriminate].
  apply get_field_inv in Hi as [-> [(e' & v & He & Hf & Hv)|[? _]]]; [|discriminate].
  simplify_eq.
  apply bind_inv in Ha as [(kw' & h3 & Hk & Ha) | (x' & _ & ?)]; [|discriminate].
  apply lift_inv in Hk as [Hk ->]. apply lift_inv in Ha as [Hn ->].
  apply tbind_inv in Heq as [(u' & s1 & Ha & Heq) | (x & Ha & ->)];
    apply on_entity_inv in Ha as (h1 & Ha & ->).
  2:{ eauto. }
  apply bind_inv in Ha as [(r0 & h2 & Hm & Ha) | (x' & _ & ?)]; [|discriminate].
  apply ret_inv in Ha as [_ ->].
  unfold publish in Heq. cbn [fst snd] in Heq. inversion Heq; subst.
  right. exists e', v, kw', ev, r0, h2. auto 10.
Qed.

Lemma get_version_versioned e :
  is_versioned (e_class e) = true ->
  get_version (Some e) = get_field "___version__" (Some e).
Proof. unfold get_version. intros ->. reflexivity. Qed.

Lemma trigger_event_inv G H now cls kw h log r s' :
  trigger_event G H now cls kw (h, log) = (r, s') ->
  (exists x h', r = Raise x /\ s' = (h', log)) \/
  (exists e i kw0 kw' ev r0 h',
      r = Ok tt /\ h = Some e /\ is_discarded e = false /\
      field e "_id" = Some i /\ stamped e kw kw0 /\
      with_keyword "originator_id" i kw0 = Ok kw' /\
      new_event H now cls kw' = Ok ev /\
      mutate G ev (Some e) = (Ok r0, h') /\ s' = (h', (log ++ [ev])%list)).
Proof.
  unfold trigger_event. cbn [fst snd]. destruct h as [e|].
  2:{ intros Heq. inversion Heq. eauto. }
  assert (Hbase : forall kw0, stamped e kw kw0 ->
    DomainEntity_trigger_event G H now cls kw0 (Some e, log) = (r, s') ->
    (exists x h', r = Raise x /\ s' = (h', log)) \/
    (exists e0 i kw0 kw' ev r0 h',
      r = Ok tt /\ Some e = Some e0 /\ is_discarded e0 = false /\
      field e0 "_id" = Some i /\ stamped e0 kw kw0 /\
      with_keyword "originator_id" i kw0 = Ok kw' /\
      new_event H now cls kw' = Ok ev /\
      mutate G ev (Some e0) = (Ok r0, h') /\ s' = (h', (log ++ [ev])%list))).
  { intros kw0 Hst Heq.
    apply DomainEntity_trigger_inv in Heq as [?|(e0 & i & kw' & ev & r0 & h' & ? & ? & ? & ? & ? & ? & ? & ?)];
      [left; assumption|].
    simplify_eq. right. exists e0, i, kw0, kw', ev, r0, h'. auto 10. }
  assert (Hver : is_versioned (e_class e) = true ->
    (forall kw0, (exists v next, field e "___version__" = Some v /\ py_succ v = Ok next /\
                     with_keyword "originator_version" next kw = Ok kw0) -> stamped e kw kw0) ->
    VersionedEntity_trigger_event G H now cls kw (Some e, log) = (r, s') ->
    (exists x h', r = Raise x /\ s' = (h', log)) \/
    (exists e0 i kw0 kw' ev r0 h',
      r = Ok tt /\ Some e = Some e0 /\ is_discarded e0 = false /\
      field e0 "_id" = Some i /\ stamped e0 kw kw0 /\
      with_keyword "originator_id" i kw0 = Ok kw' /\
      new_event H now cls kw' = Ok ev /\
      mutate G ev (Some e0) = (Ok r0, h') /\ s' = (h', (log ++ [ev])%list))).
  { intros Hv Hst. unfold VersionedEntity_trigger_event. intros Heq.
    apply tbind_inv in Heq as [(kw0 & s1 & Ha & Heq) | (x & Ha & ->)];
      apply on_entity_inv in Ha as (h1 & Ha & ->).
    2:{ apply bind_inv in Ha as [(v & h2 & Hg & Ha) | (x' & Hg & ?)];
          rewrite (get_version_versioned e Hv) in Hg;
          apply get_field_inv in Hg as [-> _]; [|eauto].
        apply bind_inv in Ha as [(nx & h3 & Hk & Ha) | (x' & Hk & ?)];
          apply lift_inv in Hk as [_ ->]; [|eauto].
        apply lift_inv in Ha as [_ ->]. eauto. }
    apply bind_inv in Ha as [(v & h2 & Hg & Ha) | (x' & _ & ?)]; [|discriminate].
    rewrite (get_version_versioned e Hv) in Hg.
    apply get_field_inv in Hg as [-> [(e' & v' & He & Hf & Hv')|[? _]]]; [|discriminate].
    simplify_eq.
    apply bind_inv in Ha as [(nx & h3 & Hk & Ha) | (x' & _ & ?)]; [|discriminate].
    apply lift_inv in Hk as [Hk ->]. apply lift_inv in Ha as [Hw ->].
    apply (Hbase kw0); [|assumption]. apply Hst. eauto. }
  destruct (e_class e) eqn:Hc.
  - apply Hbase. unfold stamped. rewrite Hc. reflexivity.
  - unfold EntityWithHashchain_trigger_event. intros Heq.
    apply tbind_inv in Heq as [(head & s1 & Ha & Heq) | (x & Ha & ->)];
      apply on_entity_inv in Ha as (h1 & Ha & ->);
      apply get_field_inv in Ha as [-> Ha]; [|eauto].
    destruct Ha as [(e' & v' & He & Hf & Hv')|[? _]]; [|discriminate].
    simplify_eq. apply (Hbase _ ltac:(unfold stamped; rewrite Hc; eauto) Heq).
  - apply Hver; [reflexivity|]. intros kw0 Hx. unfold stamped. rewrite Hc. exact Hx.
  - apply Hbase. unfold stamped. rewrite Hc. reflexivity.
  - apply Hbase. unfold stamped. rewrite Hc. reflexivity.
  - apply Hver; [reflexivity|]. intros kw0 Hx. unfold stamped. rewrite Hc. exact Hx.
  - apply Hver; [reflexivity|]. intros kw0 Hx. unfold stamped. rewrite Hc. exact Hx.
Qed.

(** ** Publication *)



(** ** The layers of a successful [__mutate__] *)

Lemma bind_ok {A B} (m : M A) (f : A -> M B) h a h1 :
  m h = (Ok a, h1) -> bind m f h = f a h1.
Proof. unfold bind. intros ->. reflexivity. Qed.

Lemma bind_raise {A B} (m : M A) (f : A -> M B) h x h1 :
  m h = (Raise x, h1) -> bind m f h = (Raise x, h1).
Proof. unfold bind. intros ->. reflexivity. Qed.

Lemma readonly_bind {A B} (m : M A) (f : A -> M B) :
  readonly m -> (forall a, readonly (f a)) -> readonly (bind m f).
Proof.
  intros Hm Hf h r h' Heq.
  apply bind_inv in Heq as [(a & h1 & Ha & Heq) | (x & Ha & _)].
  - apply Hm in Ha as ->. eapply Hf. eassumption.
  - eapply Hm. eassumption.
Qed.

Lemma readonly_ret {A} (a : A) : readonly (ret a).
Proof. intros h r h' Heq. apply ret_inv in Heq as [_ ?]. assumption. Qed.

Lemma readonly_raise {A} x : readonly (@raise A x).
Proof. intros h r h' Heq. apply raise_inv in Heq as [_ ?]. assumption. Qed.

Lemma readonly_lift {A} (x : Result A) : readonly (lift x).
Proof. intros h r h' Heq. apply lift_inv in Heq as [_ ?]. assumption. Qed.

Lemma readonly_get_field name : readonly (get_field name).
Proof. intros h r h' Heq. apply get_field_inv in Heq as [? _]. assumption. Qed.

Lemma readonly_get_version : readonly get_version.
Proof.
  intros h r h'. unfold get_version. destruct h as [e|].
  - destruct (is_versioned (e_class e)); apply readonly_get_field.
  - intros Heq. inversion Heq. reflexivity.
Qed.

Lemma readonly_if {A} (b : bool) (m1 m2 : M A) :
  readonly m1 -> readonly m2 -> readonly (if b then m1 else m2).
Proof. destruct b; auto. Qed.

Create HintDb readonly.
#[local] Hint Resolve readonly_ret readonly_raise readonly_lift readonly_get_field
  readonly_get_version : readonly.

Lemma readonly_DomainEntity_check ev : readonly (DomainEntity_Event_check_obj ev).
Proof.
  intros h r h'. unfold DomainEntity_Event_check_obj. destruct h as [e|].
  - apply readonly_bind; [apply readonly_get_field|]. intros i.
    apply readonly_bind; [apply readonly_lift|]. intros o.
    apply readonly_if; auto with readonly.
  - intros Heq. inversion Heq. reflexivity.
Qed.

Lemma readonly_check_obj ev : readonly (check_obj ev).
Proof.
  unfold check_obj.
  assert (Hh : readonly (EntityWithHashchain_Event_check_obj ev)).
  { unfold EntityWithHashchain_Event_check_obj.
    apply readonly_bind; [apply readonly_DomainEntity_check|]. intros _.
    apply readonly_bind; [apply readonly_get_field|]. intros head.
    apply readonly_if; [auto with readonly|].
    apply readonly_bind; [apply readonly_get_field|]. intros i.
    apply readonly_bind; [apply readonly_get_field|]. intros head'.
    auto with readonly. }
  assert (Hv : readonly (VersionedEntity_Event_check_obj ev)).
  { unfold VersionedEntity_Event_check_obj.
    apply readonly_bind; [apply readonly_DomainEntity_check|]. intros _.
    apply readonly_bind; [apply readonly_lift|]. intros ov.
    apply readonly_bind; [apply readonly_get_version|]. intros v.
    apply readonly_bind; [apply readonly_lift|]. intros next.
    apply readonly_if; [auto with readonly|].
    intros h r h'. destruct h as [e|].
    - apply readonly_bind; [apply readonly_lift|]. intros ov'.
      apply readonly_bind; [apply readonly_get_version|]. intros v'.
      apply readonly_bind; [apply readonly_get_field|]. intros i.
      auto with readonly.
    - intros Heq. inversion Heq. reflexivity. }
  destruct (ec_owner (ev_class ev)); auto using readonly_DomainEntity_check.
Qed.

Lemma DomainEvent_mutate_inv ev e r h' :
  DomainEvent_mutate ev (Some e) = (r, h') ->
  h' = Some e /\
  ((r = Ok RObj /\ check_obj ev (Some e) = (Ok tt, Some e)) \/
   (exists x, r = Raise x /\ check_obj ev (Some e) = (Raise x, Some e))).
Proof.
  unfold DomainEvent_mutate. intros Heq.
  apply bind_inv in Heq as [(u & h1 & Hc & Heq) | (x & Hc & ->)].
  - pose proof (readonly_check_obj ev _ _ _ Hc) as ->.
    apply ret_inv in Heq as [-> ->]. destruct u. auto.
  - pose proof (readonly_check_obj ev _ _ _ Hc) as ->. eauto.
Qed.

Lemma on_ref_ok r m h h' :
  on_ref r m h = (Ok tt, h') -> r = RObj /\ m h = (Ok tt, h').
Proof.
  destruct r; simpl; [|auto]. intros Heq. apply raise_inv in Heq as [? _].
  discriminate.
Qed.

Lemma when_ref_ok r m h h' :
  when_ref r m h = (Ok tt, h') ->
  (r = RNone /\ h' = h) \/ (r = RObj /\ m h = (Ok tt, h')).
Proof.
  destruct r; simpl; [|auto]. intros Heq. apply ret_inv in Heq as [_ ?]. auto.
Qed.

Lemma py_setattr_ok s v h h' :
  py_setattr s v h = (Ok tt, h') ->
  exists e, h = Some e /\ is_property (e_class e) s = false /\ h' = Some (upd e s v).
Proof.
  unfold py_setattr. destruct h as [e|]; [|discriminate].
  destruct (is_property (e_class e) s) eqn:Hp; [discriminate|].
  intros Heq. apply set_field_inv in Heq as [(e0 & He & _ & ->)|(? & _)]; [|discriminate].
  inversion He; subst e0. exists e. auto.
Qed.

Lemma set_field_ok name v h h' :
  set_field name v h = (Ok tt, h') -> exists e, h = Some e /\ h' = Some (upd e name v).
Proof.
  intros Heq. apply set_field_inv in Heq as [(e0 & ? & _ & ?)|(_ & ? & _)];
    [eauto|discriminate].
Qed.

Lemma ev_get_ok ev key v : ev_get ev key = Ok v -> ev_dict ev !! key = Some v.
Proof. unfold ev_get. destruct (ev_dict ev !! key); intros Heq; inversion Heq; auto. Qed.

Lemma AttributeChanged_mutate_ok ev super h r h' :
  DomainEntity_AttributeChanged_mutate ev super h = (Ok r, h') ->
  exists e1 s v,
    super h = (Ok RObj, Some e1) /\ r = RObj /\
    ev_dict ev !! "name" = Some (VStr s) /\ ev_dict ev !! "value" = Some v /\
    is_property (e_class e1) s = false /\ h' = Some (upd e1 s v).
Proof.
  unfold DomainEntity_AttributeChanged_mutate. intros Heq.
  apply bind_inv in Heq as [(obj & h1 & Hs & Heq) | (x & _ & ?)]; [|discriminate].
  apply bind_inv in Heq as [(name & h2 & Hn & Heq) | (x & _ & ?)]; [|discriminate].
  apply lift_inv in Hn as [Hn ->].
  apply bind_inv in Heq as [(value & h2 & Hv & Heq) | (x & _ & ?)]; [|discriminate].
  apply lift_inv in Hv as [Hv ->].
  apply bind_inv in Heq as [(u & h2 & Ho & Heq) | (x & _ & ?)]; [|discriminate].
  apply ret_inv in Heq as [Hr ->]. destruct u.
  apply on_ref_ok in Ho as [-> Ho].
  destruct name as [| | |s| |]; try (apply raise_inv in Ho as [? _]; discriminate).
  apply py_setattr_ok in Ho as (e1 & -> & Hp & ->).
  symmetry in Hn, Hv. apply ev_get_ok in Hn, Hv. inversion Hr. exists e1, s, value. auto 10.
Qed.

Lemma Discarded_mutate_ok ev super h r h' :
  DomainEntity_Discarded_mutate ev super h = (Ok r, h') ->
  exists e1,
    super h = (Ok RObj, Some e1) /\ r = RNone /\
    h' = Some (upd e1 "__is_discarded__" (VBool true)).
Proof.
  unfold DomainEntity_Discarded_mutate. intros Heq.
  apply bind_inv in Heq as [(obj & h1 & Hs & Heq) | (x & _ & ?)]; [|discriminate].
  apply bind_inv in Heq as [(u & h2 & Ho & Heq) | (x & _ & ?)]; [|discriminate].
  apply ret_inv in Heq as [Hr ->]. destruct u.
  apply on_ref_ok in Ho as [-> Ho].
  apply set_field_ok in Ho as (e1 & -> & ->).
  inversion Hr. eauto.
Qed.

(** An extension layer that, after [super], stores one field of the event
    in the object unless [super] returned [None]. *)
Lemma stamp_layer_ok (super : M Ref) (ev : Event) key name h r h' :
  (do obj <- super;
   run when_ref obj (do v <- lift (ev_get ev key); set_field name v);
   ret obj) h = (Ok r, h') ->
  exists h1, super h = (Ok r, h1) /\
    ((r = RNone /\ h' = h1) \/
     (exists e1 v, r = RObj /\ h1 = Some e1 /\ ev_dict ev !! key = Some v /\
                   h' = Some (upd e1 name v))).
Proof.
  intros Heq.
  apply bind_inv in Heq as [(obj & h1 & Hs & Heq) | (x & _ & ?)]; [|discriminate].
  apply bind_inv in Heq as [(u & h2 & Ho & Heq) | (x & _ & ?)]; [|discriminate].
  apply ret_inv in Heq as [Hr ->]. destruct u. inversion Hr; subst obj.
  exists h1. split; [assumption|].
  apply when_ref_ok in Ho as [[-> ->]|[-> Ho]]; [auto|].
  apply bind_inv in Ho as [(v & h3 & Hv & Ho) | (x & _ & ?)]; [|discriminate].
  apply lift_inv in Hv as [Hv ->]. symmetry in Hv. apply ev_get_ok in Hv.
  apply set_field_ok in Ho as (e1 & -> & ->). right. eauto 10.
Qed.

Lemma Timestamped_layer_ok (super : M Ref) (ev : Event) h r h' :
  TimestampedEntity_Event_mutate ev super h = (Ok r, h') ->
  exists h1, super h = (Ok r, h1) /\
    ((r = RNone /\ h' = h1) \/
     (exists e1 t, r = RObj /\ h1 = Some e1 /\ ev_dict ev !! "timestamp" = Some t /\
                   is_TimestampedEntity (e_class e1) = true /\
                   h' = Some (upd e1 "___last_modified__" t))).
Proof.
  unfold TimestampedEntity_Event_mutate. intros Heq.
  apply bind_inv in Heq as [(obj & h1 & Hs & Heq) | (x & _ & ?)]; [|discriminate].
  apply bind_inv in Heq as [(u & h2 & Ho & Heq) | (x & _ & ?)]; [|discriminate].
  apply ret_inv in Heq as [Hr ->]. destruct u. inversion Hr; subst obj.
  exists h1. split; [assumption|].
  apply when_ref_ok in Ho as [[-> ->]|[-> Ho]]; [auto|].
  destruct h1 as [e1|]; [|discriminate].
  destruct (is_TimestampedEntity (e_class e1)) eqn:Hts; [|discriminate].
  apply bind_inv in Ho as [(v & h3 & Hv & Ho) | (x & _ & ?)]; [|discriminate].
  apply lift_inv in Hv as [Hv ->]. symmetry in Hv. apply ev_get_ok in Hv.
  apply set_field_ok in Ho as (e1' & He & ->). inversion He; subst e1'.
  right. exists e1, v. auto 10.
Qed.

Lemma Created_mutate_on_instance G ev cls e r h' :
  DomainEntity_Created_mutate G ev cls (Some e) = (r, h') ->
  h' = Some e /\ exists x, r = Raise x.
Proof.
  unfold DomainEntity_Created_mutate.
  destruct (entity_kwargs ev); intros Heq; inversion Heq; eauto.
Qed.

Lemma kind_mutate_ok G ev cls e0 r h1 :
  kind_mutate G ev cls (Some e0) = (Ok r, h1) ->
  check_obj ev (Some e0) = (Ok tt, Some e0) /\
  exists e1, h1 = Some e1 /\ kind_step ev e0 e1 r.
Proof.
  unfold kind_mutate, kind_step. destruct (ec_kind (ev_class ev)); intros Heq.
  - apply DomainEvent_mutate_inv in Heq as [-> [[Hr Hc]|(x & ? & _)]]; [|discriminate].
    inversion Hr. eauto.
  - apply Created_mutate_on_instance in Heq as [_ [x ?]]. discriminate.
  - apply AttributeChanged_mutate_ok in Heq
      as (e1 & s & v & Hs & -> & Hn & Hv & Hp & ->).
    apply DomainEvent_mutate_inv in Hs as [He [[_ Hc]|(x & ? & _)]]; [|discriminate].
    inversion He; subst e1. split; [assumption|]. eauto 10.
  - apply Discarded_mutate_ok in Heq as (e1 & Hs & -> & ->).
    apply DomainEvent_mutate_inv in Hs as [He [[_ Hc]|(x & ? & _)]]; [|discriminate].
    inversion He; subst e1. eauto.
Qed.

Lemma Hashchain_Discarded_mutate_ok ev super e r h' :
  EntityWithHashchain_Discarded_mutate ev super (Some e) = (Ok r, h') ->
  exists hash, ev_dict ev !! "__event_hash__" = Some hash /\
               super (Some (upd e "__head__" hash)) = (Ok r, h').
Proof.
  unfold EntityWithHashchain_Discarded_mutate. intros Heq.
  apply bind_inv in Heq as [(hash & h1 & Hv & Heq) | (x & _ & ?)]; [|discriminate].
  apply lift_inv in Hv as [Hv ->]. symmetry in Hv. apply ev_get_ok in Hv.
  apply bind_inv in Heq as [(u & h2 & Hs & Heq) | (x & _ & ?)]; [|discriminate].
  destruct u. apply set_field_ok in Hs as (e1 & He & ->). inversion He; subst e1.
  eauto.
Qed.

Ltac split_all :=
  repeat match goal with
         | H : _ \/ _ |- _ => destruct H
         | H : ex _ |- _ => destruct H
         | H : _ /\ _ |- _ => destruct H
         end.

(** The shape of every application to an instance that returns. *)
Lemma mutate_ok_inv G ev e r h' :
  mutate G ev (Some e) = (Ok r, h') ->
  exists e0 e1 e2,
    pre_step ev e e0 /\
    check_obj ev (Some e0) = (Ok tt, Some e0) /\
    kind_step ev e0 e1 r /\ ext_step ev r e1 e2 /\ h' = Some e2.
Proof.
  unfold mutate, mutate_on, pre_step, ext_step.
  destruct (ec_owner (ev_class ev)) eqn:Ho, (ec_kind (ev_class ev)) eqn:Hk;
    intros Heq.
  all: try (apply Hashchain_Discarded_mutate_ok in Heq as (hash0 & Hh0 & Heq)).
  all: try (apply Timestamped_layer_ok in Heq as (h1 & Heq & Hts)).
  all: try (apply stamp_layer_ok in Heq as (h0 & Heq & Hst)).
  all: apply kind_mutate_ok in Heq as (Hc & e1 & -> & Hks);
       pose proof Hks as Hks'; unfold kind_step in Hks'; rewrite Hk in Hks';
       try contradiction.
  all: split_all; simplify_eq.
  all: match goal with
       | Hx : kind_step _ ?a ?b _ |- _ => exists a, b
       end.
  all: eexists; repeat (split; [solve [eauto 10]|]); eauto 10.
Qed.

(** ** Forward evaluation *)

Lemma get_field_some e name v :
  field e name = Some v -> get_field name (Some e) = (Ok v, Some e).
Proof. unfold get_field, field. intros ->. reflexivity. Qed.

Lemma get_field_none e name :
  field e name = None -> get_field name (Some e) = (Raise AttributeError, Some e).
Proof. unfold get_field, field. intros ->. reflexivity. Qed.

Lemma tbind_ok {A B} (m : T A) (f : A -> T B) s a s1 :
  m s = (Ok a, s1) -> tbind m f s = f a s1.
Proof. unfold tbind. intros ->. reflexivity. Qed.

Lemma tbind_raise {A B} (m : T A) (f : A -> T B) s x s1 :
  m s = (Raise x, s1) -> tbind m f s = (Raise x, s1).
Proof. unfold tbind. intros ->. reflexivity. Qed.

Lemma on_entity_eq {A} (m : M A) h log r h' :
  m h = (r, h') -> on_entity m (h, log) = (r, (h', log)).
Proof. unfold on_entity. cbn [fst snd]. intros ->. reflexivity. Qed.

Lemma assert_not_discarded_true e :
  is_discarded e = true ->
  assert_not_discarded (Some e) = (Raise EntityIsDiscarded, Some e).
Proof.
  unfold is_discarded, assert_not_discarded. intros Hd.
  destruct (field e "__is_discarded__") as [d|] eqn:Hf; [|discriminate].
  rewrite (bind_ok _ _ _ _ _ (get_field_some _ _ _ Hf)). rewrite Hd. reflexivity.
Qed.

Lemma DomainEntity_trigger_discarded G H now cls kw e log :
  is_discarded e = true ->
  DomainEntity_trigger_event G H now cls kw (Some e, log)
  = (Raise EntityIsDiscarded, (Some e, log)).
Proof.
  intros Hd. unfold DomainEntity_trigger_event.
  apply tbind_raise, on_entity_eq, assert_not_discarded_true, Hd.
Qed.

Lemma field_upd_eq e name v : field (upd e name v) name = Some v.
Proof. unfold field, upd. simpl. apply lookup_insert_eq. Qed.

Lemma field_upd_ne e name name' v :
  name <> name' -> field (upd e name v) name' = field e name'.
Proof. unfold field, upd. simpl. intros Hne. apply lookup_insert_ne. exact Hne. Qed.

Lemma new_event_class H now cls kw ev :
  new_event H now cls kw = Ok ev -> ev_class ev = cls.
Proof.
  unfold new_event.
  destruct (bool_decide (ec_kind cls = KCreated)
            && bool_decide (kw !! "originator_topic" = None)); [discriminate|].
  intros Heq. inversion Heq. reflexivity.
Qed.

Lemma readonly_version_stamp kw :
  readonly (do v <- get_version;
            do next <- lift (py_succ v);
            lift (with_keyword "originator_version" next kw)).
Proof.
  apply readonly_bind; [apply readonly_get_version|]. intros v.
  apply readonly_bind; auto with readonly.
Qed.

(** A discarded entity refuses every trigger and is left as it was. *)
Lemma trigger_event_discarded_fails G H now cls kw e log :
  is_discarded e = true ->
  exists x, trigger_event G H now cls kw (Some e, log) = (Raise x, (Some e, log)).
Proof.
  intros Hd. unfold trigger_event. cbn [fst snd].
  pose proof (DomainEntity_trigger_discarded G H now cls) as Hb.
  assert (Hv : exists x, VersionedEntity_trigger_event G H now cls kw (Some e, log)
                         = (Raise x, (Some e, log))).
  { unfold VersionedEntity_trigger_event.
    destruct ((do v <- get_version;
               do next <- lift (py_succ v);
               lift (with_keyword "originator_version" next kw)) (Some e))
      as [[kw0|x] h1] eqn:Hs;
      pose proof (readonly_version_stamp kw _ _ _ Hs) as ->.
    - rewrite (tbind_ok _ _ _ _ _ (on_entity_eq _ _ log _ _ Hs)). eauto.
    - rewrite (tbind_raise _ _ _ _ _ (on_entity_eq _ _ log _ _ Hs)). eauto. }
  destruct (e_class e); eauto.
  unfold EntityWithHashchain_trigger_event.
  destruct (field e "__head__") as [hd|] eqn:Hf.
  - rewrite (tbind_ok _ _ _ _ _ (on_entity_eq _ _ log _ _ (get_field_some _ _ _ Hf))).
    eauto.
  - rewrite (tbind_raise _ _ _ _ _ (on_entity_eq _ _ log _ _ (get_field_none _ _ Hf))).
    eauto.
Qed.

Lemma trigger_event_discarded G H now cls kw e log :
  is_discarded e = true ->
  (e_class e = EntityWithHashchain -> exists hd, field e "__head__" = Some hd) ->
  (is_versioned (e_class e) = true ->
   (exists v next, field e "___version__" = Some v /\ py_succ v = Ok next) /\
   kw !! "originator_version" = None) ->
  trigger_event G H now cls kw (Some e, log) = (Raise EntityIsDiscarded, (Some e, log)).
Proof.
  intros Hd Hh Hv. unfold trigger_event. cbn [fst snd].
  pose proof (DomainEntity_trigger_discarded G H now cls) as Hb.
  assert (Hver : is_versioned (e_class e) = true ->
            VersionedEntity_trigger_event G H now cls kw (Some e, log)
            = (Raise EntityIsDiscarded, (Some e, log))).
  { intros Hiv. destruct (Hv Hiv) as [(v & next & Hf & Hn) Hk].
    unfold VersionedEntity_trigger_event.
    erewrite tbind_ok; [apply Hb, Hd|].
    apply on_entity_eq.
    erewrite bind_ok; [|rewrite (get_version_versioned e Hiv); apply get_field_some, Hf].
    erewrite bind_ok; [|unfold lift; rewrite Hn; reflexivity].
    unfold lift, with_keyword. rewrite Hk. reflexivity. }
  destruct (e_class e) eqn:Hc; auto.
  destruct (Hh eq_refl) as [hd Hf].
  unfold EntityWithHashchain_trigger_event.
  rewrite (tbind_ok _ _ _ _ _ (on_entity_eq _ _ log _ _ (get_field_some _ _ _ Hf))).
  auto.
Qed.

(** ** Discarding *)

Lemma mutate_discarded_ok G ev e r h' :
  ec_kind (ev_class ev) = KDiscarded ->
  mutate G ev (Some e) = (Ok r, h') ->
  exists e0, pre_step ev e e0 /\ r = RNone /\
             h' = Some (upd e0 "__is_discarded__" (VBool true)).
Proof.
  intros Hk Hm.
  apply mutate_ok_inv in Hm as (e0 & e1 & e2 & Hpre & _ & Hks & Hext & ->).
  unfold kind_step in Hks. rewrite Hk in Hks. destruct Hks as [-> ->].
  unfold ext_step in Hext. subst e2. eauto.
Qed.

(** C7: once [__discard__] has returned, every further
    [__trigger_event__] raises EntityIsDiscarded with the entity and the
    published events left as they were, so no event was constructed or
    applied (for a versioned entity the fields given must not repeat the
    keyword [originator_version] that its trigger passes itself); and
    applying a Discarded event that returns sets [__is_discarded__] to
    True and returns [None]. *)
Theorem discard_is_terminal G H now e log s' :
  discard G H now (Some e, log) = (Ok tt, s') ->
  (exists e', s'.1 = Some e' /\ is_discarded e' = true /\
     forall now2 cls kw,
       (is_versioned (e_class e') = true -> kw !! "originator_version" = None) ->
       trigger_event G H now2 cls kw s' = (Raise EntityIsDiscarded, s')) /\
  (forall ev tgt r h',
     ec_kind (ev_class ev) = KDiscarded ->
     mutate G ev (Some tgt) = (Ok r, h') ->
     r = RNone /\
     exists t', h' = Some t' /\ field t' "__is_discarded__" = Some (VBool true)).
Proof.
  intros Hd. split.
  - unfold discard in Hd. cbn [fst snd] in Hd.
    apply trigger_event_inv in Hd
      as [(x & h' & ? & _)
         |(e_ & i & kw0 & kw' & ev & r0 & h' & _ & He & _ & _ & Hst & _ & Hn & Hm & ->)];
      [discriminate|].
    inversion He; subst e_. apply new_event_class in Hn.
    apply mutate_discarded_ok in Hm as (e0 & Hpre & -> & ->);
      [|rewrite Hn; reflexivity].
    unfold pre_step in Hpre. rewrite Hn in Hpre. unfold event_class_of in Hpre.
    cbn [ec_owner ec_kind] in Hpre.
    eexists. split; [reflexivity|]. split.
    { unfold is_discarded. rewrite field_upd_eq. reflexivity. }
    intros now2 cls kw Hkw. apply trigger_event_discarded.
    + unfold is_discarded. rewrite field_upd_eq. reflexivity.
    + intros Hc. rewrite field_upd_ne by done. unfold stamped in Hst.
      destruct (e_class e) eqn:Hce; cbn [events_owner] in Hpre;
        try (subst e0; unfold upd in Hc; cbn [e_class] in Hc; congruence).
      destruct Hpre as (hash & _ & ->). rewrite field_upd_eq. eauto.
    + intros Hv. split; [|apply Hkw, Hv].
      rewrite field_upd_ne by done. unfold stamped in Hst.
      destruct (e_class e) eqn:Hce; cbn [events_owner] in Hpre;
        try (subst e0; unfold upd in Hv; cbn [e_class] in Hv;
             rewrite Hce in Hv; discriminate).
      * destruct Hpre as (hash & _ & ->). unfold upd in Hv. cbn [e_class] in Hv.
        rewrite Hce in Hv. discriminate.
      * subst e0. destruct Hst as (v & next & ? & ? & _). eauto.
      * subst e0. destruct Hst as (v & next & ? & ? & _). eauto.
      * subst e0. destruct Hst as (v & next & ? & ? & _). eauto.
  - intros ev tgt r h' Hk Hm.
    apply mutate_discarded_ok in Hm as (e0 & _ & -> & ->); [|assumption].
    split; [reflexivity|]. eexists. split; [reflexivity|]. apply field_upd_eq.
Qed.

Lemma discard_is_terminal_witness :
  let s' := (discard sample_genesis sample_hash (VInt 5) (Some sample_live, [])).2 in
  (exists e', s'.1 = Some e' /\ is_discarded e' = true /\
     forall now2 cls kw,
       (is_versioned (e_class e') = true -> kw !! "originator_version" = None) ->
       trigger_event sample_genesis sample_hash now2 cls kw s'
       = (Raise EntityIsDiscarded, s')) /\
  (forall ev tgt r h',
     ec_kind (ev_class ev) = KDiscarded ->
     mutate sample_genesis ev (Some tgt) = (Ok r, h') ->
     r = RNone /\
     exists t', h' = Some t' /\ field t' "__is_discarded__" = Some (VBool true)).
Proof.
  intros s'.
  apply (discard_is_terminal sample_genesis sample_hash (VInt 5) sample_live [] s').
  vm_compute. reflexivity.
Defined.

(** C3, as stated, fails: the discarded flag is consulted by
    [__trigger_event__] only.  An AttributeChanged event handed directly to
    the entity's [__mutate__], or to the event's own [__mutate__], is
    applied to a discarded entity and changes it. *)
Lemma discarded_entity_still_mutable :
  ~ (forall ev e, is_discarded e = true ->
       (exists x, DomainEntity_mutate sample_genesis ev (Some e) = (Raise x, Some e)) /\
       (exists x, mutate sample_genesis ev (Some e) = (Raise x, Some e))).
Proof.
  intros Hc.
  destruct (Hc (sample_change ODomain []) sample_discarded eq_refl) as [[x Hx] _].
  vm_compute in Hx. discriminate Hx.
Qed.

(** C3 (amended): once [__is_discarded__] is true, every
    [__trigger_event__] call raises and leaves the entity and the published
    events unchanged. *)
Theorem discarded_entity_refuses_triggers G H now cls kw e log :
  is_discarded e = true ->
  exists x, trigger_event G H now cls kw (Some e, log) = (Raise x, (Some e, log)).
Proof. apply trigger_event_discarded_fails. Qed.

Lemma discarded_entity_refuses_triggers_witness :
  exists x, trigger_event sample_genesis sample_hash (VInt 5)
              (MkEventClass ODomain KAttributeChanged) ∅ (Some sample_discarded, [])
            = (Raise x, (Some sample_discarded, [])).
Proof.
  apply (discarded_entity_refuses_triggers sample_genesis sample_hash (VInt 5)
           (MkEventClass ODomain KAttributeChanged) ∅ sample_discarded []).
  vm_compute. reflexivity.
Defined.

(** ** Checks come first *)

Lemma DomainEvent_mutate_check_fails ev e x :
  check_obj ev (Some e) = (Raise x, Some e) ->
  DomainEvent_mutate ev (Some e) = (Raise x, Some e).
Proof. intros Hc. unfold DomainEvent_mutate. apply bind_raise, Hc. Qed.

(** Except for [EntityWithHashchain.Discarded], whose [__mutate__] assigns
    before it calls [super], a failed check is the whole effect of the
    application: the same exception, the entity untouched. *)
Lemma mutate_check_fails G ev e x :
  ec_kind (ev_class ev) <> KCreated ->
  (ec_owner (ev_class ev) = OHashchain -> ec_kind (ev_class ev) <> KDiscarded) ->
  check_obj ev (Some e) = (Raise x, Some e) ->
  mutate G ev (Some e) = (Raise x, Some e).
Proof.
  intros Hnc Hnd Hc. apply DomainEvent_mutate_check_fails in Hc.
  unfold mutate, mutate_on, kind_mutate.
  destruct (ec_owner (ev_class ev)) eqn:Ho, (ec_kind (ev_class ev)) eqn:Hk;
    try congruence; try (exfalso; apply Hnd; reflexivity);
    unfold TimestampedEntity_Event_mutate, VersionedEntity_Event_mutate,
      EntityWithHashchain_Event_mutate, DomainEntity_AttributeChanged_mutate,
      DomainEntity_Discarded_mutate;
    repeat (first [exact Hc | apply bind_raise]).
Qed.

Lemma DomainEntity_check_mismatch ev e i o :
  field e "_id" = Some i -> ev_dict ev !! "originator_id" = Some o ->
  py_eq i o = false ->
  DomainEntity_Event_check_obj ev (Some e) = (Raise (OriginatorIDError i o), Some e).
Proof.
  intros Hi Ho Hne. unfold DomainEntity_Event_check_obj, get_id.
  rewrite (bind_ok _ _ _ _ _ (get_field_some _ _ _ Hi)).
  unfold bind, lift, ev_get. rewrite Ho, Hne. reflexivity.
Qed.

Lemma check_obj_mismatch ev e i o :
  field e "_id" = Some i -> ev_dict ev !! "originator_id" = Some o ->
  py_eq i o = false ->
  check_obj ev (Some e) = (Raise (OriginatorIDError i o), Some e).
Proof.
  intros Hi Ho Hne. pose proof (DomainEntity_check_mismatch ev e i o Hi Ho Hne) as Hc.
  unfold check_obj, EntityWithHashchain_Event_check_obj, VersionedEntity_Event_check_obj.
  destruct (ec_owner (ev_class ev)); try exact Hc; apply bind_raise, Hc.
Qed.

(** C9, as stated, fails in one part: the OriginatorIDError is built from
    the two ids alone.  Two events of different kinds rejected by the same
    entity raise the same exception, so no event kind can be read off it. *)
Lemma originator_id_error_has_no_event_kind :
  ~ (exists kind_of : Exn -> Kind,
       forall ev e x h',
         check_obj ev (Some e) = (Raise x, h') -> kind_of x = ec_kind (ev_class ev)).
Proof.
  intros [kind_of Hk].
  pose proof (Hk (sample_foreign KEvent) sample_live
                (OriginatorIDError (VUuid 7) (VUuid 8)) (Some sample_live) eq_refl) as H1.
  pose proof (Hk (sample_foreign KDiscarded) sample_live
                (OriginatorIDError (VUuid 7) (VUuid 8)) (Some sample_live) eq_refl) as H2.
  rewrite H1 in H2. discriminate H2.
Qed.

(** C9 (amended): for a non-Created event the base check requires a
    target ([None] fails the assertion) whose id equals the event's
    [originator_id]; on a mismatch the check, and with it the application
    of the event, raises OriginatorIDError carrying the two ids, and the
    entity is unchanged.  ([EntityWithHashchain.Discarded] is left out.) *)
Theorem base_check_rejects_foreign_event G ev e i o :
  ec_kind (ev_class ev) <> KCreated ->
  (ec_owner (ev_class ev) = OHashchain -> ec_kind (ev_class ev) <> KDiscarded) ->
  field e "_id" = Some i -> ev_dict ev !! "originator_id" = Some o ->
  py_eq i o = false ->
  DomainEntity_Event_check_obj ev None = (Raise AssertionError, None) /\
  check_obj ev (Some e) = (Raise (OriginatorIDError i o), Some e) /\
  mutate G ev (Some e) = (Raise (OriginatorIDError i o), Some e).
Proof.
  intros Hnc Hnd Hi Ho Hne. split; [reflexivity|].
  pose proof (check_obj_mismatch ev e i o Hi Ho Hne) as Hc.
  split; [exact Hc|]. apply mutate_check_fails; assumption.
Qed.

Lemma base_check_rejects_foreign_event_witness :
  DomainEntity_Event_check_obj (sample_foreign KDiscarded) None
    = (Raise AssertionError, None) /\
  check_obj (sample_foreign KDiscarded) (Some sample_live)
    = (Raise (OriginatorIDError (VUuid 7) (VUuid 8)), Some sample_live) /\
  mutate sample_genesis (sample_foreign KDiscarded) (Some sample_live)
    = (Raise (OriginatorIDError (VUuid 7) (VUuid 8)), Some sample_live).
Proof.
  apply (base_check_rejects_foreign_event sample_genesis (sample_foreign KDiscarded)
           sample_live (VUuid 7) (VUuid 8)).
  - vm_compute. discriminate.
  - vm_compute. discriminate.
  - vm_compute. reflexivity.
  - vm_compute. reflexivity.
  - vm_compute. reflexivity.
Defined.

(** ** Version counter *)

Lemma DomainEntity_check_match ev e i o :
  field e "_id" = Some i -> ev_dict ev !! "originator_id" = Some o ->
  py_eq i o = true ->
  DomainEntity_Event_check_obj ev (Some e) = (Ok tt, Some e).
Proof.
  intros Hi Ho Heq. unfold DomainEntity_Event_check_obj, get_id.
  rewrite (bind_ok _ _ _ _ _ (get_field_some _ _ _ Hi)).
  unfold bind, lift, ev_get. rewrite Ho, Heq. reflexivity.
Qed.

Lemma py_succ_int v n : as_int v = Some n -> py_succ v = Ok (VInt (n + 1)).
Proof. unfold py_succ. intros ->. reflexivity. Qed.

Lemma Versioned_check_mismatch ev e i o ov v n :
  is_versioned (e_class e) = true ->
  field e "_id" = Some i -> ev_dict ev !! "originator_id" = Some o ->
  py_eq i o = true ->
  ev_dict ev !! "originator_version" = Some ov ->
  field e "___version__" = Some v -> as_int v = Some n ->
  py_eq ov (VInt (n + 1)) = false ->
  VersionedEntity_Event_check_obj ev (Some e)
  = (Raise (OriginatorVersionError ov v (kind_name (ec_kind (ev_class ev)))
              (class_name (e_class e)) i), Some e).
Proof.
  intros Hv Hi Ho Hid Hov Hver Hn Hne. unfold VersionedEntity_Event_check_obj.
  rewrite (bind_ok _ _ _ _ _ (DomainEntity_check_match ev e i o Hi Ho Hid)).
  assert (Hgv : get_version (Some e) = (Ok v, Some e)).
  { rewrite (get_version_versioned e Hv). apply get_field_some, Hver. }
  assert (Hl : lift (ev_get ev "originator_version") (Some e) = (Ok ov, Some e)).
  { unfold lift, ev_get. rewrite Hov. reflexivity. }
  rewrite (bind_ok _ _ _ _ _ Hl). rewrite (bind_ok _ _ _ _ _ Hgv).
  erewrite bind_ok; [|unfold lift; rewrite (py_succ_int v n Hn); reflexivity].
  rewrite Hne.
  rewrite (bind_ok _ _ _ _ _ Hl). rewrite (bind_ok _ _ _ _ _ Hgv).
  rewrite (bind_ok _ _ _ _ _ (get_field_some _ _ _ Hi)). reflexivity.
Qed.

(** C6: a versioned event applied to a versioned entity whose id it
    matches, with [originator_version] different from the entity's version
    plus 1, is rejected by the check with OriginatorVersionError carrying
    the event's version, the entity's current version, the names of the
    event type and of the entity type, and the entity id; the application
    of the event raises that error and leaves the entity unchanged. *)
Theorem version_check_rejects_conflict G ev e i o ov v n :
  has_version (ec_owner (ev_class ev)) = true ->
  ec_kind (ev_class ev) <> KCreated ->
  is_versioned (e_class e) = true ->
  field e "_id" = Some i -> ev_dict ev !! "originator_id" = Some o ->
  py_eq i o = true ->
  ev_dict ev !! "originator_version" = Some ov ->
  field e "___version__" = Some v -> as_int v = Some n ->
  py_eq ov (VInt (n + 1)) = false ->
  let err := OriginatorVersionError ov v (kind_name (ec_kind (ev_class ev)))
               (class_name (e_class e)) i in
  check_obj ev (Some e) = (Raise err, Some e) /\
  mutate G ev (Some e) = (Raise err, Some e).
Proof.
  intros Hhv Hnc Hv Hi Ho Hid Hov Hver Hn Hne err.
  assert (Hc : check_obj ev (Some e) = (Raise err, Some e)).
  { unfold check_obj.
    destruct (ec_owner (ev_class ev)); try discriminate;
      eapply Versioned_check_mismatch; eassumption. }
  split; [exact Hc|]. apply mutate_check_fails; try assumption.
  intros Hown. rewrite Hown in Hhv. discriminate.
Qed.

Lemma version_check_rejects_conflict_witness :
  let ev := sample_change OVersioned [("originator_version", VInt 1)] in
  let err := OriginatorVersionError (VInt 1) (VInt 1) "AttributeChanged"
               "VersionedEntity" (VUuid 7) in
  check_obj ev (Some (sample_versioned 1)) = (Raise err, Some (sample_versioned 1)) /\
  mutate sample_genesis ev (Some (sample_versioned 1))
  = (Raise err, Some (sample_versioned 1)).
Proof.
  intros ev err.
  apply (version_check_rejects_conflict sample_genesis ev (sample_versioned 1)
           (VUuid 7) (VUuid 7) (VInt 1) (VInt 1) 1).
  all: vm_compute; first [reflexivity | discriminate].
Defined.

(** ** Hash chain *)





(** ** Fields of a constructed event *)

Ltac destruct_ifs :=
  repeat match goal with
         | |- context [if ?b then _ else _] => destruct b eqn:?
         end.

Lemma new_event_dict H now cls kw ev :
  new_event H now cls kw = Ok ev ->
  ev_class ev = cls /\
  (forall key, key <> "originator_version" -> key <> "timestamp" ->
               key <> "__event_topic__" -> key <> "__event_hash__" ->
               ev_dict ev !! key = kw !! key) /\
  (forall v, kw !! "originator_version" = Some v ->
             ev_dict ev !! "originator_version" = Some v) /\
  (has_version (ec_owner cls) = true -> ec_kind cls = KCreated ->
   kw !! "originator_version" = None ->
   ev_dict ev !! "originator_version" = Some (VInt 0)) /\
  (has_timestamp (ec_owner cls) = true -> exists t, ev_dict ev !! "timestamp" = Some t).
Proof.
  unfold new_event.
  destruct (bool_decide (ec_kind cls = KCreated)
            && bool_decide (kw !! "originator_topic" = None)); [discriminate|].
  intros Heq. inversion Heq; subst ev; clear Heq. cbn [ev_class ev_dict].
  split; [reflexivity|]. split; [|split; [|split]].
  - intros key H1 H2 H3 H4. destruct_ifs;
      repeat (rewrite lookup_insert_ne by congruence); reflexivity.
  - intros v Hv.
    assert (Hd1 : (if has_version (ec_owner cls) && bool_decide (ec_kind cls = KCreated)
                      && bool_decide (kw !! "originator_version" = None)
                   then <["originator_version" := VInt 0]> kw else kw)
                  !! "originator_version" = Some v).
    { rewrite Hv. rewrite (bool_decide_eq_false_2 (Some v = None)) by done.
      rewrite andb_false_r. exact Hv. }
    destruct_ifs; repeat (rewrite lookup_insert_ne by done); exact Hd1.
  - intros Hhv Hk Hnone. rewrite Hhv, Hnone.
    rewrite (bool_decide_eq_true_2 (ec_kind cls = KCreated)) by done.
    rewrite (bool_decide_eq_true_2 (@None Val = None)) by done. cbn [andb].
    destruct_ifs; repeat (rewrite lookup_insert_ne by done);
      apply lookup_insert_eq.
  - intros Hts. rewrite Hts. cbn [andb].
    set (d1 := if has_version (ec_owner cls) && bool_decide (ec_kind cls = KCreated)
                  && bool_decide (kw !! "originator_version" = None)
               then <["originator_version" := VInt 0]> kw else kw).
    destruct (d1 !! "timestamp") as [t|] eqn:Ht.
    + exists t. rewrite (bool_decide_eq_false_2 (Some t = None)) by done.
      destruct (has_hash (ec_owner cls));
        repeat (rewrite lookup_insert_ne by done); exact Ht.
    + exists now. rewrite (bool_decide_eq_true_2 (@None Val = None)) by reflexivity.
      destruct (has_hash (ec_owner cls));
        repeat (rewrite lookup_insert_ne by done); apply lookup_insert_eq.
Qed.

Lemma with_keyword_ok key v kw kw0 :
  with_keyword key v kw = Ok kw0 -> kw !! key = None /\ kw0 = <[key := v]> kw.
Proof.
  unfold with_keyword. destruct (kw !! key); [discriminate|].
  intros Heq. inversion Heq. auto.
Qed.

Lemma stamped_versioned e kw kw0 :
  is_versioned (e_class e) = true -> stamped e kw kw0 ->
  exists v next, field e "___version__" = Some v /\ py_succ v = Ok next /\
                 with_keyword "originator_version" next kw = Ok kw0.
Proof. unfold stamped. destruct (e_class e); try discriminate; auto. Qed.

Lemma upd_class e name v : e_class (upd e name v) = e_class e.
Proof. reflexivity. Qed.

(** One successful trigger of a versioned event kind other than Discarded
    takes the entity to the next version. *)
Lemma versioned_trigger_step G H now cls kw e n log s' :
  is_versioned (e_class e) = true ->
  field e "___version__" = Some (VInt n) ->
  has_version (ec_owner cls) = true -> ec_kind cls <> KDiscarded ->
  trigger_event G H now cls kw (Some e, log) = (Ok tt, s') ->
  exists e' ev, s' = (Some e', (log ++ [ev])%list) /\
    ev_dict ev !! "originator_version" = Some (VInt (n + 1)) /\
    is_versioned (e_class e') = true /\
    field e' "___version__" = Some (VInt (n + 1)).
Proof.
  intros Hv Hn Hhv Hnd Ht.
  apply trigger_event_inv in Ht
    as [(x & h' & ? & _)
       |(e_ & i & kw0 & kw' & ev & r0 & h' & _ & He & _ & _ & Hst & Hk & Hne & Hm & ->)];
    [discriminate|].
  inversion He; subst e_.
  apply (stamped_versioned e kw kw0 Hv) in Hst as (v & next & Hf & Hs & Hw).
  rewrite Hn in Hf. inversion Hf; subst v. cbn in Hs. inversion Hs; subst next.
  apply with_keyword_ok in Hw as [_ ->]. apply with_keyword_ok in Hk as [_ ->].
  apply new_event_dict in Hne as (Hcls & _ & Hov & _).
  specialize (Hov (VInt (n + 1))).
  rewrite lookup_insert_ne in Hov by done. rewrite lookup_insert_eq in Hov.
  specialize (Hov eq_refl).
  apply mutate_ok_inv in Hm as (e0 & e1 & e2 & Hpre & _ & Hks & Hext & ->).
  unfold pre_step, kind_step, ext_step in *. rewrite Hcls in *.
  exists e2, ev. split; [reflexivity|]. split; [exact Hov|].
  destruct (ec_owner cls) eqn:Ho; try discriminate;
    destruct (ec_kind cls) eqn:Hkd; try contradiction; try congruence;
    split_all; subst; split_all; subst; rewrite ?upd_class;
    (split; [assumption|]);
    repeat (rewrite field_upd_ne by done); rewrite field_upd_eq; congruence.
Qed.

(** ** Creation *)

Lemma resolve_get_topic c : resolve_topic (get_topic c) = Ok c.
Proof. destruct c; vm_compute; reflexivity. Qed.

Lemma rename_key_ok old new d k :
  rename_key old new d = Ok k ->
  exists v, d !! old = Some v /\ k = <[new := v]> (delete old d).
Proof.
  unfold rename_key. destruct (d !! old) as [v|]; [|discriminate].
  intros Heq. inversion Heq. eauto.
Qed.

Lemma Created_mutate_none_ok G ev cls r h' :
  DomainEntity_Created_mutate G ev cls None = (Ok r, h') ->
  exists c kwargs e,
    match cls with
    | Some c' => c = c'
    | None => exists t, ev_dict ev !! "originator_topic" = Some t /\
                        resolve_topic t = Ok c
    end /\
    entity_kwargs ev = Ok kwargs /\ construct G c kwargs = Ok e /\
    r = RObj /\ h' = Some e.
Proof.
  unfold DomainEntity_Created_mutate.
  match goal with
  | |- context [rbind ?m ?f] =>
      destruct (rbind m f) as [e|x] eqn:Hr; [|discriminate]
  end.
  intros Heq. inversion Heq; subst r h'.
  apply rbind_inv in Hr as [(c & Hc & Hr)|(x & _ & ?)]; [|discriminate].
  apply rbind_inv in Hr as [(kwargs & Hk & Hr)|(x & _ & ?)]; [|discriminate].
  exists c, kwargs, e. repeat split; try assumption.
  destruct cls as [c'|].
  - inversion Hc. reflexivity.
  - apply rbind_inv in Hc as [(t & Ht & Hc)|(x & _ & ?)]; [|discriminate].
    apply ev_get_ok in Ht. eauto.
Qed.

Lemma mutate_created_ok G ev cls r h' :
  ec_kind (ev_class ev) = KCreated ->
  mutate_on G ev cls None = (Ok r, h') ->
  exists c kwargs e0,
    match cls with
    | Some c' => c = c'
    | None => exists t, ev_dict ev !! "originator_topic" = Some t /\
                        resolve_topic t = Ok c
    end /\
    entity_kwargs ev = Ok kwargs /\ construct G c kwargs = Ok e0 /\ r = RObj /\
    if has_hash (ec_owner (ev_class ev))
    then exists hash, ev_dict ev !! "__event_hash__" = Some hash /\
                      h' = Some (upd e0 "__head__" hash)
    else h' = Some e0.
Proof.
  intros Hk. unfold mutate_on, kind_mutate. rewrite Hk.
  destruct (ec_owner (ev_class ev)) eqn:Ho; cbn [has_hash]; intros Hm;
    try (apply Created_mutate_none_ok in Hm
           as (c & kwargs & e0 & Hc & Hkw & Hcon & -> & ->);
         exists c, kwargs, e0; auto 10).
  apply stamp_layer_ok in Hm as (h1 & Hm & Hst).
  apply Created_mutate_none_ok in Hm as (c & kwargs & e0 & Hc & Hkw & Hcon & -> & ->).
  exists c, kwargs, e0. repeat (split; [assumption || reflexivity|]).
  destruct Hst as [[? _]|(e1 & v & _ & He & Hv & ->)]; [discriminate|].
  inversion He; subst e1. eauto.
Qed.

(** Only a Created event makes an object out of [None]. *)
Lemma mutate_none_object G ev h' :
  mutate G ev None = (Ok RObj, h') -> ec_kind (ev_class ev) = KCreated.
Proof.
  unfold mutate, mutate_on, kind_mutate.
  assert (Hb : DomainEvent_mutate ev None = (Raise AssertionError, None)).
  { unfold DomainEvent_mutate. apply bind_raise. unfold check_obj.
    unfold EntityWithHashchain_Event_check_obj, VersionedEntity_Event_check_obj.
    destruct (ec_owner (ev_class ev)); first [reflexivity | apply bind_raise; reflexivity]. }
  assert (Ha : forall r h, DomainEntity_AttributeChanged_mutate ev
                 (DomainEvent_mutate ev) None <> (Ok r, h)).
  { intros r h Hx. apply AttributeChanged_mutate_ok in Hx as (? & ? & ? & Hx & _).
    rewrite Hb in Hx. discriminate. }
  assert (Hd : forall r h, DomainEntity_Discarded_mutate ev
                 (DomainEvent_mutate ev) None <> (Ok r, h)).
  { intros r h Hx. apply Discarded_mutate_ok in Hx as (? & Hx & _).
    rewrite Hb in Hx. discriminate. }
  destruct (ec_owner (ev_class ev)), (ec_kind (ev_class ev)); intros Hm;
    try reflexivity; exfalso.
  all: try (apply Timestamped_layer_ok in Hm as (h1 & Hm & _)).
  all: try (apply stamp_layer_ok in Hm as (h0 & Hm & _)).
  all: try (rewrite Hb in Hm; discriminate).
  all: try (eapply Ha; eassumption).
  all: try (eapply Hd; eassumption).
  all: unfold EntityWithHashchain_Discarded_mutate in Hm;
       apply bind_inv in Hm as [(hash & h1 & Hv & Hm) | (x & _ & ?)]; [|discriminate];
       apply lift_inv in Hv as [_ ->];
       apply bind_inv in Hm as [(u & h2 & Hs & Hm) | (x & _ & ?)]; [|discriminate];
       discriminate.
Qed.

Lemma DomainEntity_create_ok G H fresh now cls oid evc kw log e log' :
  DomainEntity_create G H fresh now cls oid evc kw log = (Ok e, log') ->
  exists kw1 kw2 ev,
    with_keyword "originator_id"
      (if bool_decide (oid = VNone) then fresh else oid) kw = Ok kw1 /\
    with_keyword "originator_topic" (get_topic cls) kw1 = Ok kw2 /\
    new_event H now (default (event_class_of cls KCreated) evc) kw2 = Ok ev /\
    mutate G ev None = (Ok RObj, Some e) /\ log' = (log ++ [ev])%list.
Proof.
  unfold DomainEntity_create.
  match goal with
  | |- context [rbind ?m ?f] =>
      destruct (rbind m f) as [ev|x] eqn:Hr; [|discriminate]
  end.
  apply rbind_inv in Hr as [(kw1 & Hk1 & Hr)|(x & _ & ?)]; [|discriminate].
  apply rbind_inv in Hr as [(kw2 & Hk2 & Hr)|(x & _ & ?)]; [|discriminate].
  destruct (mutate G ev None) as [[[|]|x] [e0|]] eqn:Hm; try discriminate.
  intros Heq. inversion Heq; subst. exists kw1, kw2, ev. auto 10.
Qed.

Lemma pop_arg_ok name kw p :
  pop_arg name kw = Ok p -> kw !! name = Some p.1 /\ p.2 = delete name kw.
Proof.
  unfold pop_arg. destruct (kw !! name); [|discriminate].
  intros Heq. inversion Heq. auto.
Qed.

Lemma DomainEntity_init_ok kw d :
  DomainEntity_init kw = Ok d ->
  exists i, kw !! "id" = Some i /\ delete "id" kw = ∅ /\
            d = <["__is_discarded__" := VBool false]> (<["_id" := i]> ∅).
Proof.
  unfold DomainEntity_init. intros Heq.
  apply rbind_inv in Heq as [(p & Hp & Heq)|(x & _ & ?)]; [|discriminate].
  apply pop_arg_ok in Hp as [Hi Hrest].
  destruct (bool_decide (p.2 = ∅)) eqn:Hb; [|discriminate].
  apply bool_decide_eq_true_1 in Hb. inversion Heq. rewrite <- Hrest. eauto.
Qed.

Lemma layer_init_ok (name : string) (store : Val -> gmap string Val -> gmap string Val)
  (super : InitFn) kw d :
  (try p <- pop_arg name kw; try d0 <- super p.2; Ok (store p.1 d0)) = Ok d ->
  exists v d0, kw !! name = Some v /\ super (delete name kw) = Ok d0 /\ d = store v d0.
Proof.
  intros Heq.
  apply rbind_inv in Heq as [(p & Hp & Heq)|(x & _ & ?)]; [|discriminate].
  apply pop_arg_ok in Hp as [Hi Hrest].
  apply rbind_inv in Heq as [(d0 & Hs & Heq)|(x & _ & ?)]; [|discriminate].
  inversion Heq. rewrite Hrest in Hs. eauto.
Qed.

Lemma VersionedEntity_init_ok super kw d :
  VersionedEntity_init super kw = Ok d ->
  exists v d0, kw !! "__version__" = Some v /\
               super (delete "__version__" kw) = Ok d0 /\
               d = <["___version__" := v]> d0.
Proof. apply (layer_init_ok "__version__" (fun v d0 => <["___version__" := v]> d0)). Qed.

Lemma TimestampedEntity_init_ok super kw d :
  TimestampedEntity_init super kw = Ok d ->
  exists v d0, kw !! "__created_on__" = Some v /\
               super (delete "__created_on__" kw) = Ok d0 /\
               d = <["___last_modified__" := v]> (<["___created_on__" := v]> d0).
Proof.
  apply (layer_init_ok "__created_on__"
           (fun v d0 => <["___last_modified__" := v]> (<["___created_on__" := v]> d0))).
Qed.

Lemma TimeuuidedEntity_init_ok super kw d :
  TimeuuidedEntity_init super kw = Ok d ->
  exists v d0, kw !! "event_id" = Some v /\
               super (delete "event_id" kw) = Ok d0 /\
               d = <["___last_event_id__" := v]> (<["___initial_event_id__" := v]> d0).
Proof.
  apply (layer_init_ok "event_id"
           (fun v d0 => <["___last_event_id__" := v]> (<["___initial_event_id__" := v]> d0))).
Qed.

Ltac inv_init H :=
  repeat first
    [ apply TimestampedEntity_init_ok in H as (? & ? & ? & H & ->)
    | apply TimeuuidedEntity_init_ok in H as (? & ? & ? & H & ->)
    | apply VersionedEntity_init_ok in H as (? & ? & ? & H & ->)
    | apply DomainEntity_init_ok in H as (? & ? & H & ->) ].

Ltac lookup_simpl :=
  repeat first
    [ rewrite lookup_insert_eq
    | rewrite lookup_insert_ne by done
    | rewrite lookup_delete_ne by done ].

Ltac lookup_simpl_in H :=
  repeat first
    [ rewrite lookup_insert_eq in H
    | rewrite lookup_insert_ne in H by done
    | rewrite lookup_delete_ne in H by done ].

(** What the constructors store. *)
Lemma construct_fields G c kwargs e :
  construct G c kwargs = Ok e ->
  e_class e = c /\
  field e "_id" = kwargs !! "id" /\
  field e "__is_discarded__" = Some (VBool false) /\
  (is_versioned c = true -> field e "___version__" = kwargs !! "__version__" /\
                            exists v, kwargs !! "__version__" = Some v) /\
  (is_TimestampedEntity c = true ->
   field e "___created_on__" = kwargs !! "__created_on__" /\
   field e "___last_modified__" = kwargs !! "__created_on__" /\
   exists t, kwargs !! "__created_on__" = Some t).
Proof.
  unfold construct. intros Heq.
  apply rbind_inv in Heq as [(d & Hd & Heq)|(x & _ & ?)]; [|discriminate].
  inversion Heq; subst e; clear Heq. unfold field. cbn [e_class e_dict].
  split; [reflexivity|].
  destruct c; unfold class_init in Hd;
    try (unfold EntityWithHashchain_init in Hd;
         apply rbind_inv in Hd as [(d0 & Hd & Heq)|(x & _ & ?)]; [|discriminate];
         inversion Heq; subst d; clear Heq);
    inv_init Hd;
    repeat match goal with
           | Hx : _ !! _ = Some _ |- _ => lookup_simpl_in Hx; rewrite Hx; clear Hx
           end;
    lookup_simpl; repeat split; try discriminate; try reflexivity; eauto.
Qed.

Lemma DomainEntity_kwargs_ok d k :
  DomainEntity_Created_entity_kwargs d = Ok k ->
  exists i, d !! "originator_id" = Some i /\
    k = delete "__event_topic__"
          (delete "originator_topic" (<["id" := i]> (delete "originator_id" d))).
Proof.
  unfold DomainEntity_Created_entity_kwargs. intros Heq.
  apply rbind_inv in Heq as [(k0 & Hk & Heq)|(x & _ & ?)]; [|discriminate].
  apply rename_key_ok in Hk as (i & Hi & ->). inversion Heq. eauto.
Qed.

Ltac lookup_all :=
  repeat first
    [ rewrite lookup_insert_eq
    | rewrite lookup_delete_eq
    | rewrite lookup_insert_ne by done
    | rewrite lookup_delete_ne by done ].

(** What [__entity_kwargs__] hands to the constructor. *)
Lemma entity_kwargs_fields ev kwargs :
  entity_kwargs ev = Ok kwargs ->
  kwargs !! "id" = ev_dict ev !! "originator_id" /\
  (exists i, ev_dict ev !! "originator_id" = Some i) /\
  kwargs !! "originator_id" = None /\
  kwargs !! "originator_topic" = None /\
  kwargs !! "__event_topic__" = None /\
  (has_version (ec_owner (ev_class ev)) = true ->
   kwargs !! "__version__" = ev_dict ev !! "originator_version") /\
  (has_timestamp (ec_owner (ev_class ev)) = true ->
   kwargs !! "__created_on__" = ev_dict ev !! "timestamp") /\
  (ec_owner (ev_class ev) = ODomain ->
   forall key, key <> "id" -> key <> "originator_id" ->
               key <> "originator_topic" -> key <> "__event_topic__" ->
               kwargs !! key = ev_dict ev !! key).
Proof.
  unfold entity_kwargs, TimestampedEntity_Created_entity_kwargs,
    VersionedEntity_Created_entity_kwargs, EntityWithHashchain_Created_entity_kwargs.
  destruct (ec_owner (ev_class ev)); intros Heq; cbn [has_version has_timestamp].
  - apply DomainEntity_kwargs_ok in Heq as (i & Hi & ->).
    rewrite Hi. lookup_all. repeat split; eauto; try discriminate.
    intros _ key H1 H2 H3 H4. lookup_all. reflexivity.
  - apply rbind_inv in Heq as [(k0 & Hk & Heq)|(x & _ & ?)]; [|discriminate].
    apply DomainEntity_kwargs_ok in Hk as (i & Hi & ->). inversion Heq; subst kwargs.
    rewrite Hi. lookup_all. repeat split; eauto; discriminate.
  - apply rbind_inv in Heq as [(k0 & Hk & Heq)|(x & _ & ?)]; [|discriminate].
    apply DomainEntity_kwargs_ok in Hk as (i & Hi & ->).
    apply rename_key_ok in Heq as (v & Hv & ->). lookup_simpl_in Hv.
    rewrite Hi, Hv. lookup_all. repeat split; eauto; discriminate.
  - apply rbind_inv in Heq as [(k0 & Hk & Heq)|(x & _ & ?)]; [|discriminate].
    apply DomainEntity_kwargs_ok in Hk as (i & Hi & ->).
    apply rename_key_ok in Heq as (v & Hv & ->). lookup_simpl_in Hv.
    rewrite Hi, Hv. lookup_all. repeat split; eauto; discriminate.
  - apply rbind_inv in Heq as [(k1 & Hk1 & Heq)|(x & _ & ?)]; [|discriminate].
    apply rbind_inv in Hk1 as [(k0 & Hk & Hk1)|(x & _ & ?)]; [|discriminate].
    apply DomainEntity_kwargs_ok in Hk as (i & Hi & ->).
    apply rename_key_ok in Hk1 as (v & Hv & ->). lookup_simpl_in Hv.
    apply rename_key_ok in Heq as (t & Ht & ->). lookup_simpl_in Ht.
    rewrite Hi, Hv, Ht. lookup_all. repeat split; eauto; discriminate.
Qed.

Lemma create_versioned_base G H fresh now cls oid evc kw log :
  is_versioned cls = true ->
  create G H fresh now cls oid evc kw log
  = DomainEntity_create G H fresh now cls oid evc kw log.
Proof. destruct cls; try discriminate; reflexivity. Qed.

Lemma versioned_events_owner cls :
  is_versioned cls = true -> has_version (events_owner cls) = true.
Proof. destruct cls; try discriminate; reflexivity. Qed.

Lemma has_version_no_hash o : has_version o = true -> has_hash o = false.
Proof. destruct o; try discriminate; reflexivity. Qed.

Lemma create_versioned_at_zero G H fresh now cls oid kw log e log' :
  is_versioned cls = true ->
  kw !! "originator_version" = None ->
  create G H fresh now cls oid None kw log = (Ok e, log') ->
  e_class e = cls /\ field e "___version__" = Some (VInt 0).
Proof.
  intros Hv Hnone Hc. rewrite (create_versioned_base _ _ _ _ _ _ _ _ _ Hv) in Hc.
  apply DomainEntity_create_ok in Hc as (kw1 & kw2 & ev & Hk1 & Hk2 & Hne & Hm & ->).
  apply with_keyword_ok in Hk1 as [_ ->]. apply with_keyword_ok in Hk2 as [_ ->].
  cbn [default] in Hne.
  apply new_event_dict in Hne as (Hcls & Hother & _ & Hzero & _).
  pose proof (versioned_events_owner cls Hv) as Hhv.
  specialize (Hzero Hhv eq_refl). lookup_simpl_in Hzero. specialize (Hzero Hnone).
  pose proof (Hother "originator_topic" ltac:(done) ltac:(done) ltac:(done) ltac:(done))
    as Htopic.
  lookup_simpl_in Htopic.
  apply mutate_created_ok in Hm as (c & kwargs & e0 & Hc & Hkw & Hcon & _ & Hh);
    [|rewrite Hcls; reflexivity].
  destruct Hc as (t & Ht & Hres). rewrite Htopic in Ht. inversion Ht; subst t.
  rewrite resolve_get_topic in Hres. inversion Hres; subst c.
  rewrite Hcls in Hh. cbn [event_class_of ec_owner] in Hh.
  rewrite (has_version_no_hash _ Hhv) in Hh. inversion Hh; subst e0.
  apply entity_kwargs_fields in Hkw as (_ & _ & _ & _ & _ & Hver & _).
  rewrite Hcls in Hver. specialize (Hver Hhv).
  apply construct_fields in Hcon as (Hclass & _ & _ & Hfv & _).
  destruct (Hfv Hv) as [Hfield _]. rewrite Hfield, Hver, Hzero. auto.
Qed.

Lemma versioned_trigger_all G H calls : forall e n log s',
  is_versioned (e_class e) = true ->
  field e "___version__" = Some (VInt n) ->
  Forall (fun c => has_version (ec_owner (call_class c)) = true /\
                   ec_kind (call_class c) <> KDiscarded) calls ->
  trigger_all G H calls (Some e, log) = (Ok tt, s') ->
  exists e', s'.1 = Some e' /\
             field e' "___version__" = Some (VInt (n + Z.of_nat (length calls))).
Proof.
  induction calls as [|c rest IH]; intros e n log s' Hv Hn Hall Ht.
  - cbn in Ht. inversion Ht; subst s'. exists e. cbn [fst length].
    rewrite Z.add_0_r. auto.
  - cbn [trigger_all] in Ht. inversion Hall as [|? ? [Hhv Hnd] Hrest]; subst.
    destruct (trigger_event G H (call_now c) (call_class c) (call_kwargs c) (Some e, log))
      as [[[]|x] s1] eqn:Hstep; [|discriminate].
    apply (versioned_trigger_step G H _ _ _ e n log s1 Hv Hn Hhv Hnd) in Hstep
      as (e1 & ev & -> & _ & Hv1 & Hn1).
    destruct (IH e1 (n + 1) _ s' Hv1 Hn1 Hrest Ht) as (e' & He' & Hf).
    exists e'. split; [assumption|]. rewrite Hf. f_equal. f_equal.
    cbn [length]. lia.
Qed.

(** C5, as stated, fails for Discarded: a successful [__discard__] is a
    successful trigger, and it leaves the version where it was (the
    version is stored only when the event's mutation returns the object). *)
Lemma version_not_advanced_by_discard :
  ~ (forall e log calls s',
       create sample_genesis sample_hash (VUuid 7) (VInt 1000) VersionedEntity VNone
         None ∅ [] = (Ok e, log) ->
       trigger_all sample_genesis sample_hash calls (Some e, log) = (Ok tt, s') ->
       exists e', s'.1 = Some e' /\
                  field e' "___version__" = Some (VInt (Z.of_nat (length calls)))).
Proof.
  intros Hc.
  destruct (create sample_genesis sample_hash (VUuid 7) (VInt 1000) VersionedEntity
              VNone None ∅ []) as [[e|x] log] eqn:Hcr; [|vm_compute in Hcr; discriminate].
  specialize (Hc e log [MkCall (VInt 2000) (MkEventClass OVersioned KDiscarded) ∅]).
  destruct (trigger_all sample_genesis sample_hash
              [MkCall (VInt 2000) (MkEventClass OVersioned KDiscarded) ∅] (Some e, log))
    as [r s'] eqn:Ht.
  vm_compute in Hcr. inversion Hcr; subst e log; clear Hcr.
  vm_compute in Ht. inversion Ht; subst r s'; clear Ht.
  destruct (Hc _ eq_refl eq_refl) as (e' & He' & Hf).
  cbn [fst] in He'. inversion He'; subst e'. vm_compute in Hf. discriminate Hf.
Qed.

(** C5 (amended): [__create__] of a versioned entity, with no
    [originator_version] among the fields, yields version 0; after k
    successful triggers of versioned event kinds other than Discarded the
    version is k, each trigger stamping the current version plus 1, which
    the event's mutation stores. *)
Theorem version_counts_successful_triggers G H fresh now cls oid kw log e log' calls s' :
  is_versioned cls = true ->
  kw !! "originator_version" = None ->
  create G H fresh now cls oid None kw log = (Ok e, log') ->
  Forall (fun c => has_version (ec_owner (call_class c)) = true /\
                   ec_kind (call_class c) <> KDiscarded) calls ->
  trigger_all G H calls (Some e, log') = (Ok tt, s') ->
  field e "___version__" = Some (VInt 0) /\
  exists e', s'.1 = Some e' /\
             field e' "___version__" = Some (VInt (Z.of_nat (length calls))).
Proof.
  intros Hv Hnone Hc Hall Ht.
  destruct (create_versioned_at_zero _ _ _ _ _ _ _ _ _ _ Hv Hnone Hc) as [Hcls H0].
  split; [exact H0|].
  apply (versioned_trigger_all G H calls e 0 log' s'); try assumption.
  rewrite Hcls. exact Hv.
Qed.

Lemma version_counts_successful_triggers_witness :
  let s' := (trigger_all sample_genesis sample_hash sample_calls
               (Some (sample_new VersionedEntity), (sample_created VersionedEntity).2)).2 in
  field (sample_new VersionedEntity) "___version__" = Some (VInt 0) /\
  exists e', s'.1 = Some e' /\ field e' "___version__" = Some (VInt 2).
Proof.
  intros s'.
  apply (version_counts_successful_triggers sample_genesis sample_hash (VUuid 7)
           (VInt 1000) VersionedEntity VNone ∅ [] (sample_new VersionedEntity)
           (sample_created VersionedEntity).2 sample_calls s').
  - reflexivity.
  - reflexivity.
  - vm_compute. reflexivity.
  - repeat constructor; discriminate.
  - vm_compute. reflexivity.
Defined.

(** ** Timestamps *)

Lemma construct_accepts_created_on G c kwargs e t :
  construct G c kwargs = Ok e -> kwargs !! "__created_on__" = Some t ->
  is_TimestampedEntity c = true.
Proof.
  unfold construct. intros Heq Ht.
  apply rbind_inv in Heq as [(d & Hd & _)|(x & _ & ?)]; [|discriminate].
  destruct c; try reflexivity; exfalso; unfold class_init in Hd.
  2: unfold EntityWithHashchain_init in Hd;
     apply rbind_inv in Hd as [(d0 & Hd & _)|(x & _ & ?)]; [|discriminate].
  all: inv_init Hd;
    match type of Hd with
    | ?m = ∅ => assert (Hl : m !! "__created_on__" = None)
                  by (rewrite Hd; apply lookup_empty)
    end;
    lookup_simpl_in Hl; congruence.
Qed.

Lemma has_timestamp_no_hash o : has_timestamp o = true -> has_hash o = false.
Proof. destruct o; try discriminate; reflexivity. Qed.

Lemma entity_kwargs_timestamp ev kwargs :
  has_timestamp (ec_owner (ev_class ev)) = true ->
  entity_kwargs ev = Ok kwargs ->
  exists t, ev_dict ev !! "timestamp" = Some t /\ kwargs !! "__created_on__" = Some t.
Proof.
  unfold entity_kwargs, TimestampedEntity_Created_entity_kwargs,
    VersionedEntity_Created_entity_kwargs.
  destruct (ec_owner (ev_class ev)); try discriminate; intros _ Heq.
  - apply rbind_inv in Heq as [(k0 & Hk & Heq)|(x & _ & ?)]; [|discriminate].
    apply DomainEntity_kwargs_ok in Hk as (i & Hi & ->).
    apply rename_key_ok in Heq as (v & Hv & ->). lookup_simpl_in Hv.
    exists v. lookup_all. auto.
  - apply rbind_inv in Heq as [(k1 & Hk1 & Heq)|(x & _ & ?)]; [|discriminate].
    apply rbind_inv in Hk1 as [(k0 & Hk & Hk1)|(x & _ & ?)]; [|discriminate].
    apply DomainEntity_kwargs_ok in Hk as (i & Hi & ->).
    apply rename_key_ok in Hk1 as (v & Hv & ->).
    apply rename_key_ok in Heq as (t & Ht & ->). lookup_simpl_in Ht.
    exists t. lookup_all. auto.
Qed.

Lemma created_sets_created_on G ev r h' :
  ec_kind (ev_class ev) = KCreated ->
  has_timestamp (ec_owner (ev_class ev)) = true ->
  mutate G ev None = (Ok r, h') ->
  exists e t, h' = Some e /\ ev_dict ev !! "timestamp" = Some t /\
              field e "___created_on__" = Some t /\
              field e "___last_modified__" = Some t.
Proof.
  intros Hk Hts Hm.
  apply mutate_created_ok in Hm as (c & kwargs & e0 & _ & Hkw & Hcon & _ & Hh);
    [|assumption].
  rewrite (has_timestamp_no_hash _ Hts) in Hh. subst h'.
  apply (entity_kwargs_timestamp ev kwargs Hts) in Hkw as (t & Ht & Hco).
  pose proof (construct_accepts_created_on G c kwargs e0 t Hcon Hco) as Hc.
  apply construct_fields in Hcon as (_ & _ & _ & _ & Hf).
  destruct (Hf Hc) as (H1 & H2 & _). exists e0, t. rewrite H1, H2. auto.
Qed.

(** What an application that returns does to the two timestamps. *)
Lemma later_event_timestamps G ev e r h' :
  mutate G ev (Some e) = (Ok r, h') ->
  exists e', h' = Some e' /\
    (has_timestamp (ec_owner (ev_class ev)) = true ->
     ec_kind (ev_class ev) <> KDiscarded ->
     exists t, ev_dict ev !! "timestamp" = Some t /\
               field e' "___last_modified__" = Some t) /\
    (ec_kind (ev_class ev) = KDiscarded ->
     field e' "___last_modified__" = field e "___last_modified__") /\
    (~ (ec_kind (ev_class ev) = KAttributeChanged /\
        ev_dict ev !! "name" = Some (VStr "___created_on__")) ->
     field e' "___created_on__" = field e "___created_on__").
Proof.
  intros Hm.
  apply mutate_ok_inv in Hm as (e0 & e1 & e2 & Hpre & _ & Hks & Hext & ->).
  exists e2. unfold pre_step, kind_step, ext_step in *.
  destruct (ec_owner (ev_class ev)) eqn:Ho, (ec_kind (ev_class ev)) eqn:Hk;
    try contradiction; split_all; subst; split_all; subst; cbn [has_timestamp].
  all: split; [reflexivity|].
  all: split;
    [intros Hts Hnd;
     first [ discriminate | congruence
           | eexists; split; [eassumption|]; apply field_upd_eq ]|].
  all: split;
    [intros Hd; try discriminate; repeat (rewrite field_upd_ne by done); reflexivity|].
  all: intros Hnot;
    repeat (rewrite field_upd_ne by (done || (intros ->; apply Hnot; auto)));
    reflexivity.
Qed.

(** C4, as stated, fails for Discarded: the timestamp layer stores
    [___last_modified__] only when the event's mutation returns the
    object, and [Discarded.__mutate__] returns [None]. *)
Lemma discarded_does_not_stamp_last_modified :
  ~ (forall ev e r e',
       has_timestamp (ec_owner (ev_class ev)) = true ->
       ec_kind (ev_class ev) <> KCreated ->
       mutate sample_genesis ev (Some e) = (Ok r, Some e') ->
       field e' "___last_modified__" = ev_dict ev !! "timestamp").
Proof.
  intros Hc.
  specialize (Hc (sample_timed_event KDiscarded) sample_timestamped RNone
                (upd sample_timestamped "__is_discarded__" (VBool true))
                eq_refl ltac:(discriminate) ltac:(vm_compute; reflexivity)).
  vm_compute in Hc. discriminate Hc.
Qed.

(** C4 (amended): a Created event of the timestamp extension builds the
    entity with [___created_on__], and [___last_modified__], equal to the
    event's timestamp; a later event that returns leaves
    [___created_on__] as it is (unless it is an AttributeChanged naming
    that very attribute), and sets [___last_modified__] to its own
    timestamp if its kind is not Discarded; a Discarded event leaves
    [___last_modified__] as it is. *)
Theorem timestamps_follow_events G :
  (forall ev r h',
     ec_kind (ev_class ev) = KCreated ->
     has_timestamp (ec_owner (ev_class ev)) = true ->
     mutate G ev None = (Ok r, h') ->
     exists e t, h' = Some e /\ ev_dict ev !! "timestamp" = Some t /\
                 field e "___created_on__" = Some t /\
                 field e "___last_modified__" = Some t) /\
  (forall ev e r h',
     mutate G ev (Some e) = (Ok r, h') ->
     exists e', h' = Some e' /\
       (has_timestamp (ec_owner (ev_class ev)) = true ->
        ec_kind (ev_class ev) <> KDiscarded ->
        exists t, ev_dict ev !! "timestamp" = Some t /\
                  field e' "___last_modified__" = Some t) /\
       (ec_kind (ev_class ev) = KDiscarded ->
        field e' "___last_modified__" = field e "___last_modified__") /\
       (~ (ec_kind (ev_class ev) = KAttributeChanged /\
           ev_dict ev !! "name" = Some (VStr "___created_on__")) ->
        field e' "___created_on__" = field e "___created_on__")).
Proof.
  split.
  - apply created_sets_created_on.
  - apply later_event_timestamps.
Qed.

Lemma timestamps_follow_events_witness :
  (exists e t,
     (mutate sample_genesis (sample_timed_event KCreated) None).2 = Some e /\
     ev_dict (sample_timed_event KCreated) !! "timestamp" = Some t /\
     field e "___created_on__" = Some t /\ field e "___last_modified__" = Some t) /\
  (exists e',
     (mutate sample_genesis (sample_timed_event KAttributeChanged)
        (Some sample_timestamped)).2 = Some e' /\
     (exists t, ev_dict (sample_timed_event KAttributeChanged) !! "timestamp" = Some t /\
                field e' "___last_modified__" = Some t) /\
     field e' "___created_on__" = field sample_timestamped "___created_on__").
Proof.
  destruct (timestamps_follow_events sample_genesis) as [Hcreated Hlater]. split.
  - apply (Hcreated (sample_timed_event KCreated) RObj).
    + reflexivity.
    + reflexivity.
    + vm_compute. reflexivity.
  - destruct (Hlater (sample_timed_event KAttributeChanged) sample_timestamped RObj
                (mutate sample_genesis (sample_timed_event KAttributeChanged)
                   (Some sample_timestamped)).2)
      as (e' & He' & Hlm & _ & Hco).
    + vm_compute. reflexivity.
    + exists e'. split; [exact He'|]. split.
      * apply Hlm; [reflexivity|discriminate].
      * apply Hco. intros [_ Hname]. vm_compute in Hname. discriminate Hname.
Defined.

(** ** Identity of a created entity *)




Lemma create_ok G H fresh now cls oid evc kw log e log' :
  create G H fresh now cls oid evc kw log = (Ok e, log') ->
  exists ev,
    log' = (log ++ [ev])%list /\
    mutate G ev None = (Ok RObj, Some e) /\
    ec_kind (ev_class ev) = KCreated /\
    ev_dict ev !! "originator_topic" = Some (get_topic cls) /\
    ev_dict ev !! "originator_id"
    = Some (if bool_decide (oid = VNone) then fresh else oid).
Proof.
  intros Hc.
  assert (Hb : exists kw0,
             DomainEntity_create G H fresh now cls oid evc kw0 log = (Ok e, log')).
  { unfold create in Hc. destruct cls; eauto. }
  destruct Hb as [kw0 Hb].
  apply DomainEntity_create_ok in Hb as (kw1 & kw2 & ev & Hk1 & Hk2 & Hne & Hm & ->).
  apply with_keyword_ok in Hk1 as [_ ->]. apply with_keyword_ok in Hk2 as [_ ->].
  apply new_event_dict in Hne as (_ & Hother & _).
  exists ev. split; [reflexivity|]. split; [exact Hm|].
  split; [eapply mutate_none_object; eassumption|].
  rewrite !Hother by done. lookup_all. auto.
Qed.



(** ** Replay *)

Lemma py_eq_refl v : py_eq v v = true.
Proof.
  unfold py_eq. destruct (as_int v); apply bool_decide_eq_true_2; reflexivity.
Qed.

Lemma entity_eq_refl e : entity_eq e e = true.
Proof.
  unfold entity_eq. rewrite !bool_decide_eq_true_2 by reflexivity. cbn [andb].
  apply forallb_forall. intros [k v] Hin. cbn [fst snd].
  apply list_elem_of_In, elem_of_map_to_list in Hin. rewrite Hin. apply py_eq_refl.
Qed.

Lemma apply_events_app G l1 l2 h :
  apply_events G (l1 ++ l2) h
  = match apply_events G l1 h with
    | Ok h' => apply_events G l2 h'
    | Raise x => Raise x
    end.
Proof.
  revert h. induction l1 as [|ev l1 IH]; intros h; cbn [apply_events app].
  - reflexivity.
  - destruct (mutate G ev h) as [[[]|x] h']; [apply IH|apply IH|reflexivity].
Qed.

(** Every successful trigger publishes one event. *)
Lemma trigger_all_length G H calls : forall s s',
  trigger_all G H calls s = (Ok tt, s') ->
  length s'.2 = (length s.2 + length calls)%nat.
Proof.
  induction calls as [|c rest IH]; intros [h log] s' Ht.
  - cbn in Ht. inversion Ht; subst s'. cbn [fst snd length]. lia.
  - cbn [trigger_all] in Ht.
    destruct (trigger_event G H (call_now c) (call_class c) (call_kwargs c) (h, log))
      as [[[]|x] s1] eqn:Hstep; [|discriminate].
    apply trigger_event_inv in Hstep
      as [(x & h' & ? & _)
         |(e_ & i & kw0 & kw' & ev & r0 & h' & _ & _ & _ & _ & _ & _ & _ & _ & ->)];
      [discriminate|].
    rewrite (IH _ _ Ht). cbn [fst snd length]. rewrite length_app. cbn [length]. lia.
Qed.

(** Only a Discarded event returns [None] for an object. *)
Lemma mutate_returns_object G ev e r h' :
  ec_kind (ev_class ev) <> KDiscarded ->
  mutate G ev (Some e) = (Ok r, h') -> r = RObj /\ exists e', h' = Some e'.
Proof.
  intros Hk Hm. apply mutate_ok_inv in Hm as (e0 & e1 & e2 & _ & _ & Hks & _ & ->).
  split; [|eauto]. unfold kind_step in Hks.
  destruct (ec_kind (ev_class ev)).
  - apply Hks.
  - destruct Hks.
  - destruct Hks as (? & ? & _ & _ & _ & _ & ->). reflexivity.
  - congruence.
Qed.

Lemma trigger_all_replay G H calls : forall e log s' h0,
  Forall (fun c => ec_kind (call_class c) <> KDiscarded) calls ->
  apply_events G log h0 = Ok (Some e) ->
  trigger_all G H calls (Some e, log) = (Ok tt, s') ->
  exists e', s'.1 = Some e' /\ apply_events G s'.2 h0 = Ok (Some e').
Proof.
  induction calls as [|c rest IH]; intros e log s' h0 Hall Hrep Ht.
  - cbn in Ht. inversion Ht; subst s'. exists e. cbn [fst snd]. auto.
  - cbn [trigger_all] in Ht. inversion Hall as [|c_ rest_ Hk Hrest]; subst c_ rest_.
    destruct (trigger_event G H (call_now c) (call_class c) (call_kwargs c) (Some e, log))
      as [[[]|x] s1] eqn:Hstep; [|discriminate].
    apply trigger_event_inv in Hstep
      as [(x & h' & ? & _)
         |(e_ & i & kw0 & kw' & ev & r0 & h' & _ & He & _ & _ & _ & _ & Hne & Hm & ->)];
      [discriminate|].
    inversion He; subst e_.
    apply new_event_dict in Hne as (Hcls & _). rewrite <- Hcls in Hk.
    destruct (mutate_returns_object G ev e r0 h' Hk Hm) as (-> & e1 & ->).
    assert (Hrep1 : apply_events G (log ++ [ev]) h0 = Ok (Some e1)).
    { rewrite apply_events_app, Hrep. cbn [apply_events]. rewrite Hm. reflexivity. }
    exact (IH e1 _ s' h0 Hrest Hrep1 Ht).
Qed.

(** C2 does not hold for a history that ends with a Discarded event: the
    [__mutate__] of that event returns [None], so replaying the events of
    a created, changed and discarded VersionedEntity ends with no object,
    while the entity the calls acted on is there, flagged as discarded. *)
Lemma replay_of_discarded_history_is_none :
  ~ (forall calls e0 log0 s',
       create sample_genesis sample_hash (VUuid 7) (VInt 1000) VersionedEntity VNone
         None ∅ [] = (Ok e0, log0) ->
       trigger_all sample_genesis sample_hash calls (Some e0, log0) = (Ok tt, s') ->
       exists e e',
         s'.1 = Some e /\
         replay sample_genesis s'.2 = Ok (Some e') /\
         entity_eq e' e = true).
Proof.
  intros Hc.
  destruct (Hc sample_versioned_calls (sample_new VersionedEntity)
              (sample_created VersionedEntity).2
              (trigger_all sample_genesis sample_hash sample_versioned_calls
                 (Some (sample_new VersionedEntity),
                  (sample_created VersionedEntity).2)).2)
    as (e & e' & _ & Hr & _).
  - vm_compute. reflexivity.
  - vm_compute. reflexivity.
  - vm_compute in Hr. discriminate Hr.
Qed.

(** C2, as the code has it: for an entity made by a successful
    [__create__] and then changed by successful [__trigger_event__] calls
    none of which triggers a Discarded event, the published events are
    the Created event followed by one event per call, and replaying them
    with no live target (the Created event applied to [None], every later
    event to the object the one before it returned) ends with an object
    equal, under [__eq__], to the entity as the calls left it. *)
Theorem replay_converges G H fresh now cls oid evc kw calls e0 log0 s' :
  create G H fresh now cls oid evc kw [] = (Ok e0, log0) ->
  Forall (fun c => ec_kind (call_class c) <> KDiscarded) calls ->
  trigger_all G H calls (Some e0, log0) = (Ok tt, s') ->
  exists e e',
    s'.1 = Some e /\
    length s'.2 = S (length calls) /\
    replay G s'.2 = Ok (Some e') /\
    entity_eq e' e = true.
Proof.
  intros Hc Hall Ht.
  apply create_ok in Hc as (ev & -> & Hm & _).
  assert (Hrep : apply_events G ([] ++ [ev]) None = Ok (Some e0)).
  { cbn [app apply_events]. rewrite Hm. reflexivity. }
  destruct (trigger_all_replay G H calls e0 _ s' None Hall Hrep Ht) as (e & He & Hr).
  exists e, e. split; [assumption|].
  split; [rewrite (trigger_all_length _ _ _ _ _ Ht); reflexivity|].
  split; [exact Hr|apply entity_eq_refl].
Qed.

Lemma replay_converges_witness :
  let s' := (trigger_all sample_genesis sample_hash sample_calls
               (Some (sample_new VersionedEntity), (sample_created VersionedEntity).2)).2 in
  exists e e',
    s'.1 = Some e /\
    length s'.2 = 3%nat /\
    replay sample_genesis s'.2 = Ok (Some e') /\
    entity_eq e' e = true.
Proof.
  intros s'.
  apply (replay_converges sample_genesis sample_hash (VUuid 7) (VInt 1000)
           VersionedEntity VNone None ∅ sample_calls (sample_new VersionedEntity)
           (sample_created VersionedEntity).2 s').
  - vm_compute. reflexivity.
  - repeat constructor; discriminate.
  - vm_compute. reflexivity.
Defined.

(** * Further properties of the module *)

(** ** What an application may write *)

Lemma frames_readonly {A} P (m : M A) : readonly m -> frames P m.
Proof. intros Hm e r h' Heq. apply Hm in Heq as ->. eauto. Qed.

Lemma frames_bind {A B} P (m : M A) (f : A -> M B) :
  frames P m -> (forall a, frames P (f a)) -> frames P (bind m f).
Proof.
  intros Hm Hf e r h' Heq.
  apply bind_inv in Heq as [(a & h1 & Ha & Heq) | (x & Ha & _)].
  - apply Hm in Ha as (e1 & -> & Hc1 & Hk1).
    apply Hf in Heq as (e2 & -> & Hc2 & Hk2).
    exists e2. split; [reflexivity|]. split; [congruence|].
    intros k Hk. rewrite Hk2, Hk1 by assumption. reflexivity.
  - eapply Hm. eassumption.
Qed.

Lemma frames_set_field (P : string -> Prop) name v :
  P name -> frames P (set_field name v).
Proof.
  intros Hp e r h' Heq. inversion Heq; subst. eexists. split; [reflexivity|].
  split; [reflexivity|]. intros k Hk. apply field_upd_ne. intros ->. contradiction.
Qed.

Lemma frames_py_setattr (P : string -> Prop) name v :
  P name -> frames P (py_setattr name v).
Proof.
  intros Hp e r h'. unfold py_setattr.
  destruct (is_property (e_class e) name).
  - intros Heq. inversion Heq; subst. eauto.
  - apply frames_set_field, Hp.
Qed.

Lemma frames_ret {A} P (a : A) : frames P (ret a).
Proof. apply frames_readonly, readonly_ret. Qed.

Lemma frames_raise {A} P x : frames P (@raise A x).
Proof. apply frames_readonly, readonly_raise. Qed.

Lemma frames_lift {A} P (x : Result A) : frames P (lift x).
Proof. apply frames_readonly, readonly_lift. Qed.

Lemma frames_on_ref P r m : frames P m -> frames P (on_ref r m).
Proof. destruct r; [intros _; apply frames_raise|auto]. Qed.

Lemma frames_when_ref P r m : frames P m -> frames P (when_ref r m).
Proof. destruct r; [intros _; apply frames_ret|auto]. Qed.

Lemma frames_DomainEvent_mutate P ev : frames P (DomainEvent_mutate ev).
Proof.
  intros e r h' Heq. apply DomainEvent_mutate_inv in Heq as [-> _]. eauto.
Qed.

Lemma frames_Created_mutate G P ev cls : frames P (DomainEntity_Created_mutate G ev cls).
Proof.
  intros e r h' Heq. apply Created_mutate_on_instance in Heq as [-> _]. eauto.
Qed.

Lemma frames_AttributeChanged P ev super :
  frames P super ->
  (forall k, ev_dict ev !! "name" = Some (VStr k) -> P k) ->
  frames P (DomainEntity_AttributeChanged_mutate ev super).
Proof.
  intros Hs Hp. unfold DomainEntity_AttributeChanged_mutate.
  apply frames_bind; [exact Hs|]. intros obj.
  intros e r h' Heq.
  apply bind_inv in Heq as [(name & h1 & Hn & Heq) | (x & Hn & _)];
    apply lift_inv in Hn as [Hn ->]; [|eauto].
  revert Heq. generalize e r h'. change (frames P
    (do value <- lift (ev_get ev "value");
     run on_ref obj (match name with
                     | VStr s => py_setattr s value
                     | _ => raise TypeError
                     end);
     ret obj)).
  apply frames_bind; [apply frames_lift|]. intros value.
  apply frames_bind; [|intros _; apply frames_ret].
  apply frames_on_ref.
  destruct name; try apply frames_raise.
  apply frames_py_setattr, Hp. symmetry in Hn. apply ev_get_ok in Hn. exact Hn.
Qed.

Lemma frames_Discarded (P : string -> Prop) ev super :
  frames P super -> P "__is_discarded__" ->
  frames P (DomainEntity_Discarded_mutate ev super).
Proof.
  intros Hs Hp. unfold DomainEntity_Discarded_mutate.
  apply frames_bind; [exact Hs|]. intros obj.
  apply frames_bind; [|intros _; apply frames_ret].
  apply frames_on_ref, frames_set_field, Hp.
Qed.

Lemma frames_stamp_layer (P : string -> Prop) ev key name super :
  frames P super -> P name ->
  frames P (do obj <- super;
            run when_ref obj (do v <- lift (ev_get ev key); set_field name v);
            ret obj).
Proof.
  intros Hs Hp. apply frames_bind; [exact Hs|]. intros obj.
  apply frames_bind; [|intros _; apply frames_ret].
  apply frames_when_ref, frames_bind; [apply frames_lift|].
  intros v. apply frames_set_field, Hp.
Qed.

Lemma frames_Timestamped (P : string -> Prop) ev super :
  frames P super -> P "___last_modified__" ->
  frames P (TimestampedEntity_Event_mutate ev super).
Proof.
  intros Hs Hp. unfold TimestampedEntity_Event_mutate.
  apply frames_bind; [exact Hs|]. intros obj.
  apply frames_bind; [|intros _; apply frames_ret].
  apply frames_when_ref. intros e r h'.
  destruct (is_TimestampedEntity (e_class e)).
  - apply frames_bind; [apply frames_lift|]. intros t. apply frames_set_field, Hp.
  - intros Heq. inversion Heq; subst. eauto.
Qed.

Lemma frames_Hashchain_Discarded (P : string -> Prop) ev super :
  frames P super -> P "__head__" ->
  frames P (EntityWithHashchain_Discarded_mutate ev super).
Proof.
  intros Hs Hp. unfold EntityWithHashchain_Discarded_mutate.
  apply frames_bind; [apply frames_lift|]. intros hash.
  apply frames_bind; [apply frames_set_field, Hp|]. intros _. exact Hs.
Qed.

Lemma frames_kind_mutate G ev cls :
  frames (touched ev) (kind_mutate G ev cls).
Proof.
  unfold kind_mutate.
  destruct (ec_kind (ev_class ev)) eqn:Hk.
  - apply frames_DomainEvent_mutate.
  - apply frames_Created_mutate.
  - apply frames_AttributeChanged; [apply frames_DomainEvent_mutate|].
    intros k Hn. left. auto.
  - apply frames_Discarded; [apply frames_DomainEvent_mutate|].
    right. left. auto.
Qed.

Lemma frames_mutate G ev : frames (touched ev) (mutate G ev).
Proof.
  unfold mutate, mutate_on.
  pose proof (frames_kind_mutate G ev None) as Hkm.
  destruct (ec_owner (ev_class ev)) eqn:Ho, (ec_kind (ev_class ev)) eqn:Hk;
    try exact Hkm.
  all: repeat first
    [ exact Hkm
    | apply frames_Hashchain_Discarded
    | apply frames_Timestamped
    | apply frames_stamp_layer ].
  all: unfold touched; rewrite Ho; cbn [has_hash has_version has_timestamp]; auto 10.
Qed.

(** X1: applying an event to an instance, unless it is an
    AttributeChanged event that names [__class__], [__dict__] or
    [__weakref__], keeps the object and its class, whether the call
    returns or raises, and assigns no attribute other than the ones the
    event's class writes: the attribute an AttributeChanged names,
    [__is_discarded__] for Discarded, and [__head__], [___version__],
    [___last_modified__] for the hash-chain, version and timestamp
    layers. *)
Theorem mutate_writes_only_its_fields G ev e r h' :
  (forall s, ec_kind (ev_class ev) = KAttributeChanged ->
             ev_dict ev !! "name" = Some (VStr s) -> special_name s = false) ->
  mutate G ev (Some e) = (r, h') ->
  exists e', h' = Some e' /\ e_class e' = e_class e /\
             forall k, ~ touched ev k -> field e' k = field e k.
Proof. intros _. apply frames_mutate. Qed.

Lemma mutate_writes_only_its_fields_witness :
  exists e', (mutate sample_genesis (sample_chain_event KAttributeChanged "H1")
                (Some sample_chained)).2 = Some e' /\
             e_class e' = EntityWithHashchain /\
             field e' "_id" = Some (VUuid 7).
Proof.
  destruct (mutate_writes_only_its_fields sample_genesis
              (sample_chain_event KAttributeChanged "H1") sample_chained
              (mutate sample_genesis (sample_chain_event KAttributeChanged "H1")
                 (Some sample_chained)).1
              (mutate sample_genesis (sample_chain_event KAttributeChanged "H1")
                 (Some sample_chained)).2)
    as (e' & He & Hc & Hk).
  - intros s _ Hs. vm_compute in Hs. inversion Hs. vm_compute. reflexivity.
  - vm_compute. reflexivity.
  - exists e'. split; [exact He|]. split; [exact Hc|].
    rewrite Hk; [reflexivity|].
    unfold touched. vm_compute. intros [[_ ?]|[[? _]|[[_ ?]|[[? _]|[? _]]]]]; discriminate.
Defined.

(** ** Building a successful application *)

Lemma DomainEvent_mutate_ok ev e :
  check_obj ev (Some e) = (Ok tt, Some e) ->
  DomainEvent_mutate ev (Some e) = (Ok RObj, Some e).
Proof. intros Hc. unfold DomainEvent_mutate. rewrite (bind_ok _ _ _ _ _ Hc). reflexivity. Qed.

Lemma ev_get_some ev key v : ev_dict ev !! key = Some v -> ev_get ev key = Ok v.
Proof. unfold ev_get. intros ->. reflexivity. Qed.

Lemma AttributeChanged_mutate_intro ev super e0 e1 s v :
  super (Some e0) = (Ok RObj, Some e1) ->
  ev_dict ev !! "name" = Some (VStr s) -> ev_dict ev !! "value" = Some v ->
  is_property (e_class e1) s = false ->
  DomainEntity_AttributeChanged_mutate ev super (Some e0)
  = (Ok RObj, Some (upd e1 s v)).
Proof.
  intros Hs Hn Hv Hp. unfold DomainEntity_AttributeChanged_mutate.
  rewrite (bind_ok _ _ _ _ _ Hs).
  unfold bind, lift. rewrite (ev_get_some _ _ _ Hn), (ev_get_some _ _ _ Hv).
  unfold on_ref, py_setattr. rewrite Hp. reflexivity.
Qed.

Lemma Discarded_mutate_intro ev super e0 e1 :
  super (Some e0) = (Ok RObj, Some e1) ->
  DomainEntity_Discarded_mutate ev super (Some e0)
  = (Ok RNone, Some (upd e1 "__is_discarded__" (VBool true))).
Proof.
  intros Hs. unfold DomainEntity_Discarded_mutate.
  rewrite (bind_ok _ _ _ _ _ Hs). reflexivity.
Qed.

Lemma stamp_layer_intro (super : M Ref) ev key name h e1 v :
  super h = (Ok RObj, Some e1) -> ev_dict ev !! key = Some v ->
  (do obj <- super;
   run when_ref obj (do x <- lift (ev_get ev key); set_field name x);
   ret obj) h = (Ok RObj, Some (upd e1 name v)).
Proof.
  intros Hs Hv. rewrite (bind_ok _ _ _ _ _ Hs).
  unfold when_ref, bind, lift. rewrite (ev_get_some _ _ _ Hv). reflexivity.
Qed.

Lemma stamp_layer_none (super : M Ref) ev key name h h1 :
  super h = (Ok RNone, h1) ->
  (do obj <- super;
   run when_ref obj (do x <- lift (ev_get ev key); set_field name x);
   ret obj) h = (Ok RNone, h1).
Proof. intros Hs. rewrite (bind_ok _ _ _ _ _ Hs). reflexivity. Qed.

Lemma Timestamped_layer_intro super ev h e1 t :
  super h = (Ok RObj, Some e1) -> ev_dict ev !! "timestamp" = Some t ->
  is_TimestampedEntity (e_class e1) = true ->
  TimestampedEntity_Event_mutate ev super h
  = (Ok RObj, Some (upd e1 "___last_modified__" t)).
Proof.
  intros Hs Hv Hc. unfold TimestampedEntity_Event_mutate.
  rewrite (bind_ok _ _ _ _ _ Hs).
  unfold when_ref, bind, lift. rewrite Hc, (ev_get_some _ _ _ Hv). reflexivity.
Qed.

Lemma Timestamped_layer_none super ev h h1 :
  super h = (Ok RNone, h1) ->
  TimestampedEntity_Event_mutate ev super h = (Ok RNone, h1).
Proof.
  intros Hs. unfold TimestampedEntity_Event_mutate.
  rewrite (bind_ok _ _ _ _ _ Hs). reflexivity.
Qed.

Lemma Hashchain_Discarded_intro ev super e hash r h' :
  ev_dict ev !! "__event_hash__" = Some hash ->
  super (Some (upd e "__head__" hash)) = (r, h') ->
  EntityWithHashchain_Discarded_mutate ev super (Some e) = (r, h').
Proof.
  intros Hv Hs. unfold EntityWithHashchain_Discarded_mutate.
  unfold bind at 1. unfold lift. rewrite (ev_get_some _ _ _ Hv).
  unfold bind, set_field. exact Hs.
Qed.

Lemma kind_mutate_intro G ev cls e0 e1 r :
  check_obj ev (Some e0) = (Ok tt, Some e0) ->
  kind_step ev e0 e1 r ->
  kind_mutate G ev cls (Some e0) = (Ok r, Some e1).
Proof.
  intros Hc Hks. apply DomainEvent_mutate_ok in Hc.
  unfold kind_mutate, kind_step in *.
  destruct (ec_kind (ev_class ev)).
  - destruct Hks as [-> ->]. exact Hc.
  - contradiction.
  - destruct Hks as (s & v & Hn & Hv & Hp & -> & ->).
    apply AttributeChanged_mutate_intro; assumption.
  - destruct Hks as [-> ->]. apply Discarded_mutate_intro. exact Hc.
Qed.

(** The converse of [mutate_ok_inv]. *)
Lemma mutate_ok_intro G ev e e0 e1 e2 r :
  pre_step ev e e0 ->
  check_obj ev (Some e0) = (Ok tt, Some e0) ->
  kind_step ev e0 e1 r -> ext_step ev r e1 e2 ->
  mutate G ev (Some e) = (Ok r, Some e2).
Proof.
  intros Hpre Hc Hks Hext.
  pose proof (kind_mutate_intro G ev None e0 e1 r Hc Hks) as Hkm.
  pose proof Hks as Hks'.
  unfold mutate, mutate_on, pre_step, ext_step, kind_step in *.
  destruct (ec_owner (ev_class ev)) eqn:Ho, (ec_kind (ev_class ev)) eqn:Hk;
    try contradiction; split_all; subst; split_all; subst;
    try exact Hkm.
  all: try (eapply Hashchain_Discarded_intro; [eassumption|]).
  all: first
    [ apply stamp_layer_none; exact Hkm
    | apply Timestamped_layer_none; try apply stamp_layer_none; exact Hkm
    | eapply stamp_layer_intro; [exact Hkm|assumption]
    | eapply Timestamped_layer_intro;
        [first [exact Hkm | eapply stamp_layer_intro; [exact Hkm|eassumption]]
        |assumption|assumption] ].
Qed.

(** ** Triggers that go through *)

Lemma get_discarded_live e d :
  field e "__is_discarded__" = Some d -> truthy d = false ->
  assert_not_discarded (Some e) = (Ok tt, Some e).
Proof.
  intros Hf Ht. unfold assert_not_discarded.
  rewrite (bind_ok _ _ _ _ _ (get_field_some _ _ _ Hf)). rewrite Ht. reflexivity.
Qed.

Lemma DomainEntity_trigger_intro G H now cls kw e log d i ev r0 e' :
  field e "__is_discarded__" = Some d -> truthy d = false ->
  field e "_id" = Some i -> kw !! "originator_id" = None ->
  new_event H now cls (<["originator_id" := i]> kw) = Ok ev ->
  mutate G ev (Some e) = (Ok r0, Some e') ->
  DomainEntity_trigger_event G H now cls kw (Some e, log)
  = (Ok tt, (Some e', (log ++ [ev])%list)).
Proof.
  intros Hd Ht Hi Hk Hn Hm. unfold DomainEntity_trigger_event.
  rewrite (tbind_ok _ _ _ _ _ (on_entity_eq _ _ log _ _ (get_discarded_live e d Hd Ht))).
  erewrite tbind_ok.
  2:{ apply on_entity_eq. rewrite (bind_ok _ _ _ _ _ (get_field_some _ _ _ Hi)).
      unfold bind, lift, with_keyword. rewrite Hk. rewrite Hn. reflexivity. }
  erewrite tbind_ok.
  2:{ apply on_entity_eq. unfold DomainEntity_mutate.
      rewrite (bind_ok _ _ _ _ _ Hm). reflexivity. }
  reflexivity.
Qed.

Lemma trigger_event_stamp G H now cls kw e log :
  well_formed e ->
  (is_versioned (e_class e) = true -> kw !! "originator_version" = None) ->
  exists kw0, stamped e kw kw0 /\
    trigger_event G H now cls kw (Some e, log)
    = DomainEntity_trigger_event G H now cls kw0 (Some e, log).
Proof.
  intros (_ & _ & Hh & Hv) Hkw. unfold trigger_event, stamped. cbn [fst].
  assert (Hver : is_versioned (e_class e) = true ->
    exists kw0,
      (exists v next, field e "___version__" = Some v /\ py_succ v = Ok next /\
                      with_keyword "originator_version" next kw = Ok kw0) /\
      VersionedEntity_trigger_event G H now cls kw (Some e, log)
      = DomainEntity_trigger_event G H now cls kw0 (Some e, log)).
  { intros Hiv. destruct (Hv Hiv) as (v & n & Hf & Hn). specialize (Hkw Hiv).
    exists (<["originator_version" := VInt (n + 1)]> kw). split.
    - exists v, (VInt (n + 1)). split; [assumption|]. split; [apply py_succ_int, Hn|].
      unfold with_keyword. rewrite Hkw. reflexivity.
    - unfold VersionedEntity_trigger_event. erewrite tbind_ok; [reflexivity|].
      apply on_entity_eq.
      erewrite bind_ok; [|rewrite (get_version_versioned e Hiv); apply get_field_some, Hf].
      erewrite bind_ok; [|unfold lift; rewrite (py_succ_int v n Hn); reflexivity].
      unfold lift, with_keyword. rewrite Hkw. reflexivity. }
  destruct (e_class e) eqn:Hc; eauto.
  destruct (Hh eq_refl) as [hd Hf]. eexists. split; [eauto|].
  unfold EntityWithHashchain_trigger_event.
  rewrite (tbind_ok _ _ _ _ _ (on_entity_eq _ _ log _ _ (get_field_some _ _ _ Hf))).
  reflexivity.
Qed.

Lemma new_event_total H now cls kw :
  ec_kind cls <> KCreated -> exists ev, new_event H now cls kw = Ok ev.
Proof.
  intros Hk. unfold new_event.
  rewrite (bool_decide_eq_false_2 (ec_kind cls = KCreated)) by assumption.
  cbn [andb]. eauto.
Qed.

Lemma new_event_hash H now cls kw ev :
  new_event H now cls kw = Ok ev -> has_hash (ec_owner cls) = true ->
  exists hash, ev_dict ev !! "__event_hash__" = Some hash.
Proof.
  unfold new_event.
  destruct (bool_decide (ec_kind cls = KCreated)
            && bool_decide (kw !! "originator_topic" = None)); [discriminate|].
  intros Heq Hh. inversion Heq; subst ev; clear Heq. cbn [ev_dict].
  rewrite Hh. eexists. apply lookup_insert_eq.
Qed.

Lemma Hashchain_check_match ev e i o hd :
  field e "_id" = Some i -> ev_dict ev !! "originator_id" = Some o ->
  py_eq i o = true ->
  field e "__head__" = Some hd ->
  py_eq hd (ev_get_or_none ev "__previous_hash__") = true ->
  EntityWithHashchain_Event_check_obj ev (Some e) = (Ok tt, Some e).
Proof.
  intros Hi Ho Hid Hh Heq. unfold EntityWithHashchain_Event_check_obj.
  rewrite (bind_ok _ _ _ _ _ (DomainEntity_check_match ev e i o Hi Ho Hid)).
  rewrite (bind_ok _ _ _ _ _ (get_field_some _ _ _ Hh)). rewrite Heq. reflexivity.
Qed.

Lemma Versioned_check_match ev e i o ov v n :
  is_versioned (e_class e) = true ->
  field e "_id" = Some i -> ev_dict ev !! "originator_id" = Some o ->
  py_eq i o = true ->
  ev_dict ev !! "originator_version" = Some ov ->
  field e "___version__" = Some v -> as_int v = Some n ->
  py_eq ov (VInt (n + 1)) = true ->
  VersionedEntity_Event_check_obj ev (Some e) = (Ok tt, Some e).
Proof.
  intros Hv Hi Ho Hid Hov Hver Hn Heq. unfold VersionedEntity_Event_check_obj.
  rewrite (bind_ok _ _ _ _ _ (DomainEntity_check_match ev e i o Hi Ho Hid)).
  assert (Hgv : get_version (Some e) = (Ok v, Some e)).
  { rewrite (get_version_versioned e Hv). apply get_field_some, Hver. }
  assert (Hl : lift (ev_get ev "originator_version") (Some e) = (Ok ov, Some e)).
  { unfold lift, ev_get. rewrite Hov. reflexivity. }
  rewrite (bind_ok _ _ _ _ _ Hl). rewrite (bind_ok _ _ _ _ _ Hgv).
  erewrite bind_ok; [|unfold lift; rewrite (py_succ_int v n Hn); reflexivity].
  rewrite Heq. reflexivity.
Qed.

Lemma stamped_other e kw kw0 :
  stamped e kw kw0 ->
  forall k, k <> "__previous_hash__" -> k <> "originator_version" ->
            kw0 !! k = kw !! k.
Proof.
  unfold stamped. intros Hst k H1 H2.
  destruct (e_class e); subst; try reflexivity.
  - destruct Hst as (hd & _ & ->). apply lookup_insert_ne. congruence.
  - destruct Hst as (v & next & _ & _ & Hw). apply with_keyword_ok in Hw as [_ ->].
    apply lookup_insert_ne. congruence.
  - destruct Hst as (v & next & _ & _ & Hw). apply with_keyword_ok in Hw as [_ ->].
    apply lookup_insert_ne. congruence.
  - destruct Hst as (v & next & _ & _ & Hw). apply with_keyword_ok in Hw as [_ ->].
    apply lookup_insert_ne. congruence.
Qed.

(** An event the entity's own trigger has stamped passes the check of the
    entity's event classes. *)
Lemma own_event_passes_check H now cls e kw kw0 i ev :
  field e "_id" = Some i -> stamped e kw kw0 ->
  (is_versioned (e_class e) = true -> exists v n, field e "___version__" = Some v /\
                                                  as_int v = Some n) ->
  new_event H now cls (<["originator_id" := i]> kw0) = Ok ev ->
  ec_owner cls = events_owner (e_class e) ->
  check_obj ev (Some e) = (Ok tt, Some e).
Proof.
  intros Hi Hst Hv Hne Ho.
  apply new_event_dict in Hne as (Hcls & Hother & Hov & _).
  assert (Hid : ev_dict ev !! "originator_id" = Some i).
  { rewrite Hother by done. apply lookup_insert_eq. }
  pose proof (DomainEntity_check_match ev e i i Hi Hid (py_eq_refl i)) as Hbase.
  unfold check_obj. rewrite Hcls, Ho. unfold stamped in Hst.
  destruct (e_class e) eqn:Hc; cbn [events_owner]; try exact Hbase.
  - destruct Hst as (hd & Hh & ->).
    eapply Hashchain_check_match; try eassumption; [apply py_eq_refl|].
    unfold ev_get_or_none. rewrite Hother by done.
    rewrite lookup_insert_ne by done. rewrite lookup_insert_eq. apply py_eq_refl.
  - destruct Hst as (v & next & Hf & Hs & Hw). apply with_keyword_ok in Hw as [_ ->].
    destruct (Hv eq_refl) as (v' & n & Hf' & Hn). rewrite Hf in Hf'. inversion Hf'; subst v'.
    rewrite (py_succ_int v n Hn) in Hs. inversion Hs; subst next.
    eapply (Versioned_check_match ev e i i (VInt (n + 1)) v n);
      try eassumption; try apply py_eq_refl; [rewrite Hc; reflexivity|].
    apply Hov. rewrite lookup_insert_ne by done. apply lookup_insert_eq.
  - destruct Hst as (v & next & Hf & Hs & Hw). apply with_keyword_ok in Hw as [_ ->].
    destruct (Hv eq_refl) as (v' & n & Hf' & Hn). rewrite Hf in Hf'. inversion Hf'; subst v'.
    rewrite (py_succ_int v n Hn) in Hs. inversion Hs; subst next.
    eapply (Versioned_check_match ev e i i (VInt (n + 1)) v n);
      try eassumption; try apply py_eq_refl; [rewrite Hc; reflexivity|].
    apply Hov. rewrite lookup_insert_ne by done. apply lookup_insert_eq.
  - destruct Hst as (v & next & Hf & Hs & Hw). apply with_keyword_ok in Hw as [_ ->].
    destruct (Hv eq_refl) as (v' & n & Hf' & Hn). rewrite Hf in Hf'. inversion Hf'; subst v'.
    rewrite (py_succ_int v n Hn) in Hs. inversion Hs; subst next.
    eapply (Versioned_check_match ev e i i (VInt (n + 1)) v n);
      try eassumption; try apply py_eq_refl; [rewrite Hc; reflexivity|].
    apply Hov. rewrite lookup_insert_ne by done. apply lookup_insert_eq.
Qed.

Lemma layer_field_false name :
  layer_field name = false ->
  name <> "__head__" /\ name <> "___version__" /\ name <> "___last_modified__".
Proof.
  unfold layer_field. intros Hl.
  apply orb_false_iff in Hl as [Hl H3]. apply orb_false_iff in Hl as [H1 H2].
  apply bool_decide_eq_false_1 in H1, H2, H3. auto.
Qed.

(** The extension layers of the entity's own event class have what they
    need on an event its trigger has built. *)
Lemma own_event_ext_step H now cls e kw kw0 i ev e1 :
  stamped e kw kw0 ->
  new_event H now cls (<["originator_id" := i]> kw0) = Ok ev ->
  ec_owner cls = events_owner (e_class e) -> e_class e1 = e_class e ->
  exists e2, ext_step ev RObj e1 e2 /\
             forall k, layer_field k = false -> field e2 k = field e1 k.
Proof.
  intros Hst Hne Ho Hc1.
  pose proof (new_event_hash H now cls _ ev Hne) as Hhash.
  apply new_event_dict in Hne as (Hcls & Hother & Hov & _ & Hts).
  unfold ext_step. rewrite Hcls, Ho in *. unfold stamped in Hst.
  destruct (e_class e) eqn:Hc; cbn [events_owner has_hash has_timestamp] in *.
  - exists e1. auto.
  - destruct (Hhash eq_refl) as [hash Hh]. eexists. split; [eauto|].
    intros k Hk. apply layer_field_false in Hk as (? & ? & ?).
    apply field_upd_ne. congruence.
  - destruct Hst as (v & next & _ & _ & Hw). apply with_keyword_ok in Hw as [_ ->].
    eexists. split.
    + eexists. split; [|reflexivity]. apply Hov.
      rewrite lookup_insert_ne by done. apply lookup_insert_eq.
    + intros k Hk. apply layer_field_false in Hk as (? & ? & ?).
      apply field_upd_ne. congruence.
  - destruct (Hts eq_refl) as [t Ht]. eexists. split.
    + exists t. split; [exact Ht|]. split; [rewrite Hc1; reflexivity|reflexivity].
    + intros k Hk. apply layer_field_false in Hk as (? & ? & ?).
      apply field_upd_ne. congruence.
  - exists e1. auto.
  - destruct Hst as (v & next & _ & _ & Hw). apply with_keyword_ok in Hw as [_ ->].
    destruct (Hts eq_refl) as [t Ht]. eexists. split.
    + eexists _, t. split; [apply Hov; rewrite lookup_insert_ne by done;
                            apply lookup_insert_eq|].
      split; [exact Ht|]. split; [rewrite Hc1; reflexivity|reflexivity].
    + intros k Hk. apply layer_field_false in Hk as (? & ? & ?).
      rewrite !field_upd_ne by congruence. reflexivity.
  - destruct Hst as (v & next & _ & _ & Hw). apply with_keyword_ok in Hw as [_ ->].
    eexists. split.
    + eexists. split; [|reflexivity]. apply Hov.
      rewrite lookup_insert_ne by done. apply lookup_insert_eq.
    + intros k Hk. apply layer_field_false in Hk as (? & ? & ?).
      apply field_upd_ne. congruence.
Qed.

(** X2: on a live entity with the attributes of its class, none of
    which hides a method that the call looks up on the instance,
    [__change_attribute__] with a name that is neither a read-only
    property, nor a field of an extension layer, nor the name of such a
    method, nor one of [__class__], [__dict__] and [__weakref__], returns,
    publishes one AttributeChanged event of the entity's class carrying
    the name and the value, and leaves the attribute set to the value. *)
Theorem change_attribute_sets_attribute G H now name value e log :
  well_formed e -> hides_method e = false ->
  special_name name = false -> method_name name = false ->
  is_property (e_class e) name = false -> layer_field name = false ->
  exists e' ev,
    change_attribute G H now name value (Some e, log)
    = (Ok tt, (Some e', (log ++ [ev])%list)) /\
    ev_class ev = event_class_of (e_class e) KAttributeChanged /\
    ev_dict ev !! "name" = Some (VStr name) /\
    ev_dict ev !! "value" = Some value /\
    e_class e' = e_class e /\
    field e' name = Some value.
Proof.
  intros Hwf _ _ _ Hp Hl. pose proof Hwf as ([i Hi] & (d & Hd & Ht) & _ & Hv).
  unfold change_attribute. cbn [fst].
  set (kw := <["value" := value]> (<["name" := VStr name]> (∅ : gmap string Val))).
  set (cls := event_class_of (e_class e) KAttributeChanged).
  destruct (trigger_event_stamp G H now cls kw e log Hwf) as (kw0 & Hst & ->).
  { intros _. unfold kw. rewrite !lookup_insert_ne by done. apply lookup_empty. }
  pose proof (stamped_other e kw kw0 Hst) as Hsame.
  assert (Hoid : kw0 !! "originator_id" = None).
  { rewrite Hsame by done. unfold kw. rewrite !lookup_insert_ne by done.
    apply lookup_empty. }
  destruct (new_event_total H now cls (<["originator_id" := i]> kw0)) as [ev Hne];
    [discriminate|].
  pose proof (own_event_passes_check H now cls e kw kw0 i ev Hi Hst Hv Hne eq_refl) as Hc.
  destruct (own_event_ext_step H now cls e kw kw0 i ev (upd e name value) Hst Hne
              eq_refl eq_refl) as (e2 & Hext & Hkeep).
  pose proof Hne as Hne'.
  apply new_event_dict in Hne' as (Hcls & Hother & _).
  assert (Hname : ev_dict ev !! "name" = Some (VStr name)).
  { rewrite Hother by done. rewrite lookup_insert_ne by done. rewrite Hsame by done.
    unfold kw. rewrite lookup_insert_ne by done. apply lookup_insert_eq. }
  assert (Hvalue : ev_dict ev !! "value" = Some value).
  { rewrite Hother by done. rewrite lookup_insert_ne by done. rewrite Hsame by done.
    unfold kw. apply lookup_insert_eq. }
  assert (Hm : mutate G ev (Some e) = (Ok RObj, Some e2)).
  { apply (mutate_ok_intro G ev e e (upd e name value) e2 RObj).
    - unfold pre_step. rewrite Hcls. unfold cls, event_class_of. cbn [ec_kind ec_owner].
      destruct (events_owner (e_class e)); reflexivity.
    - exact Hc.
    - unfold kind_step. rewrite Hcls. unfold cls, event_class_of. cbn [ec_kind].
      exists name, value. auto 10.
    - exact Hext. }
  exists e2, ev.
  split; [eapply DomainEntity_trigger_intro; eassumption|].
  split; [exact Hcls|]. split; [exact Hname|]. split; [exact Hvalue|].
  split.
  - apply frames_mutate in Hm as (e' & He' & Hc' & _).
    inversion He'. subst e'. exact Hc'.
  - rewrite Hkeep by assumption. apply field_upd_eq.
Qed.

Lemma change_attribute_sets_attribute_witness :
  exists e' ev,
    change_attribute sample_genesis sample_hash (VInt 5) "foo" (VInt 1)
      (Some sample_chained, [])
    = (Ok tt, (Some e', ([] ++ [ev])%list)) /\
    ev_class ev = event_class_of EntityWithHashchain KAttributeChanged /\
    ev_dict ev !! "name" = Some (VStr "foo") /\
    ev_dict ev !! "value" = Some (VInt 1) /\
    e_class e' = EntityWithHashchain /\
    field e' "foo" = Some (VInt 1).
Proof.
  apply (change_attribute_sets_attribute sample_genesis sample_hash (VInt 5) "foo"
           (VInt 1) sample_chained []).
  - repeat split.
    + exists (VUuid 7). vm_compute. reflexivity.
    + exists (VBool false). split; vm_compute; reflexivity.
    + intros _. exists (VStr "H1"). vm_compute. reflexivity.
    + intros Hv. vm_compute in Hv. discriminate Hv.
  - vm_compute. reflexivity.
  - vm_compute. reflexivity.
  - vm_compute. reflexivity.
  - vm_compute. reflexivity.
  - vm_compute. reflexivity.
Defined.

Lemma DomainEntity_trigger_raises G H now cls kw e log d i ev x e' :
  field e "__is_discarded__" = Some d -> truthy d = false ->
  field e "_id" = Some i -> kw !! "originator_id" = None ->
  new_event H now cls (<["originator_id" := i]> kw) = Ok ev ->
  mutate G ev (Some e) = (Raise x, Some e') ->
  DomainEntity_trigger_event G H now cls kw (Some e, log)
  = (Raise x, (Some e', log)).
Proof.
  intros Hd Ht Hi Hk Hn Hm. unfold DomainEntity_trigger_event.
  rewrite (tbind_ok _ _ _ _ _ (on_entity_eq _ _ log _ _ (get_discarded_live e d Hd Ht))).
  erewrite tbind_ok.
  2:{ apply on_entity_eq. rewrite (bind_ok _ _ _ _ _ (get_field_some _ _ _ Hi)).
      unfold bind, lift, with_keyword. rewrite Hk. rewrite Hn. reflexivity. }
  apply tbind_raise, on_entity_eq. unfold DomainEntity_mutate.
  apply bind_raise. exact Hm.
Qed.

Lemma AttributeChanged_mutate_property G ev e s v :
  ec_kind (ev_class ev) = KAttributeChanged ->
  check_obj ev (Some e) = (Ok tt, Some e) ->
  ev_dict ev !! "name" = Some (VStr s) -> ev_dict ev !! "value" = Some v ->
  is_property (e_class e) s = true ->
  mutate G ev (Some e) = (Raise AttributeError, Some e).
Proof.
  intros Hk Hc Hn Hv Hp. apply DomainEvent_mutate_ok in Hc.
  assert (Hac : DomainEntity_AttributeChanged_mutate ev (DomainEvent_mutate ev) (Some e)
                = (Raise AttributeError, Some e)).
  { unfold DomainEntity_AttributeChanged_mutate. rewrite (bind_ok _ _ _ _ _ Hc).
    unfold bind, lift. rewrite (ev_get_some _ _ _ Hn), (ev_get_some _ _ _ Hv).
    unfold on_ref, py_setattr. rewrite Hp. reflexivity. }
  unfold mutate, mutate_on, kind_mutate. rewrite Hk.
  destruct (ec_owner (ev_class ev));
    unfold TimestampedEntity_Event_mutate, VersionedEntity_Event_mutate,
      EntityWithHashchain_Event_mutate;
    repeat (first [exact Hac | apply bind_raise]).
Qed.

(** X3: [__change_attribute__] with the name of a read-only property of
    the class ([id], and [__version__], [__created_on__],
    [__last_modified__] where defined) raises AttributeError from
    [setattr]; the entity is unchanged and nothing is published. *)
Theorem change_attribute_rejects_property G H now name value e log :
  well_formed e -> is_property (e_class e) name = true ->
  change_attribute G H now name value (Some e, log)
  = (Raise AttributeError, (Some e, log)).
Proof.
  intros Hwf Hp. pose proof Hwf as ([i Hi] & (d & Hd & Ht) & _ & Hv).
  unfold change_attribute. cbn [fst].
  set (kw := <["value" := value]> (<["name" := VStr name]> (∅ : gmap string Val))).
  set (cls := event_class_of (e_class e) KAttributeChanged).
  destruct (trigger_event_stamp G H now cls kw e log Hwf) as (kw0 & Hst & ->).
  { intros _. unfold kw. rewrite !lookup_insert_ne by done. apply lookup_empty. }
  pose proof (stamped_other e kw kw0 Hst) as Hsame.
  assert (Hoid : kw0 !! "originator_id" = None).
  { rewrite Hsame by done. unfold kw. rewrite !lookup_insert_ne by done.
    apply lookup_empty. }
  destruct (new_event_total H now cls (<["originator_id" := i]> kw0)) as [ev Hne];
    [discriminate|].
  pose proof (own_event_passes_check H now cls e kw kw0 i ev Hi Hst Hv Hne eq_refl) as Hc.
  pose proof Hne as Hne'.
  apply new_event_dict in Hne' as (Hcls & Hother & _).
  eapply DomainEntity_trigger_raises; try eassumption.
  eapply (AttributeChanged_mutate_property G ev e name value); try assumption.
  - rewrite Hcls. reflexivity.
  - rewrite Hother by done. rewrite lookup_insert_ne by done. rewrite Hsame by done.
    unfold kw. rewrite lookup_insert_ne by done. apply lookup_insert_eq.
  - rewrite Hother by done. rewrite lookup_insert_ne by done. rewrite Hsame by done.
    unfold kw. apply lookup_insert_eq.
Qed.

Lemma change_attribute_rejects_property_witness :
  change_attribute sample_genesis sample_hash (VInt 5) "__version__" (VInt 9)
    (Some (sample_versioned 3), [])
  = (Raise AttributeError, (Some (sample_versioned 3), [])).
Proof.
  apply (change_attribute_rejects_property sample_genesis sample_hash (VInt 5)
           "__version__" (VInt 9) (sample_versioned 3) []).
  - repeat split.
    + exists (VUuid 7). vm_compute. reflexivity.
    + exists (VBool false). split; vm_compute; reflexivity.
    + intros Hc. vm_compute in Hc. discriminate Hc.
    + intros _. exists (VInt 3), 3. split; vm_compute; reflexivity.
  - vm_compute. reflexivity.
Defined.

(** ** Discarding through the entity *)

(** X4: on a live entity of any class but EntityWithHashchain,
    [__discard__] returns; the entity is as before except that
    [__is_discarded__] is True (version and timestamps stay), and one
    Discarded event of the entity's class is published. *)
Theorem discard_marks_entity G H now e log :
  well_formed e -> e_class e <> EntityWithHashchain ->
  exists ev,
    discard G H now (Some e, log)
    = (Ok tt, (Some (upd e "__is_discarded__" (VBool true)), (log ++ [ev])%list)) /\
    ev_class ev = event_class_of (e_class e) KDiscarded.
Proof.
  intros Hwf Hnh. pose proof Hwf as ([i Hi] & (d & Hd & Ht) & _ & Hv).
  unfold discard. cbn [fst].
  set (cls := event_class_of (e_class e) KDiscarded).
  destruct (trigger_event_stamp G H now cls ∅ e log Hwf) as (kw0 & Hst & ->).
  { intros _. apply lookup_empty. }
  pose proof (stamped_other e ∅ kw0 Hst) as Hsame.
  assert (Hoid : kw0 !! "originator_id" = None).
  { rewrite Hsame by done. apply lookup_empty. }
  destruct (new_event_total H now cls (<["originator_id" := i]> kw0)) as [ev Hne];
    [discriminate|].
  pose proof (own_event_passes_check H now cls e ∅ kw0 i ev Hi Hst Hv Hne eq_refl) as Hc.
  pose proof Hne as Hne'.
  apply new_event_dict in Hne' as (Hcls & _).
  exists ev. split; [|exact Hcls].
  eapply DomainEntity_trigger_intro; try eassumption.
  apply (mutate_ok_intro G ev e e (upd e "__is_discarded__" (VBool true))
           (upd e "__is_discarded__" (VBool true)) RNone).
  - unfold pre_step. rewrite Hcls. unfold cls, event_class_of. cbn [ec_kind ec_owner].
    destruct (e_class e); try reflexivity. contradiction.
  - exact Hc.
  - unfold kind_step. rewrite Hcls. cbn. auto.
  - reflexivity.
Qed.

Lemma discard_marks_entity_witness :
  exists ev,
    discard sample_genesis sample_hash (VInt 5) (Some (sample_versioned 3), [])
    = (Ok tt, (Some (upd (sample_versioned 3) "__is_discarded__" (VBool true)),
               ([] ++ [ev])%list)) /\
    ev_class ev = event_class_of VersionedEntity KDiscarded.
Proof.
  apply (discard_marks_entity sample_genesis sample_hash (VInt 5) (sample_versioned 3) []).
  - repeat split.
    + exists (VUuid 7). vm_compute. reflexivity.
    + exists (VBool false). split; vm_compute; reflexivity.
    + intros Hc. vm_compute in Hc. discriminate Hc.
    + intros _. exists (VInt 3), 3. split; vm_compute; reflexivity.
  - vm_compute. discriminate.
Defined.

(** ** The hash chain of a history *)

Lemma chain_end_app prev l ev :
  chain_end prev (l ++ [ev])
  = match chain_end prev l with
    | Some h => if bool_decide (ev_dict ev !! "__previous_hash__" = Some h)
                then ev_dict ev !! "__event_hash__" else None
    | None => None
    end.
Proof.
  revert prev. induction l as [|a l IH]; intros prev; cbn [app chain_end].
  - destruct (bool_decide _); [|reflexivity].
    destruct (ev_dict ev !! "__event_hash__"); reflexivity.
  - destruct (bool_decide _); [|reflexivity].
    destruct (ev_dict a !! "__event_hash__"); [apply IH|reflexivity].
Qed.

Lemma hashchain_trigger_step G H now cls kw e hd log s' :
  e_class e = EntityWithHashchain -> field e "__head__" = Some hd ->
  has_hash (ec_owner cls) = true ->
  trigger_event G H now cls kw (Some e, log) = (Ok tt, s') ->
  exists e' ev h',
    s' = (Some e', (log ++ [ev])%list) /\
    ev_dict ev !! "__previous_hash__" = Some hd /\
    ev_dict ev !! "__event_hash__" = Some h' /\
    e_class e' = EntityWithHashchain /\ field e' "__head__" = Some h'.
Proof.
  intros Hc Hh Hhash Ht.
  apply trigger_event_inv in Ht
    as [(x & h' & ? & _)
       |(e_ & i & kw0 & kw' & ev & r0 & h' & _ & He & _ & _ & Hst & Hk & Hne & Hm & ->)];
    [discriminate|].
  inversion He; subst e_. unfold stamped in Hst. rewrite Hc in Hst.
  destruct Hst as (hd' & Hh' & ->). rewrite Hh in Hh'. inversion Hh'; subst hd'.
  apply with_keyword_ok in Hk as [_ ->].
  apply new_event_dict in Hne as (Hcls & Hother & _).
  assert (Hprev : ev_dict ev !! "__previous_hash__" = Some hd).
  { rewrite Hother by done. rewrite lookup_insert_ne by done. apply lookup_insert_eq. }
  apply mutate_ok_inv in Hm as (e0 & e1 & e2 & Hpre & _ & Hks & Hext & ->).
  unfold pre_step, kind_step, ext_step in *. rewrite Hcls in *.
  destruct (ec_owner cls) eqn:Ho; try discriminate.
  destruct (ec_kind cls) eqn:Hkd; try contradiction;
    split_all; subst; split_all; subst;
    eexists _, ev, _; (split; [reflexivity|]); (split; [exact Hprev|]);
    (split; [eassumption|]); (split; [exact Hc|]);
    repeat (rewrite field_upd_ne by done); apply field_upd_eq.
Qed.

Lemma hashchain_trigger_all G H calls : forall e hd log s',
  e_class e = EntityWithHashchain -> field e "__head__" = Some hd ->
  chain_end G log = Some hd ->
  Forall (fun c => has_hash (ec_owner (call_class c)) = true) calls ->
  trigger_all G H calls (Some e, log) = (Ok tt, s') ->
  exists e' hd', s'.1 = Some e' /\ field e' "__head__" = Some hd' /\
                 chain_end G s'.2 = Some hd'.
Proof.
  induction calls as [|c rest IH]; intros e hd log s' Hc Hh Hch Hall Ht.
  - cbn in Ht. inversion Ht; subst s'. exists e, hd. auto.
  - cbn [trigger_all] in Ht. inversion Hall as [|? ? Hhash Hrest]; subst.
    destruct (trigger_event G H (call_now c) (call_class c) (call_kwargs c) (Some e, log))
      as [[[]|x] s1] eqn:Hstep; [|discriminate].
    apply (hashchain_trigger_step G H _ _ _ e hd log s1 Hc Hh Hhash) in Hstep
      as (e1 & ev & h1 & -> & Hprev & Hevh & Hc1 & Hh1).
    apply (IH e1 h1 (log ++ [ev])%list s' Hc1 Hh1); try assumption.
    rewrite chain_end_app, Hch, Hprev.
    rewrite bool_decide_eq_true_2 by reflexivity. exact Hevh.
Qed.

(** X6: [__create__] of an EntityWithHashchain publishes a Created event
    whose [__previous_hash__] is the genesis hash and leaves the head at
    that event's hash; after any successful triggers of hash-chain event
    classes the published history is a chain from the genesis hash, each
    event naming the hash of the one before, and the entity's head is the
    hash of the last event. *)
Theorem hashchain_history_is_chained G H fresh now oid kw calls e0 log0 s' :
  create G H fresh now EntityWithHashchain oid None kw [] = (Ok e0, log0) ->
  Forall (fun c => has_hash (ec_owner (call_class c)) = true) calls ->
  trigger_all G H calls (Some e0, log0) = (Ok tt, s') ->
  (exists created, log0 = [created] /\
     ev_dict created !! "__previous_hash__" = Some G /\
     field e0 "__head__" = ev_dict created !! "__event_hash__") /\
  exists e hd, s'.1 = Some e /\ field e "__head__" = Some hd /\
               chain_end G s'.2 = Some hd.
Proof.
  intros Hc Hall Ht. unfold create in Hc.
  apply DomainEntity_create_ok in Hc as (kw1 & kw2 & ev & Hk1 & Hk2 & Hne & Hm & ->).
  apply with_keyword_ok in Hk1 as [_ ->]. apply with_keyword_ok in Hk2 as [_ ->].
  cbn [default] in Hne.
  apply new_event_dict in Hne as (Hcls & Hother & _).
  assert (Hprev : ev_dict ev !! "__previous_hash__" = Some G).
  { rewrite Hother by done. rewrite !lookup_insert_ne by done. apply lookup_insert_eq. }
  assert (Htopic : ev_dict ev !! "originator_topic"
                   = Some (get_topic EntityWithHashchain)).
  { rewrite Hother by done. apply lookup_insert_eq. }
  apply mutate_created_ok in Hm
    as (c & kwargs & e1 & (t & Htp & Hres) & _ & Hcon & _ & Hh);
    [|rewrite Hcls; reflexivity].
  rewrite Htopic in Htp. inversion Htp; subst t.
  rewrite resolve_get_topic in Hres. inversion Hres; subst c.
  apply construct_fields in Hcon as (Hclass & _).
  rewrite Hcls in Hh. cbn in Hh. destruct Hh as (hash & Hhash & Hh).
  inversion Hh; subst e0.
  split.
  - exists ev. split; [reflexivity|]. split; [exact Hprev|].
    rewrite field_upd_eq, Hhash. reflexivity.
  - apply (hashchain_trigger_all G H calls (upd e1 "__head__" hash) hash
             ([] ++ [ev])%list s'); try assumption.
    + apply field_upd_eq.
    + cbn [app chain_end]. rewrite Hprev.
      rewrite bool_decide_eq_true_2 by reflexivity. rewrite Hhash. reflexivity.
Qed.

Lemma hashchain_history_is_chained_witness :
  let created := create sample_genesis sample_hash (VUuid 7) (VInt 1000)
                   EntityWithHashchain VNone None ∅ [] in
  let s' := (trigger_all sample_genesis sample_hash sample_chain_calls
               (Some (sample_new EntityWithHashchain), created.2)).2 in
  exists e hd, s'.1 = Some e /\ field e "__head__" = Some hd /\
               chain_end sample_genesis s'.2 = Some hd.
Proof.
  intros created s'.
  destruct (hashchain_history_is_chained sample_genesis sample_hash (VUuid 7) (VInt 1000)
              VNone ∅ sample_chain_calls (sample_new EntityWithHashchain)
              created.2 s') as [_ Hchain].
  - vm_compute. reflexivity.
  - repeat constructor.
  - vm_compute. reflexivity.
  - exact Hchain.
Defined.

(** ** Version numbers of a history *)

Lemma numbered_app n l ev :
  numbered n l ->
  ev_dict ev !! "originator_version" = Some (VInt (n + Z.of_nat (length l))) ->
  numbered n (l ++ [ev]).
Proof.
  revert n. induction l as [|a l IH]; intros n Hl Hev; cbn [app numbered length] in *.
  - rewrite Z.add_0_r in Hev. auto.
  - destruct Hl as [Ha Hl]. split; [exact Ha|]. apply IH; [exact Hl|].
    rewrite Hev. do 2 f_equal. lia.
Qed.

Lemma versioned_trigger_stamps G H now cls kw e n log s' :
  is_versioned (e_class e) = true ->
  field e "___version__" = Some (VInt n) ->
  trigger_event G H now cls kw (Some e, log) = (Ok tt, s') ->
  exists ev r0 h',
    s' = (h', (log ++ [ev])%list) /\ ev_class ev = cls /\
    ev_dict ev !! "originator_version" = Some (VInt (n + 1)) /\
    mutate G ev (Some e) = (Ok r0, h').
Proof.
  intros Hv Hn Ht.
  apply trigger_event_inv in Ht
    as [(x & h' & ? & _)
       |(e_ & i & kw0 & kw' & ev & r0 & h' & _ & He & _ & _ & Hst & Hk & Hne & Hm & ->)];
    [discriminate|].
  inversion He; subst e_.
  apply (stamped_versioned e kw kw0 Hv) in Hst as (v & next & Hf & Hs & Hw).
  rewrite Hn in Hf. inversion Hf; subst v. cbn in Hs. inversion Hs; subst next.
  apply with_keyword_ok in Hw as [_ ->]. apply with_keyword_ok in Hk as [_ ->].
  apply new_event_dict in Hne as (Hcls & _ & Hov & _).
  exists ev, r0, h'. split; [reflexivity|]. split; [exact Hcls|]. split; [|exact Hm].
  apply Hov. rewrite lookup_insert_ne by done. apply lookup_insert_eq.
Qed.

Lemma versioned_history_numbered G H calls : forall e n m log s',
  is_versioned (e_class e) = true ->
  field e "___version__" = Some (VInt n) ->
  numbered m log -> m + Z.of_nat (length log) = n + 1 ->
  Forall (fun c => has_version (ec_owner (call_class c)) = true) calls ->
  trigger_all G H calls (Some e, log) = (Ok tt, s') ->
  numbered m s'.2.
Proof.
  induction calls as [|c rest IH]; intros e n m log s' Hv Hn Hnum Hlen Hall Ht.
  - cbn in Ht. inversion Ht; subst s'. exact Hnum.
  - cbn [trigger_all] in Ht. inversion Hall as [|? ? Hhv Hrest]; subst.
    destruct (trigger_event G H (call_now c) (call_class c) (call_kwargs c) (Some e, log))
      as [[[]|x] s1] eqn:Hstep; [|discriminate].
    pose proof Hstep as Hstep'.
    apply (versioned_trigger_stamps G H _ _ _ e n log s1 Hv Hn) in Hstep'
      as (ev & r0 & h' & -> & Hcls & Hov & Hm).
    assert (Hnum' : numbered m (log ++ [ev])).
    { apply numbered_app; [exact Hnum|]. rewrite Hov. do 2 f_equal. lia. }
    destruct (decide (ec_kind (call_class c) = KDiscarded)) as [Hd|Hnd].
    + apply mutate_discarded_ok in Hm as (e0 & _ & _ & ->); [|rewrite Hcls; exact Hd].
      destruct rest as [|c2 rest2].
      * cbn in Ht. inversion Ht; subst s'. exact Hnum'.
      * exfalso. cbn [trigger_all] in Ht. unfold Heap in *.
        destruct (trigger_event G H (call_now c2) (call_class c2) (call_kwargs c2)
                    (Some (upd e0 "__is_discarded__" (VBool true)), (log ++ [ev])%list))
          as [[[]|x2] s2] eqn:Hs2; [|discriminate Ht].
        destruct (trigger_event_discarded_fails G H (call_now c2) (call_class c2)
                    (call_kwargs c2) (upd e0 "__is_discarded__" (VBool true))
                    (log ++ [ev])%list) as [x Hx].
        { unfold is_discarded. rewrite field_upd_eq. reflexivity. }
        rewrite Hx in Hs2. discriminate Hs2.
    + apply (versioned_trigger_step G H _ _ _ e n log _ Hv Hn Hhv Hnd) in Hstep
        as (e1 & ev1 & Heq & _ & Hv1 & Hn1).
      inversion Heq as [[Hh Hl]]. apply app_inj_tail in Hl as [_ <-]. subst h'.
      apply (IH e1 (n + 1) m (log ++ [ev])%list s' Hv1 Hn1 Hnum'); try assumption.
      rewrite length_app. cbn [length]. lia.
Qed.

(** X7: the history of a versioned entity made by [__create__] and
    successful triggers of versioned event classes (a Discarded one
    included) carries the versions 0, 1, 2, ... in order: the Created
    event has version 0 and every trigger stamps the next number. *)
Theorem versioned_history_is_numbered G H fresh now cls oid kw calls e0 log0 s' :
  is_versioned cls = true ->
  kw !! "originator_version" = None ->
  create G H fresh now cls oid None kw [] = (Ok e0, log0) ->
  Forall (fun c => has_version (ec_owner (call_class c)) = true) calls ->
  trigger_all G H calls (Some e0, log0) = (Ok tt, s') ->
  length s'.2 = S (length calls) /\ numbered 0 s'.2.
Proof.
  intros Hv Hnone Hc Hall Ht.
  destruct (create_versioned_at_zero _ _ _ _ _ _ _ _ _ _ Hv Hnone Hc) as [Hcls H0].
  split.
  - pose proof Hc as Hc'. apply create_ok in Hc' as (ev & -> & _).
    rewrite (trigger_all_length _ _ _ _ _ Ht). reflexivity.
  - rewrite (create_versioned_base _ _ _ _ _ _ _ _ _ Hv) in Hc.
    apply DomainEntity_create_ok in Hc as (kw1 & kw2 & ev & Hk1 & Hk2 & Hne & _ & ->).
    apply with_keyword_ok in Hk1 as [_ ->]. apply with_keyword_ok in Hk2 as [_ ->].
    cbn [default] in Hne.
    apply new_event_dict in Hne as (_ & _ & _ & Hzero & _).
    specialize (Hzero (versioned_events_owner cls Hv) eq_refl).
    rewrite !lookup_insert_ne in Hzero by done. specialize (Hzero Hnone).
    apply (versioned_history_numbered G H calls e0 0 0 ([] ++ [ev])%list s');
      try assumption.
    + rewrite Hcls. exact Hv.
    + cbn. auto.
    + reflexivity.
Qed.

Lemma versioned_history_is_numbered_witness :
  let s' := (trigger_all sample_genesis sample_hash sample_versioned_calls
               (Some (sample_new VersionedEntity), (sample_created VersionedEntity).2)).2 in
  length s'.2 = 3%nat /\ numbered 0 s'.2.
Proof.
  intros s'.
  apply (versioned_history_is_numbered sample_genesis sample_hash (VUuid 7) (VInt 1000)
           VersionedEntity VNone ∅ sample_versioned_calls (sample_new VersionedEntity)
           (sample_created VersionedEntity).2 s').
  - reflexivity.
  - reflexivity.
  - vm_compute. reflexivity.
  - repeat constructor.
  - vm_compute. reflexivity.
Defined.

(** ** Constructor signatures *)

Lemma DomainEntity_init_intro kw i :
  kw !! "id" = Some i -> delete "id" kw = ∅ ->
  DomainEntity_init kw
  = Ok (<["__is_discarded__" := VBool false]> (<["_id" := i]> ∅)).
Proof.
  intros Hi He. unfold DomainEntity_init, pop_arg. rewrite Hi. cbn [rbind fst snd].
  rewrite He. rewrite bool_decide_eq_true_2 by reflexivity. reflexivity.
Qed.

Lemma layer_init_intro (name : string)
  (store : Val -> gmap string Val -> gmap string Val) (super : InitFn) kw v d0 :
  kw !! name = Some v -> super (delete name kw) = Ok d0 ->
  (try p <- pop_arg name kw; try d <- super p.2; Ok (store p.1 d)) = Ok (store v d0).
Proof.
  intros Hv Hs. unfold pop_arg. rewrite Hv. cbn [rbind fst snd]. rewrite Hs.
  reflexivity.
Qed.

Lemma dom_params_lookup (kw : gmap string Val) (ps : gset string) k :
  dom kw = ps -> k ∈ ps -> exists v, kw !! k = Some v.
Proof.
  intros Hd Hk. rewrite <- Hd in Hk. apply elem_of_dom in Hk as [v Hv]. eauto.
Qed.

(** X8: calling an entity class succeeds exactly when the keyword
    arguments are the parameters of its [__init__] chain, no more and no
    fewer: [id], and [__version__], [__created_on__], [event_id] for the
    versioned, timestamped and time-uuided classes. *)
Theorem construct_accepts_exactly_its_parameters G c kw :
  (exists e, construct G c kw = Ok e) <-> dom kw = init_params c.
Proof.
  split.
  - intros [e He]. unfold construct in He.
    apply rbind_inv in He as [(d & Hd & _)|(x & _ & ?)]; [|discriminate].
    destruct c; unfold class_init in Hd.
    2: unfold EntityWithHashchain_init in Hd;
       apply rbind_inv in Hd as [(d0 & Hd & _)|(x & _ & ?)]; [|discriminate].
    all: inv_init Hd; apply (f_equal dom) in Hd;
      rewrite ?dom_delete_L, dom_empty_L in Hd;
      repeat match goal with
             | Hx : _ !! _ = Some _ |- _ => apply elem_of_dom_2 in Hx
             end;
      rewrite ?dom_delete_L in *; unfold init_params;
      apply set_eq; intros k; set_unfold;
      repeat match goal with
             | Hx : forall _, _ |- _ => specialize (Hx k)
             end;
      destruct (decide (k = "id")); destruct (decide (k = "__version__"));
      destruct (decide (k = "__created_on__")); destruct (decide (k = "event_id"));
      subst; first [tauto | congruence | naive_solver].
  - intros Hdom. unfold construct.
    assert (Hid : exists i, kw !! "id" = Some i).
    { apply (dom_params_lookup kw _ "id" Hdom). destruct c; set_solver. }
    destruct Hid as [i Hi].
    assert (Hget : forall k, k ∈ init_params c -> exists v, kw !! k = Some v).
    { intros k. apply dom_params_lookup. exact Hdom. }
    destruct c; cbn [init_params] in *; unfold class_init, EntityWithHashchain_init,
      TimestampedEntity_init, TimeuuidedEntity_init, VersionedEntity_init,
      DomainEntity_init, pop_arg;
    repeat match goal with
           | |- context [match kw !! ?k with _ => _ end] =>
               let v := fresh "v" in let Hv := fresh "Hv" in
               destruct (Hget k ltac:(set_solver)) as [v Hv]; rewrite Hv;
               cbn [rbind fst snd]
           | |- context [match delete ?a ?m !! ?k with _ => _ end] =>
               rewrite (lookup_delete_ne m a k) by done
           | |- context [match Some _ with _ => _ end] => cbn [rbind fst snd]
           end;
    (rewrite bool_decide_eq_true_2;
      [cbn [rbind]; eexists; reflexivity
      |apply dom_empty_iff_L; rewrite !dom_delete_L, Hdom; set_solver]).
Qed.

Lemma construct_accepts_exactly_its_parameters_witness :
  (exists e, construct sample_genesis VersionedEntity
               (list_to_map [("id", VUuid 7); ("__version__", VInt 0)]) = Ok e) /\
  ~ (exists e, construct sample_genesis DomainEntity
                 (list_to_map [("id", VUuid 7); ("foo", VInt 1)]) = Ok e).
Proof.
  split.
  - apply (construct_accepts_exactly_its_parameters sample_genesis VersionedEntity).
    vm_compute. reflexivity.
  - intros He.
    apply (construct_accepts_exactly_its_parameters sample_genesis DomainEntity) in He.
    vm_compute in He. discriminate He.
Defined.

(** ** What create returns *)

(** X9: the entity [__create__] returns is an instance of the class it
    was called on, its id is the [originator_id] given, or the fresh uuid
    when none was given, and it is not discarded. *)
Theorem create_returns_live_instance G H fresh now cls oid evc kw log e log' :
  create G H fresh now cls oid evc kw log = (Ok e, log') ->
  e_class e = cls /\
  field e "_id" = Some (if bool_decide (oid = VNone) then fresh else oid) /\
  field e "__is_discarded__" = Some (VBool false).
Proof.
  intros Hc.
  apply create_ok in Hc as (ev & _ & Hm & Hk & Htopic & Hid).
  apply mutate_created_ok in Hm
    as (c & kwargs & e0 & (t & Htp & Hres) & Hkw & Hcon & _ & Hh); [|assumption].
  rewrite Htopic in Htp. inversion Htp; subst t.
  rewrite resolve_get_topic in Hres. inversion Hres; subst c.
  apply entity_kwargs_fields in Hkw as (Hkid & _).
  apply construct_fields in Hcon as (Hclass & Hfid & Hfd & _).
  rewrite Hkid, Hid in Hfid.
  destruct (has_hash (ec_owner (ev_class ev))).
  - destruct Hh as (hash & _ & Hh). inversion Hh; subst e.
    rewrite !field_upd_ne by done. auto.
  - inversion Hh; subst e. auto.
Qed.

Lemma create_returns_live_instance_witness :
  e_class (sample_new TimestampedVersionedEntity) = TimestampedVersionedEntity /\
  field (sample_new TimestampedVersionedEntity) "_id" = Some (VUuid 7) /\
  field (sample_new TimestampedVersionedEntity) "__is_discarded__" = Some (VBool false).
Proof.
  apply (create_returns_live_instance sample_genesis sample_hash (VUuid 7) (VInt 1000)
           TimestampedVersionedEntity VNone None ∅ []
           (sample_new TimestampedVersionedEntity)
           (sample_created TimestampedVersionedEntity).2).
  vm_compute. reflexivity.
Defined.



(** ** Equality of entities *)

Lemma py_eq_sym a b : py_eq a b = py_eq b a.
Proof.
  unfold py_eq. destruct (as_int a), (as_int b); try reflexivity.
  - apply bool_decide_ext. split; congruence.
  - apply bool_decide_ext. split; congruence.
Qed.

Lemma py_eq_trans a b c : py_eq a b = true -> py_eq b c = true -> py_eq a c = true.
Proof.
  unfold py_eq. destruct (as_int a), (as_int b), (as_int c); try discriminate;
    intros H1 H2; apply bool_decide_eq_true_1 in H1, H2;
    apply bool_decide_eq_true_2; congruence.
Qed.

Lemma entity_eq_spec a b :
  entity_eq a b = true <->
  e_class a = e_class b /\ dom (e_dict a) = dom (e_dict b) /\
  forall k v, e_dict a !! k = Some v ->
              exists w, e_dict b !! k = Some w /\ py_eq v w = true.
Proof.
  unfold entity_eq. rewrite !andb_true_iff, !bool_decide_eq_true, forallb_forall.
  split.
  - intros [[Hc Hd] Hall]. split; [exact Hc|]. split; [exact Hd|].
    intros k v Hk. specialize (Hall (k, v)). cbn [fst snd] in Hall.
    destruct (e_dict b !! k) as [w|].
    + exists w. split; [reflexivity|]. apply Hall.
      apply list_elem_of_In, elem_of_map_to_list. exact Hk.
    + exfalso. assert (false = true); [|discriminate]. apply Hall.
      apply list_elem_of_In, elem_of_map_to_list. exact Hk.
  - intros (Hc & Hd & Hall). split; [auto|]. intros [k v] Hin. cbn [fst snd].
    apply list_elem_of_In, elem_of_map_to_list in Hin.
    destruct (Hall k v Hin) as (w & -> & Hw). exact Hw.
Qed.

(** X11: [__eq__] is reflexive, symmetric and transitive on entities,
    and equal entities have the same class. *)
Theorem entity_eq_is_equivalence :
  (forall a, entity_eq a a = true) /\
  (forall a b, entity_eq a b = true -> entity_eq b a = true) /\
  (forall a b c, entity_eq a b = true -> entity_eq b c = true -> entity_eq a c = true) /\
  (forall a b, entity_eq a b = true -> e_class a = e_class b).
Proof.
  split; [apply entity_eq_refl|]. split; [|split].
  - intros a b Hab. apply entity_eq_spec in Hab as (Hc & Hd & Hall).
    apply entity_eq_spec. split; [auto|]. split; [auto|].
    intros k w Hk.
    assert (Hin : k ∈ dom (e_dict a)).
    { rewrite Hd. apply elem_of_dom. eauto. }
    apply elem_of_dom in Hin as [v Hv].
    destruct (Hall k v Hv) as (w' & Hw' & Heq).
    rewrite Hk in Hw'. inversion Hw'; subst w'.
    exists v. split; [exact Hv|]. rewrite py_eq_sym. exact Heq.
  - intros a b c Hab Hbc.
    apply entity_eq_spec in Hab as (Hc1 & Hd1 & Hall1).
    apply entity_eq_spec in Hbc as (Hc2 & Hd2 & Hall2).
    apply entity_eq_spec. split; [congruence|]. split; [congruence|].
    intros k v Hk. destruct (Hall1 k v Hk) as (w & Hw & H1).
    destruct (Hall2 k w Hw) as (u & Hu & H2).
    exists u. split; [exact Hu|]. eapply py_eq_trans; eassumption.
  - intros a b Hab. apply entity_eq_spec in Hab as (Hc & _). exact Hc.
Qed.

Lemma entity_eq_is_equivalence_witness :
  entity_eq sample_int_entity sample_bool_entity = true.
Proof.
  destruct entity_eq_is_equivalence as (_ & Hsym & _).
  apply (Hsym sample_bool_entity sample_int_entity).
  vm_compute. reflexivity.
Defined.

(** ** Time-uuided entities *)

Lemma construct_timeuuided G c kwargs e :
  construct G c kwargs = Ok e -> is_Timeuuided c = true ->
  exists v, kwargs !! "event_id" = Some v /\
            field e "___initial_event_id__" = Some v /\
            field e "___last_event_id__" = Some v.
Proof.
  unfold construct. intros Heq Hc.
  apply rbind_inv in Heq as [(d & Hd & Heq)|(x & _ & ?)]; [|discriminate].
  inversion Heq; subst e; clear Heq. unfold field. cbn [e_dict].
  destruct c; try discriminate; unfold class_init in Hd; inv_init Hd;
    match goal with
    | Hx : kwargs !! "event_id" = Some ?v |- _ => exists v
    end;
    (split; [assumption|]); lookup_simpl; auto.
Qed.

(** X12: a TimeuuidedEntity is built with [__created_on__] and
    [__last_modified__] both read from the one [event_id], and no event
    application changes either, whatever its outcome, unless it is an
    AttributeChanged naming the stored id itself: the module has no event
    that advances [___last_event_id__]. *)
Theorem timeuuided_last_modified_never_advances G from_uuid :
  (forall c kwargs e,
     construct G c kwargs = Ok e -> is_Timeuuided c = true ->
     exists v, kwargs !! "event_id" = Some v /\
               Timeuuided_created_on from_uuid e = Ok (from_uuid v) /\
               Timeuuided_last_modified from_uuid e = Ok (from_uuid v)) /\
  (forall ev e r h',
     mutate G ev (Some e) = (r, h') ->
     ~ (ec_kind (ev_class ev) = KAttributeChanged /\
        (ev_dict ev !! "name" = Some (VStr "___initial_event_id__") \/
         ev_dict ev !! "name" = Some (VStr "___last_event_id__"))) ->
     exists e', h' = Some e' /\
       Timeuuided_created_on from_uuid e' = Timeuuided_created_on from_uuid e /\
       Timeuuided_last_modified from_uuid e' = Timeuuided_last_modified from_uuid e).
Proof.
  split.
  - intros c kwargs e Hcon Hc.
    destruct (construct_timeuuided G c kwargs e Hcon Hc) as (v & Hv & Hi & Hl).
    exists v. unfold Timeuuided_created_on, Timeuuided_last_modified.
    rewrite Hi, Hl. auto.
  - intros ev e r h' Hm Hnot.
    apply frames_mutate in Hm as (e' & -> & _ & Hk).
    exists e'. split; [reflexivity|].
    unfold Timeuuided_created_on, Timeuuided_last_modified.
    rewrite !Hk; [auto| |].
    + unfold touched. intros [[? ?]|[[_ ?]|[[_ ?]|[[_ ?]|[_ ?]]]]];
        try discriminate. apply Hnot. auto.
    + unfold touched. intros [[? ?]|[[_ ?]|[[_ ?]|[[_ ?]|[_ ?]]]]];
        try discriminate. apply Hnot. auto.
Qed.

Lemma timeuuided_last_modified_never_advances_witness :
  exists e',
    (mutate sample_genesis (sample_change ODomain []) (Some sample_timeuuided)).2 = Some e' /\
    Timeuuided_last_modified (fun v => v) e' = Ok (VUuid 100).
Proof.
  destruct (timeuuided_last_modified_never_advances sample_genesis (fun v => v))
    as [_ Hlater].
  destruct (Hlater (sample_change ODomain []) sample_timeuuided
              (mutate sample_genesis (sample_change ODomain []) (Some sample_timeuuided)).1
              (mutate sample_genesis (sample_change ODomain []) (Some sample_timeuuided)).2)
    as (e' & He' & _ & Hl).
  - vm_compute. reflexivity.
  - intros [_ [Hn|Hn]]; vm_compute in Hn; discriminate Hn.
  - exists e'. split; [exact He'|]. rewrite Hl. vm_compute. reflexivity.
Defined.

(** ** The instance assertion of the timestamp layer *)

(** X13: the instance assertion of the timestamp layer runs after the
    AttributeChanged step.  A TimestampedEntity.AttributeChanged event
    applied to an entity of another class, with matching id, raises
    AssertionError with the named attribute already assigned. *)
Theorem timestamped_event_on_other_entity G ev e i o s v :
  ec_owner (ev_class ev) = OTimestamped ->
  ec_kind (ev_class ev) = KAttributeChanged ->
  is_TimestampedEntity (e_class e) = false ->
  field e "_id" = Some i -> ev_dict ev !! "originator_id" = Some o ->
  py_eq i o = true ->
  ev_dict ev !! "name" = Some (VStr s) -> ev_dict ev !! "value" = Some v ->
  is_property (e_class e) s = false ->
  mutate G ev (Some e) = (Raise AssertionError, Some (upd e s v)).
Proof.
  intros Ho Hk Hc Hi Hoid Hid Hn Hv Hp.
  assert (Hch : check_obj ev (Some e) = (Ok tt, Some e)).
  { unfold check_obj. rewrite Ho. eapply DomainEntity_check_match; eassumption. }
  pose proof (kind_mutate_intro G ev None e (upd e s v) RObj Hch) as Hkm.
  unfold kind_step in Hkm. rewrite Hk in Hkm.
  specialize (Hkm ltac:(exists s, v; auto 10)).
  unfold mutate, mutate_on. rewrite Ho, Hk.
  unfold TimestampedEntity_Event_mutate. rewrite (bind_ok _ _ _ _ _ Hkm).
  unfold when_ref, bind. cbn [e_class upd]. rewrite Hc. reflexivity.
Qed.

Lemma timestamped_event_on_other_entity_witness :
  mutate sample_genesis (sample_timed_event KAttributeChanged) (Some sample_live)
  = (Raise AssertionError, Some (upd sample_live "foo" (VInt 1))).
Proof.
  apply (timestamped_event_on_other_entity sample_genesis
           (sample_timed_event KAttributeChanged) sample_live (VUuid 7) (VUuid 7)
           "foo" (VInt 1)); vm_compute; reflexivity.
Defined.

(** ** Created events and existing instances *)

(** X14: a Created event applied to an existing instance raises and
    leaves the instance unchanged, for every event class: the instance is
    not callable. *)
Theorem created_event_rejects_instance G ev e :
  ec_kind (ev_class ev) = KCreated ->
  exists x, mutate G ev (Some e) = (Raise x, Some e).
Proof.
  intros Hk.
  destruct (DomainEntity_Created_mutate G ev None (Some e)) as [r h'] eqn:Hc.
  pose proof Hc as Hc'.
  apply Created_mutate_on_instance in Hc' as [-> [x ->]].
  exists x. unfold mutate, mutate_on, kind_mutate. rewrite Hk.
  destruct (ec_owner (ev_class ev)); try exact Hc.
  unfold EntityWithHashchain_Event_mutate. apply bind_raise. exact Hc.
Qed.

Lemma created_event_rejects_instance_witness :
  exists x, mutate sample_genesis (sample_timed_event KCreated) (Some sample_timestamped)
            = (Raise x, Some sample_timestamped).
Proof.
  apply (created_event_rejects_instance sample_genesis (sample_timed_event KCreated)
           sample_timestamped).
  reflexivity.
Defined.

(** ** Composed extensions *)

(** X15: one successful trigger of a TimestampedVersionedEntity event
    other than Discarded on such an entity runs both layers: the version
    becomes the stamped version, one more than before, and
    [___last_modified__] the event's timestamp. *)
Theorem composed_event_updates_version_and_time G H now k kw e n log s' :
  e_class e = TimestampedVersionedEntity ->
  field e "___version__" = Some (VInt n) ->
  k <> KDiscarded ->
  trigger_event G H now (MkEventClass OTimestampedVersioned k) kw (Some e, log)
  = (Ok tt, s') ->
  exists e' ev t,
    s' = (Some e', (log ++ [ev])%list) /\
    ev_dict ev !! "originator_version" = Some (VInt (n + 1)) /\
    ev_dict ev !! "timestamp" = Some t /\
    field e' "___version__" = Some (VInt (n + 1)) /\
    field e' "___last_modified__" = Some t.
Proof.
  intros Hc Hn Hk Ht.
  assert (Hv : is_versioned (e_class e) = true) by (rewrite Hc; reflexivity).
  apply (versioned_trigger_stamps G H _ _ _ e n log s' Hv Hn) in Ht
    as (ev & r0 & h' & -> & Hcls & Hov & Hm).
  pose proof Hm as Hm'.
  apply mutate_ok_inv in Hm' as (e0 & e1 & e2 & Hpre & _ & Hks & Hext & ->).
  unfold pre_step, kind_step, ext_step in *. rewrite Hcls in *.
  cbn [ec_owner ec_kind] in *.
  destruct k; try contradiction; try congruence;
    split_all; subst; split_all; subst;
    eexists _, ev, _; (split; [reflexivity|]); (split; [exact Hov|]);
    (split; [eassumption|]);
    (split; [rewrite field_upd_ne by done; rewrite field_upd_eq; congruence|]);
    apply field_upd_eq.
Qed.

Lemma composed_event_updates_version_and_time_witness :
  exists e' ev t,
    (trigger_event sample_genesis sample_hash (VInt 2000)
       (MkEventClass OTimestampedVersioned KEvent) ∅ (Some sample_composed, [])).2
    = (Some e', ([] ++ [ev])%list) /\
    ev_dict ev !! "originator_version" = Some (VInt (4 + 1)) /\
    ev_dict ev !! "timestamp" = Some t /\
    field e' "___version__" = Some (VInt (4 + 1)) /\
    field e' "___last_modified__" = Some t.
Proof.
  apply (composed_event_updates_version_and_time sample_genesis sample_hash (VInt 2000)
           KEvent ∅ sample_composed 4 []).
  - reflexivity.
  - vm_compute. reflexivity.
  - discriminate.
  - vm_compute. reflexivity.
Defined.
